(** * VOID anonymous whisper board: the Express/Mongoose back end

    A shallow embedding of [src/backend/server.js].  The three Mongoose
    collections are lists of records in insertion order, every route is a
    function from the database to a response and a new database, and the
    [authUser] middleware either answers the request itself or hands the
    resolved user to the route's handler. *)

From Stdlib Require Import List String Ascii ZArith Lia Bool Arith.
From Stdlib Require Import Permutation Sorted Relations.
Import ListNotations.

Local Open Scope string_scope.
Local Open Scope Z_scope.
Local Open Scope list_scope.

(* ------------------------------------------------------------------ *)
(** ** JavaScript values used by the handlers *)

Module Js.

(** Request fields ([req.headers[..]], [req.body.x], [req.query.x]) are
    strings that may be missing: [None] is [undefined]. *)
Definition truthy (v : option string) : bool :=
  match v with
  | None => false
  | Some s => negb (s =? "")%string
  end.

(** [String.prototype.toLowerCase] on the code units A..Z. *)
Definition lower_char (c : ascii) : ascii :=
  let n := nat_of_ascii c in
  if ((65 <=? n) && (n <=? 90))%nat then ascii_of_nat (n + 32) else c.

Fixpoint toLowerCase (s : string) : string :=
  match s with
  | EmptyString => EmptyString
  | String c s' => String (lower_char c) (toLowerCase s')
  end.

(** [s.includes(w)]: [w] occurs in [s] as a contiguous substring. *)
Fixpoint includes (s w : string) : bool :=
  String.prefix w s ||
  match s with
  | EmptyString => false
  | String _ s' => includes s' w
  end.

(** [arr.includes(v)] for an array of strings and a possibly missing [v]. *)
Definition array_includes (arr : list string) (v : option string) : bool :=
  match v with
  | None => false
  | Some s => existsb (String.eqb s) arr
  end.

(** [v === s] against a string literal *)
Definition strict_eq (v : option string) (s : string) : bool :=
  match v with
  | None => false
  | Some s' => (s' =? s)%string
  end.

(** [arr.some(f)] *)
Definition some {A} (f : A -> bool) (arr : list A) : bool := existsb f arr.

(** One position of a regular expression that consumes one code unit. *)
Inductive atom :=
| Lit (c : ascii)
| Range2 (lo1 hi1 lo2 hi2 : ascii).

Definition in_range (lo hi c : ascii) : bool :=
  ((nat_of_ascii lo <=? nat_of_ascii c) && (nat_of_ascii c <=? nat_of_ascii hi))%nat.

Definition atom_matches (a : atom) (c : ascii) : bool :=
  match a with
  | Lit c' => Ascii.eqb c c'
  | Range2 lo1 hi1 lo2 hi2 => in_range lo1 hi1 c || in_range lo2 hi2 c
  end.

Fixpoint lits (s : string) : list atom :=
  match s with
  | EmptyString => []
  | String c s' => Lit c :: lits s'
  end.

(** [/^ a1 a2 ... an $/.test(s)] without flags: the whole of [s] is
    matched, one code unit per atom. *)
Fixpoint anchored_test (re : list atom) (s : string) : bool :=
  match re, s with
  | [], EmptyString => true
  | a :: re', String c s' => atom_matches a c && anchored_test re' s'
  | _, _ => false
  end.

End Js.

(* ------------------------------------------------------------------ *)
(** ** Schemas *)

Definition ObjectId := nat.

Module User.
Record t := mk {
  _id : ObjectId;
  deviceToken : string;
  lightPoints : Z;            (* default 0 *)
  isBanned : bool;            (* default false *)
  createdAt : Z               (* default Date.now *)
}.
Definition inc_lightPoints (n : Z) (u : t) : t :=
  mk (_id u) (deviceToken u) (lightPoints u + n) (isBanned u) (createdAt u).
Definition set_isBanned (b : bool) (u : t) : t :=
  mk (_id u) (deviceToken u) (lightPoints u) b (createdAt u).
End User.

Module VoidPost.
Record t := mk {
  _id : ObjectId;
  mood : string;
  text : string;
  room : string;              (* default "general" *)
  authorToken : string;
  status : string;            (* default "active"; active, hidden, deleted *)
  reports : Z;                (* default 0 *)
  replyCount : Z;             (* default 0 *)
  createdAt : Z               (* default Date.now *)
}.
Definition inc_reports (n : Z) (p : t) : t :=
  mk (_id p) (mood p) (text p) (room p) (authorToken p) (status p)
     (reports p + n) (replyCount p) (createdAt p).
Definition inc_replyCount (n : Z) (p : t) : t :=
  mk (_id p) (mood p) (text p) (room p) (authorToken p) (status p)
     (reports p) (replyCount p + n) (createdAt p).
Definition set_status (s : string) (p : t) : t :=
  mk (_id p) (mood p) (text p) (room p) (authorToken p) s
     (reports p) (replyCount p) (createdAt p).
End VoidPost.

Module VoidReply.
Record t := mk {
  _id : ObjectId;
  postId : ObjectId;
  text : string;
  responderToken : string;
  isAuthorReply : bool;       (* default false *)
  status : string;            (* default "visible" *)
  reports : Z;                (* default 0 *)
  createdAt : Z               (* default Date.now *)
}.
Definition inc_reports (n : Z) (r : t) : t :=
  mk (_id r) (postId r) (text r) (responderToken r) (isAuthorReply r)
     (status r) (reports r + n) (createdAt r).
Definition set_status (s : string) (r : t) : t :=
  mk (_id r) (postId r) (text r) (responderToken r) (isAuthorReply r)
     s (reports r) (createdAt r).
End VoidReply.

(** The database: the three collections and the source of fresh ids. *)
Record Db := mkDb {
  users : list User.t;
  posts : list VoidPost.t;
  replies : list VoidReply.t;
  nextId : ObjectId
}.

Definition emptyDb : Db := mkDb [] [] [] 0%nat.

(** What a request reads from outside the database: the clock behind
    [Date.now], the draw behind [$sample], and [process.env.ADMIN_KEY]. *)
Record Env := mkEnv {
  now : Z;
  draw : nat;
  env_ADMIN_KEY : option string
}.

(* ------------------------------------------------------------------ *)
(** ** Collection operations (the part of Mongoose/MongoDB the code uses) *)

Module Mongo.

Section Collection.
Context {A : Type}.

(** [Model.findOne(filter)]: the first matching document, or null. *)
Definition findOne (filter : A -> bool) (c : list A) : option A :=
  List.find filter c.

(** [Model.find(filter)] *)
Definition find (filter : A -> bool) (c : list A) : list A :=
  List.filter filter c.

(** [Model.findOneAndUpdate(filter, update)] changes the first matching
    document only and leaves the collection alone when none matches. *)
Fixpoint updateOne (filter : A -> bool) (update : A -> A) (c : list A) : list A :=
  match c with
  | [] => []
  | d :: c' =>
      if filter d then update d :: c' else d :: updateOne filter update c'
  end.

(** [Model.updateMany(filter, update)] *)
Definition updateMany (filter : A -> bool) (update : A -> A) (c : list A) : list A :=
  map (fun d => if filter d then update d else d) c.

(** A sort specification [{ k1: 1, k2: -1, ... }]: the keys in order,
    each with its direction. *)
Definition sortSpec := list ((A -> Z) * Z).

(** [comes_first spec a b]: [a] does not sort after [b]. *)
Fixpoint comes_first (spec : sortSpec) (a b : A) : bool :=
  match spec with
  | [] => true
  | (key, dir) :: spec' =>
      match key a ?= key b with
      | Eq => comes_first spec' a b
      | Lt => 0 <? dir
      | Gt => dir <? 0
      end
  end.

Fixpoint insert_sorted (spec : sortSpec) (d : A) (l : list A) : list A :=
  match l with
  | [] => [d]
  | x :: l' =>
      if comes_first spec d x then d :: l else x :: insert_sorted spec d l'
  end.

(** [$sort] / [.sort(spec)].  Documents that agree on every key keep
    some order the engine chooses; here it is the one of an insertion
    sort. *)
Definition sort (spec : sortSpec) (l : list A) : list A :=
  fold_right (insert_sorted spec) [] l.

(** [$limit: n] *)
Definition limit (n : nat) (l : list A) : list A := firstn n l.

(** [$sample: { size: 1 }]: one document of the input, chosen by the
    draw; nothing when the input is empty. *)
Definition sample1 (draw : nat) (l : list A) : list A :=
  match nth_error l (draw mod List.length l)%nat with
  | Some d => [d]
  | None => []
  end.

(** [Model.aggregate(pipeline)] feeds the collection through the stages. *)
Definition aggregate (pipeline : list (list A -> list A)) (c : list A) : list A :=
  fold_left (fun docs stage => stage docs) pipeline c.
End Collection.

(** [query.distinct('postId')]: each value once. *)
Fixpoint distinct (l : list ObjectId) : list ObjectId :=
  match l with
  | [] => []
  | x :: l' => x :: List.filter (fun y => negb (Nat.eqb x y)) (distinct l')
  end.

(** The conditions a [$match] object of the code can hold. *)
Inductive cond :=
| status_eq (s : string)            (* status: s *)
| reports_lt (n : Z)                (* reports: { $lt: n } *)
| authorToken_ne (tok : string)     (* authorToken: { $ne: tok } *)
| room_eq (r : string).             (* room: r *)

Definition holds (c : cond) (p : VoidPost.t) : bool :=
  match c with
  | status_eq s => (VoidPost.status p =? s)%string
  | reports_lt n => VoidPost.reports p <? n
  | authorToken_ne tok => negb (VoidPost.authorToken p =? tok)%string
  | room_eq r => (VoidPost.room p =? r)%string
  end.

(** [$match: obj]: every field of the object must hold. *)
Definition matches (obj : list cond) (p : VoidPost.t) : bool :=
  forallb (fun c => holds c p) obj.

End Mongo.

(* ------------------------------------------------------------------ *)
(** ** Responses and the handler monad *)

Inductive Body :=
| Empty
| ErrorMsg (error : string)                     (* { error } *)
| ShadowBanned                                  (* { success: true, shadowBanned: true } *)
| Points (lightPoints : Z)                      (* { lightPoints } *)
| PostDoc (post : VoidPost.t)
| Success                                       (* { success: true } *)
| SuccessMsg (message : string)                 (* { success: true, message } *)
| MyRoom (myPosts : list (VoidPost.t * list VoidReply.t))
         (myInteractions : list (VoidPost.t * list VoidReply.t))
| Dashboard (flaggedPosts : list VoidPost.t) (flaggedReplies : list VoidReply.t).

(** What the client gets: a status with a body, or nothing because the
    handler threw before it sent anything. *)
Inductive Response :=
| Send (status : nat) (body : Body)
| Threw (error : string).

(** A step of a middleware chain either goes on with a value or has
    answered the request. *)
Inductive Step (A : Type) :=
| Next (a : A)
| Sent (r : Response).
Arguments Next {A} a.
Arguments Sent {A} r.

Definition M (A : Type) : Type := Db -> Step A * Db.

Definition ret {A} (a : A) : M A := fun db => (Next a, db).

Definition bind {A B} (m : M A) (k : A -> M B) : M B :=
  fun db =>
    match m db with
    | (Next a, db') => k a db'
    | (Sent r, db') => (Sent r, db')
    end.

(** [return res.status(s).json(body)] *)
Definition respond {A} (status : nat) (body : Body) : M A :=
  fun db => (Sent (Send status body), db).

(** An exception that nothing catches. *)
Definition throw {A} (error : string) : M A :=
  fun db => (Sent (Threw error), db).

Declare Scope handler_scope.
Delimit Scope handler_scope with handler.
Notation "x <- m ;; k" := (bind m (fun x => k))
  (at level 61, m at next level, right associativity) : handler_scope.
Notation "m ;; k" := (bind m (fun _ => k))
  (at level 61, right associativity) : handler_scope.
Local Open Scope handler_scope.

(** Reading a property of a value that may be null. *)
Definition deref {A} (v : option A) : M A :=
  match v with
  | Some a => ret a
  | None => throw "TypeError: Cannot read properties of null"
  end.

(** A handler never falls through: it ends by sending. *)
Definition run (h : M Empty_set) (db : Db) : Response * Db :=
  match h db with
  | (Sent r, db') => (r, db')
  | (Next e, _) => match e with end
  end.

(* ------------------------------------------------------------------ *)
(** ** The models [User], [VoidPost], [VoidReply] as database actions *)

Definition reads {A} (f : Db -> A) : M A := fun db => (Next (f db), db).

Definition with_users (f : list User.t -> list User.t) (db : Db) : Db :=
  mkDb (f (users db)) (posts db) (replies db) (nextId db).
Definition with_posts (f : list VoidPost.t -> list VoidPost.t) (db : Db) : Db :=
  mkDb (users db) (f (posts db)) (replies db) (nextId db).
Definition with_replies (f : list VoidReply.t -> list VoidReply.t) (db : Db) : Db :=
  mkDb (users db) (posts db) (f (replies db)) (nextId db).
Definition fresh_id (db : Db) : Db :=
  mkDb (users db) (posts db) (replies db) (S (nextId db)).

Definition has_deviceToken (tok : string) (u : User.t) : bool :=
  (User.deviceToken u =? tok)%string.
Definition post_has_id (id : ObjectId) (p : VoidPost.t) : bool :=
  Nat.eqb (VoidPost._id p) id.
Definition reply_has_id (id : ObjectId) (r : VoidReply.t) : bool :=
  Nat.eqb (VoidReply._id r) id.

(** [User.findOne({ deviceToken })] *)
Definition User_findOne (tok : string) : M (option User.t) :=
  reads (fun db => Mongo.findOne (has_deviceToken tok) (users db)).

(** [User.create({ deviceToken })], the other fields from their defaults. *)
Definition User_create (env : Env) (tok : string) : M User.t :=
  fun db =>
    let u := User.mk (nextId db) tok 0 false (now env) in
    (Next u, fresh_id (with_users (fun us => us ++ [u]) db)).

(** [User.findOneAndUpdate({ deviceToken }, update)] *)
Definition User_findOneAndUpdate (tok : string) (update : User.t -> User.t)
  : M (option User.t) :=
  fun db =>
    (Next (Mongo.findOne (has_deviceToken tok) (users db)),
     with_users (Mongo.updateOne (has_deviceToken tok) update) db).

(** [VoidPost.create({ mood, text, room, authorToken })] *)
Definition VoidPost_create (env : Env) (mood text room authorToken : string)
  : M VoidPost.t :=
  fun db =>
    let p := VoidPost.mk (nextId db) mood text room authorToken
                         "active" 0 0 (now env) in
    (Next p, fresh_id (with_posts (fun ps => ps ++ [p]) db)).

(** [VoidPost.findById(id)] *)
Definition VoidPost_findById (id : ObjectId) : M (option VoidPost.t) :=
  reads (fun db => Mongo.findOne (post_has_id id) (posts db)).

(** [VoidPost.findByIdAndUpdate(id, update, { new })] returns the document
    as it is after the update when [new] is set, as it was before
    otherwise, and null when there is none. *)
Definition VoidPost_findByIdAndUpdate (id : ObjectId)
    (update : VoidPost.t -> VoidPost.t) (new : bool) : M (option VoidPost.t) :=
  fun db =>
    let old := Mongo.findOne (post_has_id id) (posts db) in
    (Next (if new then option_map update old else old),
     with_posts (Mongo.updateOne (post_has_id id) update) db).

(** [VoidPost.updateMany({ authorToken }, update)] *)
Definition VoidPost_updateMany (tok : string)
    (update : VoidPost.t -> VoidPost.t) : M unit :=
  fun db =>
    (Next tt,
     with_posts (Mongo.updateMany
                   (fun p => (VoidPost.authorToken p =? tok)%string) update) db).

(** [VoidPost.aggregate(pipeline)] *)
Definition VoidPost_aggregate
    (pipeline : list (list VoidPost.t -> list VoidPost.t)) : M (list VoidPost.t) :=
  reads (fun db => Mongo.aggregate pipeline (posts db)).

(** [VoidReply.create({ postId, text, responderToken, isAuthorReply })] *)
Definition VoidReply_create (env : Env) (postId : ObjectId) (text : string)
    (responderToken : string) (isAuthorReply : bool) : M VoidReply.t :=
  fun db =>
    let r := VoidReply.mk (nextId db) postId text responderToken isAuthorReply
                          "visible" 0 (now env) in
    (Next r, fresh_id (with_replies (fun rs => rs ++ [r]) db)).

(** [VoidReply.findByIdAndUpdate(id, update, { new })] *)
Definition VoidReply_findByIdAndUpdate (id : ObjectId)
    (update : VoidReply.t -> VoidReply.t) (new : bool) : M (option VoidReply.t) :=
  fun db =>
    let old := Mongo.findOne (reply_has_id id) (replies db) in
    (Next (if new then option_map update old else old),
     with_replies (Mongo.updateOne (reply_has_id id) update) db).

(** [VoidReply.updateMany({ responderToken }, update)] *)
Definition VoidReply_updateMany (tok : string)
    (update : VoidReply.t -> VoidReply.t) : M unit :=
  fun db =>
    (Next tt,
     with_replies (Mongo.updateMany
                     (fun r => (VoidReply.responderToken r =? tok)%string) update) db).

(** [VoidReply.find({ postId, status: "visible" })] *)
Definition visible_replies (db : Db) (pid : ObjectId) : list VoidReply.t :=
  Mongo.find (fun r => Nat.eqb (VoidReply.postId r) pid
                       && (VoidReply.status r =? "visible")%string)
             (replies db).

(* ------------------------------------------------------------------ *)
(** ** Middleware and utilities *)

Definition str (v : option string) : string :=
  match v with Some s => s | None => "" end.

(** [/^VOID-[A-Z0-9]{4}-[A-Z0-9]{4}-[A-Z0-9]{4}$/] *)
Definition keyPattern : list Js.atom :=
  let group := repeat (Js.Range2 "A" "Z" "0" "9") 4 in
  Js.lits "VOID-" ++ group ++ Js.lits "-" ++ group ++ Js.lits "-" ++ group.

Definition authUser (env : Env) (voidKey : option string) : M User.t :=
  if negb (Js.truthy voidKey) then
    respond 401 (ErrorMsg "Missing Void Key")
  else if negb (Js.anchored_test keyPattern (str voidKey)) then
    respond 401 (ErrorMsg "Invalid Key Format. Access Denied.")
  else
    found <- User_findOne (str voidKey) ;;
    user <- match found with
            | Some u => ret u
            | None => User_create env (str voidKey)
            end ;;
    if User.isBanned user then respond 200 ShadowBanned
    else ret user.

Definition prohibited : list string :=
  ["suicide"; "kill myself"; "die"; "murder"; "hate you"].

Definition moderateText (text : string) : bool :=
  negb (Js.some (fun word => Js.includes (Js.toLowerCase text) word) prohibited).

(* ------------------------------------------------------------------ *)
(** ** Public routes *)

(** [app.get("/api/me", authUser, ...)] *)
Definition get_api_me (env : Env) (voidKey : option string) : M Empty_set :=
  user <- authUser env voidKey ;;
  respond 200 (Points (User.lightPoints user)).

Definition validRooms : list string :=
  ["general"; "love"; "work"; "family"; "life"].

(** [app.post("/api/post", authUser, ...)] *)
Definition post_api_post (env : Env) (voidKey : option string)
    (mood text room : option string) : M Empty_set :=
  user <- authUser env voidKey ;;
  if negb (Js.truthy mood) || negb (Js.truthy text) then
    respond 400 (ErrorMsg "Empty fields")
  else if negb (moderateText (str text)) then
    respond 400 (ErrorMsg "Harmful content detected")
  else
    let assignedRoom :=
      if Js.array_includes validRooms room then str room else "general" in
    post <- VoidPost_create env (str mood) (str text) assignedRoom
                            (User.deviceToken user) ;;
    User_findOneAndUpdate (User.deviceToken user) (User.inc_lightPoints 1) ;;
    respond 201 (PostDoc post).

(** The filter of the random route. *)
Definition matchStage (deviceToken : string) (room : option string)
  : list Mongo.cond :=
  [ Mongo.status_eq "active";
    Mongo.reports_lt 3;
    Mongo.authorToken_ne deviceToken ]
  ++ (if Js.truthy room && negb (str room =? "all")%string
      then [Mongo.room_eq (str room)] else []).

(** The pipeline of the random route up to the pool: [$match], [$sort],
    [$limit]. *)
Definition pool_stages (deviceToken : string) (room : option string)
  : list (list VoidPost.t -> list VoidPost.t) :=
  [ Mongo.find (Mongo.matches (matchStage deviceToken room));
    Mongo.sort [(VoidPost.replyCount, 1); (VoidPost.createdAt, -1)];
    Mongo.limit 50 ].

(** [app.get("/api/post/random", authUser, ...)] *)
Definition get_api_post_random (env : Env) (voidKey : option string)
    (room : option string) : M Empty_set :=
  user <- authUser env voidKey ;;
  posts <- VoidPost_aggregate
             (pool_stages (User.deviceToken user) room
              ++ [Mongo.sample1 (draw env)]) ;;
  match posts with
  | [] => respond 204 Empty
  | post :: _ => respond 200 (PostDoc post)
  end.

(** [app.post("/api/reply", authUser, ...)] *)
Definition post_api_reply (env : Env) (voidKey : option string)
    (postId : option ObjectId) (text : option string) : M Empty_set :=
  user <- authUser env voidKey ;;
  match postId with
  | None => respond 400 (ErrorMsg "Missing data")
  | Some postId =>
      if negb (Js.truthy text) then respond 400 (ErrorMsg "Missing data")
      else
        post <- VoidPost_findById postId ;;
        match post with
        | None => respond 404 (ErrorMsg "Not found")
        | Some post =>
            let isAuthor :=
              (VoidPost.authorToken post =? User.deviceToken user)%string in
            VoidReply_create env postId (str text)
                             (User.deviceToken user) isAuthor ;;
            VoidPost_findByIdAndUpdate postId (VoidPost.inc_replyCount 1) false ;;
            User_findOneAndUpdate (User.deviceToken user)
                                  (User.inc_lightPoints 5) ;;
            respond 200 Success
        end
  end.

(** [app.post("/api/report", authUser, ...)] *)
Definition post_api_report (env : Env) (voidKey : option string)
    (type : option string) (id : ObjectId) : M Empty_set :=
  user <- authUser env voidKey ;;
  (if Js.strict_eq type "post" then
     p <- VoidPost_findByIdAndUpdate id (VoidPost.inc_reports 1) true ;;
     p <- deref p ;;
     if 3 <=? VoidPost.reports p then
       VoidPost_findByIdAndUpdate id (VoidPost.set_status "hidden") false ;;
       ret tt
     else ret tt
   else
     r <- VoidReply_findByIdAndUpdate id (VoidReply.inc_reports 1) true ;;
     r <- deref r ;;
     if 3 <=? VoidReply.reports r then
       VoidReply_findByIdAndUpdate id (VoidReply.set_status "hidden") false ;;
       ret tt
     else ret tt) ;;
  respond 200 (SuccessMsg "Reported.").

(** [app.get("/api/my-room", authUser, ...)] *)
Definition get_api_my_room (env : Env) (voidKey : option string) : M Empty_set :=
  user <- authUser env voidKey ;;
  let token := User.deviceToken user in
  myPosts <- reads (fun db =>
    Mongo.sort [(VoidPost.createdAt, -1)]
      (Mongo.find (fun p => (VoidPost.authorToken p =? token)%string) (posts db))) ;;
  postsWithReplies <- reads (fun db =>
    map (fun p => (p, visible_replies db (VoidPost._id p))) myPosts) ;;
  myInteractedPostIds <- reads (fun db =>
    Mongo.distinct
      (map VoidReply.postId
         (Mongo.find (fun r => (VoidReply.responderToken r =? token)%string
                               && negb (VoidReply.isAuthorReply r))
                     (replies db)))) ;;
  interactions <- reads (fun db =>
    map (fun pid =>
           match Mongo.findOne (post_has_id pid) (posts db) with
           | None => None
           | Some post => Some (post, visible_replies db pid)
           end) myInteractedPostIds) ;;
  respond 200 (MyRoom postsWithReplies
                      (flat_map (fun i => match i with Some x => [x] | None => [] end)
                                interactions)).

(* ------------------------------------------------------------------ *)
(** ** Admin routes *)

(** [process.env.ADMIN_KEY || "secret123"] *)
Definition ADMIN_KEY (env : Env) : string :=
  if Js.truthy (env_ADMIN_KEY env) then str (env_ADMIN_KEY env) else "secret123".

(** [app.get("/api/admin/dashboard", ...)] *)
Definition get_api_admin_dashboard (env : Env) (key : option string) : M Empty_set :=
  if negb (Js.strict_eq key (ADMIN_KEY env)) then respond 403 (ErrorMsg "Forbidden")
  else
    flaggedPosts <- reads (fun db =>
      Mongo.sort [(VoidPost.reports, -1)]
        (Mongo.find (fun p => 0 <? VoidPost.reports p) (posts db))) ;;
    flaggedReplies <- reads (fun db =>
      Mongo.sort [(VoidReply.reports, -1)]
        (Mongo.find (fun r => 0 <? VoidReply.reports r) (replies db))) ;;
    respond 200 (Dashboard flaggedPosts flaggedReplies).

(** [app.delete("/api/admin/ban", ...)] *)
Definition delete_api_admin_ban (env : Env) (key : option string)
    (token : string) (deleteContent : bool) : M Empty_set :=
  if negb (Js.strict_eq key (ADMIN_KEY env)) then respond 403 (ErrorMsg "Forbidden")
  else
    User_findOneAndUpdate token (User.set_isBanned true) ;;
    (if deleteContent then
       VoidPost_updateMany token (VoidPost.set_status "deleted") ;;
       VoidReply_updateMany token (VoidReply.set_status "deleted")
     else ret tt) ;;
    respond 200 (SuccessMsg "User banished.").

(* ------------------------------------------------------------------ *)
(** ** The application *)

Inductive Request :=
| GET_me (voidKey : option string)
| POST_post (voidKey : option string) (mood text room : option string)
| GET_post_random (voidKey : option string) (room : option string)
| POST_reply (voidKey : option string) (postId : option ObjectId)
             (text : option string)
| POST_report (voidKey : option string) (type : option string) (id : ObjectId)
| GET_my_room (voidKey : option string)
| GET_admin_dashboard (key : option string)
| DELETE_admin_ban (key : option string) (token : string) (deleteContent : bool).

Definition app (env : Env) (req : Request) : Db -> Response * Db :=
  run match req with
      | GET_me k => get_api_me env k
      | POST_post k mood text room => post_api_post env k mood text room
      | GET_post_random k room => get_api_post_random env k room
      | POST_reply k postId text => post_api_reply env k postId text
      | POST_report k type id => post_api_report env k type id
      | GET_my_room k => get_api_my_room env k
      | GET_admin_dashboard key => get_api_admin_dashboard env key
      | DELETE_admin_ban key token dc => delete_api_admin_ban env key token dc
      end.

(** A sequence of requests, each with what it reads from outside, served
    one after the other. *)
Fixpoint serve (reqs : list (Env * Request)) (db : Db) : Db :=
  match reqs with
  | [] => db
  | (env, req) :: reqs' => serve reqs' (snd (app env req db))
  end.

(** The [x-void-key] header of a request to one of the routes behind
    [authUser]. *)
Definition voidKey_of (req : Request) : option string :=
  match req with
  | GET_me k | POST_post k _ _ _ | GET_post_random k _
  | POST_reply k _ _ | POST_report k _ _ | GET_my_room k => k
  | GET_admin_dashboard _ | DELETE_admin_ban _ _ _ => None
  end.

(** The points of an identity; an identity not yet created has none. *)
Definition points (db : Db) (key : string) : Z :=
  match Mongo.findOne (has_deviceToken key) (users db) with
  | Some u => User.lightPoints u
  | None => 0
  end.

(* ------------------------------------------------------------------ *)
(** ** Vocabulary of the properties *)

(** [w] occurs in [s]. *)
Definition occurs_in (w s : string) : Prop :=
  exists pre post, s = (pre ++ w ++ post)%string.

(** The character class [[A-Z0-9]]. *)
Definition upper_alnum (c : ascii) : Prop :=
  let n := nat_of_ascii c in
  ((65 <= n /\ n <= 90) \/ (48 <= n /\ n <= 57))%nat.

(** Four uppercase alphanumerics. *)
Definition key_group (g : string) : Prop :=
  String.length g = 4%nat /\ Forall upper_alnum (list_ascii_of_string g).

(** [VOID-XXXX-XXXX-XXXX] *)
Definition well_formed_key (s : string) : Prop :=
  exists g1 g2 g3,
    s = ("VOID-" ++ g1 ++ "-" ++ g2 ++ "-" ++ g3)%string
    /\ key_group g1 /\ key_group g2 /\ key_group g3.

(** The requests [authUser] lets through: the key is present and well
    formed, and its identity, if there is one already, is not banned. *)
Definition admitted (db : Db) (voidKey : option string) : bool :=
  Js.truthy voidKey
  && Js.anchored_test keyPattern (str voidKey)
  && match Mongo.findOne (has_deviceToken (str voidKey)) (users db) with
     | Some u => negb (User.isBanned u)
     | None => true
     end.

(** The identity handed to the handler and the database it leaves. *)
Definition resolved (env : Env) (key : string) (db : Db) : User.t * Db :=
  match Mongo.findOne (has_deviceToken key) (users db) with
  | Some u => (u, db)
  | None =>
      let u := User.mk (nextId db) key 0 false (now env) in
      (u, fresh_id (with_users (fun us => us ++ [u]) db))
  end.

(** The routes behind [authUser]. *)
Definition authenticated (req : Request) : bool :=
  match req with
  | GET_admin_dashboard _ | DELETE_admin_ban _ _ _ => false
  | _ => true
  end.

(** What a report does to a post and to a reply. *)
Definition reported_post (p : VoidPost.t) : VoidPost.t :=
  let p' := VoidPost.inc_reports 1 p in
  if 3 <=? VoidPost.reports p' then VoidPost.set_status "hidden" p' else p'.

Definition reported_reply (r : VoidReply.t) : VoidReply.t :=
  let r' := VoidReply.inc_reports 1 r in
  if 3 <=? VoidReply.reports r' then VoidReply.set_status "hidden" r' else r'.

(** The points a request earns the identity [key]: one for a post
    created, five for a reply created, when the request is [key]'s. *)
Definition reward (key : string) (req : Request) (resp : Response) : Z :=
  match req, resp with
  | POST_post k _ _ _, Send 201 (PostDoc _) =>
      if Js.strict_eq k key then 1 else 0
  | POST_reply k _ _, Send 200 Success =>
      if Js.strict_eq k key then 5 else 0
  | _, _ => 0
  end.

(** The requests of a trace that are not [key]'s own. *)
Definition others (key : string) (reqs : list (Env * Request)) : Prop :=
  Forall (fun er => voidKey_of (snd er) <> Some key) reqs.

(** A post created, a reply created, by [key]. *)
Definition created_post (key : string) (req : Request) (resp : Response) : Prop :=
  exists mood text room p,
    req = POST_post (Some key) mood text room /\ resp = Send 201 (PostDoc p).

Definition created_reply (key : string) (req : Request) (resp : Response) : Prop :=
  exists postId text,
    req = POST_reply (Some key) postId text /\ resp = Send 200 Success.

(** An update that leaves the key of an identity alone. *)
Definition token_preserving (upd : User.t -> User.t) : Prop :=
  forall u, User.deviceToken (upd u) = User.deviceToken u.

(** The ways a request changes the collection of identities: a new one
    for a well-formed key not seen before, or an update in place that
    leaves the key alone. *)
Inductive users_step (us : list User.t) : list User.t -> Prop :=
| users_created id key t :
    well_formed_key key ->
    Mongo.findOne (has_deviceToken key) us = None ->
    users_step us (us ++ [User.mk id key 0 false t])
| users_updated k upd :
    token_preserving upd ->
    users_step us (Mongo.updateOne (has_deviceToken k) upd us).

(** Any number of such changes. *)
Definition users_steps := clos_refl_trans (list User.t) users_step.

(** Every identity has a well-formed key. *)
Definition keys_well_formed (db : Db) : Prop :=
  Forall (fun u => well_formed_key (User.deviceToken u)) (users db).

(** The report count and status of the post or reply a report of the
    given [type] and [id] is about. *)
Definition entity_at (db : Db) (type : option string) (id : ObjectId)
  : option (Z * string) :=
  if Js.strict_eq type "post" then
    option_map (fun p => (VoidPost.reports p, VoidPost.status p))
               (Mongo.findOne (post_has_id id) (posts db))
  else
    option_map (fun r => (VoidReply.reports r, VoidReply.status r))
               (Mongo.findOne (reply_has_id id) (replies db)).

(** The same report, sent by each of the reporters in turn. *)
Definition reports_by (reporters : list (Env * option string))
    (type : option string) (id : ObjectId) : list (Env * Request) :=
  map (fun ek => (fst ek, POST_report (snd ek) type id)) reporters.

(** Hidden means reported three times or more. *)
Definition post_hidden_past_threshold (p : VoidPost.t) : Prop :=
  VoidPost.status p = "hidden" -> 3 <= VoidPost.reports p.

Definition reply_hidden_past_threshold (r : VoidReply.t) : Prop :=
  VoidReply.status r = "hidden" -> 3 <= VoidReply.reports r.

Definition hidden_past_threshold (db : Db) : Prop :=
  Forall post_hidden_past_threshold (posts db)
  /\ Forall reply_hidden_past_threshold (replies db).

(** The order of the pool: ascending [replyCount], then descending
    [createdAt]. *)
Definition pool_order : @Mongo.sortSpec VoidPost.t :=
  [(VoidPost.replyCount, 1); (VoidPost.createdAt, -1)].



(** The candidates of a request: the [$match] stage. *)
Definition eligible (requester : string) (room : option string) (db : Db)
  : list VoidPost.t :=
  Mongo.find (Mongo.matches (matchStage requester room)) (posts db).

(** The four conditions as the specification words them, the last one
    being: no room filter, the filter "all", or the post's own room. *)
Definition eligibility_as_stated (requester : string) (roomFilter : option string)
    (p : VoidPost.t) : Prop :=
  VoidPost.status p = "active"
  /\ VoidPost.reports p < 3
  /\ VoidPost.authorToken p <> requester
  /\ (roomFilter = None \/ roomFilter = Some "all"
      \/ roomFilter = Some (VoidPost.room p)).

(** The four conditions of the route: an empty room filter filters
    nothing either. *)
Definition eligibility (requester : string) (roomFilter : option string)
    (p : VoidPost.t) : Prop :=
  VoidPost.status p = "active"
  /\ VoidPost.reports p < 3
  /\ VoidPost.authorToken p <> requester
  /\ (roomFilter = None \/ roomFilter = Some "" \/ roomFilter = Some "all"
      \/ roomFilter = Some (VoidPost.room p)).

(* ------------------------------------------------------------------ *)
(** ** A small board *)

Module Board.

Definition env0 : Env := mkEnv 1000 7 None.
Definition at_time (t : Z) : Env := mkEnv t 7 None.

Definition alice : string := "VOID-AAAA-1111-BBBB".
Definition bob : string := "VOID-CCCC-2222-DDDD".
Definition carol : string := "VOID-EEEE-3333-FFFF".

(** Alice has posted once, in the room "love". *)
Definition one_post : Db :=
  snd (app env0 (POST_post (Some alice) (Some "heartbroken")
                           (Some "It has been six months") (Some "love"))
           emptyDb).

Definition alices_post : VoidPost.t :=
  VoidPost.mk 1%nat "heartbroken" "It has been six months" "love" alice
              "active" 0 0 1000.

(** Alice has posted sixty times, one post per tick of the clock. *)
Definition sixty_posts : Db :=
  serve (map (fun i => (at_time (Z.of_nat i),
                        POST_post (Some alice) (Some "numb")
                                  (Some "whisper") (Some "general")))
             (seq 0 60))
        emptyDb.

End Board.

(** Bob's draw from Alice's sixty posts: the post of tick 52. *)
Definition bobs_draw : VoidPost.t :=
  VoidPost.mk 53%nat "numb" "whisper" "general" Board.alice "active" 0 0 52.

(** Bob and Carol report; then Alice does too. *)
Definition two_reporters : list (Env * option string) :=
  [(Board.env0, Some Board.bob); (Board.env0, Some Board.carol)].

Definition three_reporters : list (Env * option string) :=
  two_reporters ++ [(Board.env0, Some Board.alice)].

(** Bob posts, Alice posts, Bob replies to Alice, Alice replies to Bob,
    Carol posts. *)
Definition bob_posts : Env * Request :=
  (Board.env0, POST_post (Some Board.bob) (Some "lost") (Some "hello") None).
Definition alice_posts : Request :=
  POST_post (Some Board.alice) (Some "sad") (Some "anyone there") (Some "life").
Definition bob_replies : Env * Request :=
  (Board.env0, POST_reply (Some Board.bob) (Some 3%nat) (Some "I am")).
Definition alice_replies : Request :=
  POST_reply (Some Board.alice) (Some 1%nat) (Some "hello to you").
Definition carol_posts : Env * Request :=
  (Board.env0, POST_post (Some Board.carol) (Some "numb") (Some "hm") None).

(* ------------------------------------------------------------------ *)
(** ** Vocabulary of the further properties *)

(** No two identities share a key. *)
Definition keys_distinct (db : Db) : Prop :=
  NoDup (map User.deviceToken (users db)).

(** The identity of [key] is there and banned. *)
Definition banned (db : Db) (key : string) : Prop :=
  exists u, Mongo.findOne (has_deviceToken key) (users db) = Some u
            /\ User.isBanned u = true.

(** The ways a request changes the collection of identities, with the
    updates the routes make: a reward, a ban. *)
Inductive users_change (us : list User.t) : list User.t -> Prop :=
| change_created id key t :
    well_formed_key key ->
    Mongo.findOne (has_deviceToken key) us = None ->
    users_change us (us ++ [User.mk id key 0 false t])
| change_rewarded k n :
    users_change us (Mongo.updateOne (has_deviceToken k)
                                     (User.inc_lightPoints n) us)
| change_banned k :
    users_change us (Mongo.updateOne (has_deviceToken k)
                                     (User.set_isBanned true) us).

Definition users_changes := clos_refl_trans (list User.t) users_change.

(** The admin key as the process is configured: the variable when it is
    set and not empty, "secret123" otherwise. *)
Definition opens_admin (env : Env) (k : string) : Prop :=
  (env_ADMIN_KEY env = Some k /\ k <> "")
  \/ (k = "secret123"
      /\ (env_ADMIN_KEY env = None \/ env_ADMIN_KEY env = Some "")).

(** The ids of the posts are pairwise distinct and below the counter the
    next id comes from, and so are those of the replies; every reply
    points at an id below the counter, that of a post that is there. *)
Definition ids_fresh (db : Db) : Prop :=
  Forall (fun i => (i < nextId db)%nat) (map VoidPost._id (posts db))
  /\ NoDup (map VoidPost._id (posts db))
  /\ Forall (fun i => (i < nextId db)%nat) (map VoidReply._id (replies db))
  /\ NoDup (map VoidReply._id (replies db))
  /\ Forall (fun i => (i < nextId db)%nat) (map VoidReply.postId (replies db))
  /\ incl (map VoidReply.postId (replies db)) (map VoidPost._id (posts db)).

(** The number of replies made to the post [pid], whatever their status. *)
Definition replies_to (db : Db) (pid : ObjectId) : nat :=
  count_occ Nat.eq_dec (map VoidReply.postId (replies db)) pid.

(** Every post counts its replies right. *)
Definition reply_counts_exact (db : Db) : Prop :=
  Forall (fun p => VoidPost.replyCount p
                   = Z.of_nat (replies_to db (VoidPost._id p)))
         (posts db).

(** The four GET routes. *)
Definition is_get (req : Request) : bool :=
  match req with
  | GET_me _ | GET_post_random _ _ | GET_my_room _ | GET_admin_dashboard _ => true
  | _ => false
  end.

(** Two posts that differ in report count and status at most. *)
Definition same_post_but_reports_and_status (p p' : VoidPost.t) : Prop :=
  VoidPost._id p' = VoidPost._id p
  /\ VoidPost.mood p' = VoidPost.mood p
  /\ VoidPost.text p' = VoidPost.text p
  /\ VoidPost.room p' = VoidPost.room p
  /\ VoidPost.authorToken p' = VoidPost.authorToken p
  /\ VoidPost.replyCount p' = VoidPost.replyCount p
  /\ VoidPost.createdAt p' = VoidPost.createdAt p.

(** Two replies that differ in report count and status at most. *)
Definition same_reply_but_reports_and_status (r r' : VoidReply.t) : Prop :=
  VoidReply._id r' = VoidReply._id r
  /\ VoidReply.postId r' = VoidReply.postId r
  /\ VoidReply.text r' = VoidReply.text r
  /\ VoidReply.responderToken r' = VoidReply.responderToken r
  /\ VoidReply.isAuthorReply r' = VoidReply.isAuthorReply r
  /\ VoidReply.createdAt r' = VoidReply.createdAt r.

(** Newest first. *)
Definition post_not_older (a b : VoidPost.t) : Prop :=
  VoidPost.createdAt b <= VoidPost.createdAt a.

(** Most reported first. *)
Definition post_not_less_reported (a b : VoidPost.t) : Prop :=
  VoidPost.reports b <= VoidPost.reports a.

Definition reply_not_less_reported (a b : VoidReply.t) : Prop :=
  VoidReply.reports b <= VoidReply.reports a.

(** [rs] are the replies to the post [pid] that are visible. *)
Definition visible_replies_of (db : Db) (pid : ObjectId)
    (rs : list VoidReply.t) : Prop :=
  forall r, In r rs <->
            In r (replies db) /\ VoidReply.postId r = pid
            /\ VoidReply.status r = "visible".

(** The posts written and the replies made with the key [key]. *)
Definition posts_by (db : Db) (key : string) : nat :=
  count_occ string_dec (map VoidPost.authorToken (posts db)) key.

Definition replies_by (db : Db) (key : string) : nat :=
  count_occ string_dec (map VoidReply.responderToken (replies db)) key.

(** Everybody's points are what their content earned: one a post, five
    a reply. *)
Definition points_match_content (db : Db) : Prop :=
  forall key,
    points db key
    = Z.of_nat (posts_by db key) + 5 * Z.of_nat (replies_by db key).

(** [p'] is [p] later on: the same post, with counters that have not
    gone down. *)
Definition post_later (p p' : VoidPost.t) : Prop :=
  VoidPost._id p' = VoidPost._id p
  /\ VoidPost.mood p' = VoidPost.mood p
  /\ VoidPost.text p' = VoidPost.text p
  /\ VoidPost.room p' = VoidPost.room p
  /\ VoidPost.authorToken p' = VoidPost.authorToken p
  /\ VoidPost.createdAt p' = VoidPost.createdAt p
  /\ VoidPost.reports p <= VoidPost.reports p'
  /\ VoidPost.replyCount p <= VoidPost.replyCount p'.

(** The same request environment with another draw. *)
Definition with_draw (env : Env) (d : nat) : Env :=
  mkEnv (now env) d (env_ADMIN_KEY env).

(* ------------------------------------------------------------------ *)
(** ** More of the board *)

Module Board2.

(** The admin bans Alice and has her content deleted. *)
Definition ban_alice : Request :=
  DELETE_admin_ban (Some "secret123") Board.alice true.

Definition alice_banned : Db := snd (app Board.env0 ban_alice Board.one_post).

(** Bob replies twice to Alice's post. *)
Definition bob_answers (text : string) : Env * Request :=
  (Board.env0, POST_reply (Some Board.bob) (Some 1%nat) (Some text)).

Definition talk : Db :=
  serve [bob_answers "I hear you"; bob_answers "still here"] Board.one_post.

(** Carol posts after Alice; then Alice's post is reported three times. *)
Definition two_posts : Db := serve [carol_posts] Board.one_post.

Definition carols_post : VoidPost.t :=
  VoidPost.mk 3%nat "numb" "hm" "general" Board.carol "active" 0 0 1000.

Definition alices_post_hidden : Db :=
  serve (reports_by three_reporters (Some "post") 1%nat) two_posts.

(** Alice's post after two reports. *)
Definition alices_post_reported : Db :=
  serve (reports_by two_reporters (Some "post") 1%nat) Board.one_post.

End Board2.

(* ================================================================== *)
(** * Properties *)

(* ------------------------------------------------------------------ *)
(** ** Strings: substrings and the key pattern *)

Section Strings.

Lemma prefix_iff (w s : string) :
  String.prefix w s = true <-> exists post, s = (w ++ post)%string.
Proof.
  revert s; induction w as [|a w IH]; intros s.
  - destruct s; simpl; (split; [intros _; eexists; reflexivity | trivial]).
  - destruct s as [|b s]; simpl.
    + split; [discriminate | intros [post H]; discriminate].
    + destruct (Ascii.ascii_dec a b) as [->|Hab].
      * rewrite IH. split; intros [post H]; exists post.
        -- now rewrite H.
        -- now injection H.
      * split; [discriminate|].
        intros [post H]. injection H as H1 _. now elim Hab.
Qed.

Lemma includes_iff (s w : string) :
  Js.includes s w = true <-> occurs_in w s.
Proof.
  unfold occurs_in. induction s as [|c s IH].
  - cbn [Js.includes]. rewrite orb_false_r, prefix_iff. split.
    + intros [post H]. now exists EmptyString, post.
    + intros [[|c pre] [post H]]; [now exists post | discriminate].
  - cbn [Js.includes]. rewrite orb_true_iff, prefix_iff, IH. split.
    + intros [[post H] | (pre & post & H)].
      * now exists EmptyString, post.
      * exists (String c pre), post. simpl. now rewrite H.
    + intros ([|c' pre] & post & H).
      * left. now exists post.
      * right. injection H as _ H. now exists pre, post.
Qed.

Lemma test_app (re1 re2 : list Js.atom) (s : string) :
  Js.anchored_test (re1 ++ re2) s = true <->
  exists s1 s2, s = (s1 ++ s2)%string
                /\ Js.anchored_test re1 s1 = true
                /\ Js.anchored_test re2 s2 = true.
Proof.
  revert s; induction re1 as [|a re1 IH]; intros s; simpl.
  - split.
    + intros H. now exists EmptyString, s.
    + intros ([|c s1] & s2 & -> & H1 & H2); [assumption | discriminate].
  - destruct s as [|c s].
    + split; [discriminate|].
      intros ([|c s1] & s2 & E & H1 & H2); discriminate.
    + rewrite andb_true_iff, IH. split.
      * intros (Hc & s1 & s2 & -> & H1 & H2).
        exists (String c s1), s2. simpl. now rewrite Hc, H1.
      * intros ([|c' s1] & s2 & E & H1 & H2); [discriminate|].
        injection E as -> ->. apply andb_true_iff in H1 as [Hc H1].
        split; [assumption | now exists s1, s2].
Qed.

Lemma test_lits (w s : string) :
  Js.anchored_test (Js.lits w) s = true <-> s = w.
Proof.
  revert s; induction w as [|a w IH]; intros [|c s]; simpl;
    try (split; [discriminate | congruence]); try tauto.
  rewrite andb_true_iff, IH. split.
  - intros [Hc ->]. apply Ascii.eqb_eq in Hc. now subst.
  - intros E. injection E as -> ->. now rewrite Ascii.eqb_refl.
Qed.

Lemma test_group (n : nat) (s : string) :
  Js.anchored_test (repeat (Js.Range2 "A" "Z" "0" "9") n) s = true <->
  String.length s = n /\ Forall upper_alnum (list_ascii_of_string s).
Proof.
  revert s; induction n as [|n IH]; intros [|c s]; simpl.
  - split; [now split | trivial].
  - split; [discriminate | intros [H _]; discriminate].
  - split; [discriminate | intros [H _]; discriminate].
  - rewrite andb_true_iff, IH.
    assert (Hc : Js.in_range "A" "Z" c || Js.in_range "0" "9" c = true
                 <-> upper_alnum c).
    { unfold Js.in_range, upper_alnum. simpl nat_of_ascii.
      rewrite orb_true_iff, !andb_true_iff, !Nat.leb_le. tauto. }
    rewrite Hc. split.
    + intros (H & Hl & Hf). split; [now f_equal | now constructor].
    + intros (Hl & Hf). inversion Hf; subst. injection Hl as Hl. tauto.
Qed.

(** The regular expression of [authUser] accepts exactly the keys
    [VOID-XXXX-XXXX-XXXX]. *)
Lemma keyPattern_iff (s : string) :
  Js.anchored_test keyPattern s = true <-> well_formed_key s.
Proof.
  unfold keyPattern, well_formed_key, key_group. cbv zeta.
  rewrite test_app. split.
  - intros (v & s1 & -> & Hv & H).
    apply test_lits in Hv as ->.
    apply test_app in H as (g1 & s2 & -> & Hg1 & H).
    apply test_app in H as (d1 & s3 & -> & Hd1 & H).
    apply test_lits in Hd1 as ->.
    apply test_app in H as (g2 & s4 & -> & Hg2 & H).
    apply test_app in H as (d2 & g3 & -> & Hd2 & Hg3).
    apply test_lits in Hd2 as ->.
    apply test_group in Hg1, Hg2, Hg3.
    now exists g1, g2, g3.
  - intros (g1 & g2 & g3 & -> & Hg1 & Hg2 & Hg3).
    apply test_group in Hg1, Hg2, Hg3.
    exists "VOID-"%string, (g1 ++ "-" ++ g2 ++ "-" ++ g3)%string.
    split; [reflexivity|]. split; [now apply test_lits|].
    apply test_app. exists g1, ("-" ++ g2 ++ "-" ++ g3)%string.
    split; [reflexivity|]. split; [assumption|].
    apply test_app. exists "-"%string, (g2 ++ "-" ++ g3)%string.
    split; [reflexivity|]. split; [now apply test_lits|].
    apply test_app. exists g2, ("-" ++ g3)%string.
    split; [reflexivity|]. split; [assumption|].
    apply test_app. exists "-"%string, g3.
    split; [reflexivity|]. split; [now apply test_lits | assumption].
Qed.

End Strings.

(* ------------------------------------------------------------------ *)
(** ** Collections *)

Section CollectionFacts.
Context {A : Type}.
Implicit Types (f g : A -> bool) (upd : A -> A) (c : list A).

Lemma findOne_app f c d :
  Mongo.findOne f (c ++ [d]) =
  match Mongo.findOne f c with
  | Some x => Some x
  | None => if f d then Some d else None
  end.
Proof.
  unfold Mongo.findOne. induction c as [|x c IH]; simpl.
  - reflexivity.
  - destruct (f x); [reflexivity | exact IH].
Qed.

(** An update that keeps the filter true is seen by the next lookup. *)
Lemma findOne_updateOne f upd c :
  (forall d, f d = true -> f (upd d) = true) ->
  Mongo.findOne f (Mongo.updateOne f upd c) = option_map upd (Mongo.findOne f c).
Proof.
  intros Hf. unfold Mongo.findOne. induction c as [|x c IH]; simpl.
  - reflexivity.
  - destruct (f x) eqn:E; simpl.
    + now rewrite (Hf _ E).
    + now rewrite E.
Qed.

(** An update of documents another filter does not select is not seen
    by a lookup through that filter. *)
Lemma findOne_updateOne_other f g upd c :
  (forall d, f d = true -> g d = false /\ g (upd d) = false) ->
  Mongo.findOne g (Mongo.updateOne f upd c) = Mongo.findOne g c.
Proof.
  intros Hfg. unfold Mongo.findOne. induction c as [|x c IH]; simpl.
  - reflexivity.
  - destruct (f x) eqn:E; simpl.
    + destruct (Hfg _ E) as [-> ->]. reflexivity.
    + destruct (g x); [reflexivity | exact IH].
Qed.

Lemma findOne_updateMany f g upd c :
  (forall d, g (upd d) = g d) ->
  Mongo.findOne g (Mongo.updateMany f upd c) =
  option_map (fun d => if f d then upd d else d) (Mongo.findOne g c).
Proof.
  intros Hg. unfold Mongo.findOne, Mongo.updateMany.
  induction c as [|x c IH]; simpl.
  - reflexivity.
  - destruct (f x) eqn:E; rewrite ?Hg; destruct (g x); simpl; rewrite ?E; auto.
Qed.

Lemma findOne_Some f c d :
  Mongo.findOne f c = Some d -> In d c /\ f d = true.
Proof. apply find_some. Qed.

Lemma updateOne_none f upd c :
  Mongo.findOne f c = None -> Mongo.updateOne f upd c = c.
Proof.
  unfold Mongo.findOne. induction c as [|x c IH]; simpl.
  - reflexivity.
  - destruct (f x); [discriminate | intros H; now rewrite IH].
Qed.

Lemma Forall_updateOne (P : A -> Prop) f upd c :
  Forall P c ->
  (forall d, Mongo.findOne f c = Some d -> P (upd d)) ->
  Forall P (Mongo.updateOne f upd c).
Proof.
  unfold Mongo.findOne. induction c as [|x c IH]; simpl; intros Hc Hd.
  - constructor.
  - inversion Hc; subst. destruct (f x).
    + constructor; auto.
    + constructor; auto.
Qed.

Lemma Forall_updateMany (P : A -> Prop) f upd c :
  Forall P c -> (forall d, P d -> P (upd d)) ->
  Forall P (Mongo.updateMany f upd c).
Proof.
  intros Hc Hd. unfold Mongo.updateMany. apply Forall_map.
  eapply Forall_impl; [|exact Hc]. intros d Pd. destruct (f d); auto.
Qed.

End CollectionFacts.

Lemma has_deviceToken_iff (tok : string) (u : User.t) :
  has_deviceToken tok u = true <-> User.deviceToken u = tok.
Proof. apply String.eqb_eq. Qed.

(* ------------------------------------------------------------------ *)
(** ** What [authUser] does *)

Lemma authUser_admitted env voidKey db :
  admitted db voidKey = true ->
  authUser env voidKey db =
  (Next (fst (resolved env (str voidKey) db)), snd (resolved env (str voidKey) db)).
Proof.
  unfold admitted, authUser, resolved. intros H.
  apply andb_true_iff in H as [H Hb]. apply andb_true_iff in H as [Ht Hp].
  rewrite Ht, Hp. simpl. unfold bind, User_findOne, reads.
  destruct (Mongo.findOne _ _) as [u|]; simpl.
  - unfold ret. apply negb_true_iff in Hb. now rewrite Hb.
  - reflexivity.
Qed.

Lemma authUser_not_admitted env voidKey db :
  admitted db voidKey = false ->
  exists body, authUser env voidKey db = (Sent (Send (if Js.truthy voidKey
                 && Js.anchored_test keyPattern (str voidKey) then 200 else 401) body), db)
               /\ (Js.truthy voidKey
                   && Js.anchored_test keyPattern (str voidKey) = false ->
                   exists msg, body = ErrorMsg msg)
               /\ (Js.truthy voidKey
                   && Js.anchored_test keyPattern (str voidKey) = true ->
                   body = ShadowBanned).
Proof.
  unfold admitted, authUser. intros H.
  destruct (Js.truthy voidKey); cbn [andb negb] in *.
  - destruct (Js.anchored_test keyPattern (str voidKey)); cbn [andb negb] in *.
    + unfold bind, User_findOne, reads.
      destruct (Mongo.findOne _ _) as [u|]; [|discriminate].
      apply negb_false_iff in H. unfold ret. rewrite H.
      eexists; split; [reflexivity|]. split; [discriminate | reflexivity].
    + eexists; split; [reflexivity|].
      split; [intros _; eexists; reflexivity | discriminate].
  - eexists; split; [reflexivity|].
    split; [intros _; eexists; reflexivity | discriminate].
Qed.

Lemma resolved_deviceToken env key db :
  User.deviceToken (fst (resolved env key db)) = key.
Proof.
  unfold resolved. destruct (Mongo.findOne _ _) as [u|] eqn:E; simpl.
  - apply findOne_Some in E as [_ E]. now apply has_deviceToken_iff.
  - reflexivity.
Qed.

Lemma resolved_posts env key db : posts (snd (resolved env key db)) = posts db.
Proof. unfold resolved. now destruct (Mongo.findOne _ _). Qed.

Lemma resolved_replies env key db : replies (snd (resolved env key db)) = replies db.
Proof. unfold resolved. now destruct (Mongo.findOne _ _). Qed.

(** After resolution the identity is in the collection, as resolved. *)
Lemma resolved_findOne env key db :
  Mongo.findOne (has_deviceToken key) (users (snd (resolved env key db)))
  = Some (fst (resolved env key db)).
Proof.
  unfold resolved.
  destruct (Mongo.findOne (has_deviceToken key) (users db)) as [u|] eqn:E; simpl.
  - exact E.
  - rewrite findOne_app, E. unfold has_deviceToken at 1. simpl.
    now rewrite String.eqb_refl.
Qed.

(* ------------------------------------------------------------------ *)
(** ** The routes, request by request *)

#[local] Arguments moderateText : simpl never.
#[local] Arguments Js.anchored_test : simpl never.
#[local] Arguments Js.array_includes : simpl never.
#[local] Arguments Js.truthy : simpl never.
#[local] Arguments Js.strict_eq : simpl never.
#[local] Arguments Mongo.findOne : simpl never.
#[local] Arguments Mongo.updateOne : simpl never.
#[local] Arguments Mongo.updateMany : simpl never.
#[local] Arguments Mongo.find : simpl never.
#[local] Arguments Mongo.sort : simpl never.
#[local] Arguments Mongo.limit : simpl never.
#[local] Arguments Mongo.sample1 : simpl never.
#[local] Arguments Mongo.distinct : simpl never.
#[local] Arguments resolved : simpl never.
#[local] Arguments ADMIN_KEY : simpl never.
#[local] Arguments String.eqb : simpl never.
#[local] Arguments Z.leb : simpl never.

(** Unfold a route up to the answer of [authUser]. *)
Ltac enter_route H :=
  unfold app, run, get_api_me, post_api_post, get_api_post_random,
    post_api_reply, post_api_report, get_api_my_room;
  unfold bind at 1;
  rewrite H.

(** A request [authUser] turns away is answered by [authUser] and leaves
    the database as it was. *)
Lemma app_not_admitted env req db :
  authenticated req = true ->
  admitted db (voidKey_of req) = false ->
  app env req db = (fst (run (bind (authUser env (voidKey_of req))
                                   (fun _ => throw "unreachable")) db), db).
Proof.
  intros Ha Hn.
  destruct (authUser_not_admitted env _ _ Hn) as (body & E & _).
  destruct req; try discriminate Ha; simpl voidKey_of in *;
    enter_route E; unfold run, bind; rewrite E; reflexivity.
Qed.

Lemma app_not_admitted_response env req db :
  authenticated req = true ->
  admitted db (voidKey_of req) = false ->
  exists body,
    app env req db =
    (Send (if Js.truthy (voidKey_of req)
              && Js.anchored_test keyPattern (str (voidKey_of req))
           then 200 else 401) body, db)
    /\ (Js.truthy (voidKey_of req)
        && Js.anchored_test keyPattern (str (voidKey_of req)) = false ->
        exists msg, body = ErrorMsg msg)
    /\ (Js.truthy (voidKey_of req)
        && Js.anchored_test keyPattern (str (voidKey_of req)) = true ->
        body = ShadowBanned).
Proof.
  intros Ha Hn. rewrite (app_not_admitted env req db Ha Hn).
  destruct (authUser_not_admitted env _ _ Hn) as (body & E & H1 & H2).
  exists body. unfold run, bind. rewrite E. simpl. auto.
Qed.

Lemma app_me_admitted env k db :
  admitted db k = true ->
  app env (GET_me k) db =
  (Send 200 (Points (User.lightPoints (fst (resolved env (str k) db)))),
   snd (resolved env (str k) db)).
Proof. intros H. enter_route (authUser_admitted env k db H). reflexivity. Qed.

Lemma app_post_admitted env k mood text room db :
  admitted db k = true ->
  app env (POST_post k mood text room) db =
  let db1 := snd (resolved env (str k) db) in
  if negb (Js.truthy mood) || negb (Js.truthy text) then
    (Send 400 (ErrorMsg "Empty fields"), db1)
  else if negb (moderateText (str text)) then
    (Send 400 (ErrorMsg "Harmful content detected"), db1)
  else
    let p := VoidPost.mk (nextId db1) (str mood) (str text)
               (if Js.array_includes validRooms room then str room else "general")
               (str k) "active" 0 0 (now env) in
    (Send 201 (PostDoc p),
     mkDb (Mongo.updateOne (has_deviceToken (str k)) (User.inc_lightPoints 1)
                           (users db1))
          (posts db1 ++ [p]) (replies db1) (S (nextId db1))).
Proof.
  intros H. enter_route (authUser_admitted env k db H).
  rewrite resolved_deviceToken. cbv zeta.
  destruct (negb (Js.truthy mood) || negb (Js.truthy text)); [reflexivity|].
  destruct (negb (moderateText (str text))); reflexivity.
Qed.

Lemma app_random_admitted env k room db :
  admitted db k = true ->
  app env (GET_post_random k room) db =
  let db1 := snd (resolved env (str k) db) in
  match Mongo.sample1 (draw env)
          (Mongo.aggregate
             [ Mongo.find (Mongo.matches (matchStage (str k) room));
               Mongo.sort [(VoidPost.replyCount, 1); (VoidPost.createdAt, -1)];
               Mongo.limit 50 ] (posts db)) with
  | [] => (Send 204 Empty, db1)
  | post :: _ => (Send 200 (PostDoc post), db1)
  end.
Proof.
  intros H. enter_route (authUser_admitted env k db H).
  rewrite resolved_deviceToken. cbv zeta.
  unfold bind, VoidPost_aggregate, reads, pool_stages, Mongo.aggregate.
  rewrite resolved_posts. cbn [List.app fold_left].
  destruct (Mongo.sample1 _ _); reflexivity.
Qed.

Lemma app_reply_admitted env k postId text db :
  admitted db k = true ->
  app env (POST_reply k postId text) db =
  let db1 := snd (resolved env (str k) db) in
  match postId with
  | None => (Send 400 (ErrorMsg "Missing data"), db1)
  | Some pid =>
      if negb (Js.truthy text) then (Send 400 (ErrorMsg "Missing data"), db1)
      else
        match Mongo.findOne (post_has_id pid) (posts db1) with
        | None => (Send 404 (ErrorMsg "Not found"), db1)
        | Some post =>
            let r := VoidReply.mk (nextId db1) pid (str text) (str k)
                       (VoidPost.authorToken post =? str k)%string
                       "visible" 0 (now env) in
            (Send 200 Success,
             mkDb (Mongo.updateOne (has_deviceToken (str k))
                                   (User.inc_lightPoints 5) (users db1))
                  (Mongo.updateOne (post_has_id pid)
                                   (VoidPost.inc_replyCount 1) (posts db1))
                  (replies db1 ++ [r]) (S (nextId db1)))
        end
  end.
Proof.
  intros H. enter_route (authUser_admitted env k db H).
  rewrite resolved_deviceToken. cbv zeta.
  destruct postId as [pid|]; [|reflexivity].
  destruct (negb (Js.truthy text)); [reflexivity|].
  unfold bind at 1. unfold VoidPost_findById, reads.
  destruct (Mongo.findOne (post_has_id pid) _); reflexivity.
Qed.

Lemma updateOne_twice {A} (f : A -> bool) (u1 u2 : A -> A) (c : list A) :
  (forall d, f d = true -> f (u1 d) = true) ->
  Mongo.updateOne f u2 (Mongo.updateOne f u1 c)
  = Mongo.updateOne f (fun d => u2 (u1 d)) c.
Proof.
  intros Hf. unfold Mongo.updateOne. induction c as [|x c IH]; simpl.
  - reflexivity.
  - destruct (f x) eqn:E; simpl.
    + now rewrite (Hf _ E).
    + now rewrite E, IH.
Qed.

Lemma updateOne_ext {A} (f : A -> bool) (u1 u2 : A -> A) (c : list A) :
  (forall d, Mongo.findOne f c = Some d -> u1 d = u2 d) ->
  Mongo.updateOne f u1 c = Mongo.updateOne f u2 c.
Proof.
  unfold Mongo.updateOne, Mongo.findOne. induction c as [|x c IH]; simpl.
  - reflexivity.
  - destruct (f x) eqn:E; intros H.
    + now rewrite (H x eq_refl).
    + now rewrite (IH H).
Qed.

Lemma app_report_admitted env k type id db :
  admitted db k = true ->
  app env (POST_report k type id) db =
  let db1 := snd (resolved env (str k) db) in
  if Js.strict_eq type "post" then
    match Mongo.findOne (post_has_id id) (posts db1) with
    | None => (Threw "TypeError: Cannot read properties of null", db1)
    | Some _ =>
        (Send 200 (SuccessMsg "Reported."),
         with_posts (Mongo.updateOne (post_has_id id) reported_post) db1)
    end
  else
    match Mongo.findOne (reply_has_id id) (replies db1) with
    | None => (Threw "TypeError: Cannot read properties of null", db1)
    | Some _ =>
        (Send 200 (SuccessMsg "Reported."),
         with_replies (Mongo.updateOne (reply_has_id id) reported_reply) db1)
    end.
Proof.
  intros H. enter_route (authUser_admitted env k db H). cbv zeta.
  set (db1 := snd (resolved env (str k) db)).
  destruct (Js.strict_eq type "post").
  - unfold bind, VoidPost_findByIdAndUpdate. cbn [fst snd posts with_posts].
    destruct (Mongo.findOne (post_has_id id) (posts db1)) as [p|] eqn:E;
      cbn [option_map deref].
    + unfold ret. unfold with_posts. cbn [users posts replies nextId].
      destruct (3 <=? VoidPost.reports (VoidPost.inc_reports 1 p)) eqn:T;
        unfold respond; f_equal; f_equal.
      * cbn [posts]. rewrite updateOne_twice by trivial.
        apply updateOne_ext. intros d Hd. rewrite E in Hd. injection Hd as <-.
        unfold reported_post. cbv zeta. now rewrite T.
      * apply updateOne_ext. intros d Hd. rewrite E in Hd. injection Hd as <-.
        unfold reported_post. cbv zeta. now rewrite T.
    + unfold throw. unfold with_posts.
      rewrite (updateOne_none _ _ _ E). now destruct db1.
  - unfold bind, VoidReply_findByIdAndUpdate. cbn [fst snd replies with_replies].
    destruct (Mongo.findOne (reply_has_id id) (replies db1)) as [r|] eqn:E;
      cbn [option_map deref].
    + unfold ret. unfold with_replies. cbn [users posts replies nextId].
      destruct (3 <=? VoidReply.reports (VoidReply.inc_reports 1 r)) eqn:T;
        unfold respond; f_equal; f_equal.
      * cbn [replies]. rewrite updateOne_twice by trivial.
        apply updateOne_ext. intros d Hd. rewrite E in Hd. injection Hd as <-.
        unfold reported_reply. cbv zeta. now rewrite T.
      * apply updateOne_ext. intros d Hd. rewrite E in Hd. injection Hd as <-.
        unfold reported_reply. cbv zeta. now rewrite T.
    + unfold throw. unfold with_replies.
      rewrite (updateOne_none _ _ _ E). now destruct db1.
Qed.

Lemma app_my_room_admitted env k db :
  admitted db k = true ->
  exists myPosts myInteractions,
    app env (GET_my_room k) db =
    (Send 200 (MyRoom myPosts myInteractions), snd (resolved env (str k) db)).
Proof.
  intros H. enter_route (authUser_admitted env k db H).
  cbv zeta. unfold bind, reads, respond. cbn [fst snd].
  eexists; eexists; reflexivity.
Qed.

Lemma app_dashboard env key db :
  snd (app env (GET_admin_dashboard key) db) = db.
Proof.
  unfold app, run, get_api_admin_dashboard.
  destruct (negb (Js.strict_eq key (ADMIN_KEY env))); reflexivity.
Qed.

Lemma app_ban env key token deleteContent db :
  app env (DELETE_admin_ban key token deleteContent) db =
  if negb (Js.strict_eq key (ADMIN_KEY env)) then
    (Send 403 (ErrorMsg "Forbidden"), db)
  else
    (Send 200 (SuccessMsg "User banished."),
     mkDb (Mongo.updateOne (has_deviceToken token) (User.set_isBanned true)
                           (users db))
          (if deleteContent then
             Mongo.updateMany (fun p => (VoidPost.authorToken p =? token)%string)
                              (VoidPost.set_status "deleted") (posts db)
           else posts db)
          (if deleteContent then
             Mongo.updateMany (fun r => (VoidReply.responderToken r =? token)%string)
                              (VoidReply.set_status "deleted") (replies db)
           else replies db)
          (nextId db)).
Proof.
  unfold app, run, delete_api_admin_ban.
  destruct (negb (Js.strict_eq key (ADMIN_KEY env))); [reflexivity|].
  destruct deleteContent; reflexivity.
Qed.

(* ------------------------------------------------------------------ *)
(** ** Points *)

Lemma points_eq (db db' : Db) (key : string) :
  users db' = users db -> points db' key = points db key.
Proof. unfold points. now intros ->. Qed.

(** Resolving an identity, new or not, gives nobody points. *)
Lemma points_resolved env k db key :
  points (snd (resolved env k db)) key = points db key.
Proof.
  unfold resolved, points.
  destruct (Mongo.findOne (has_deviceToken k) (users db)) as [u|] eqn:E.
  - reflexivity.
  - cbn [snd fresh_id with_users users]. rewrite findOne_app.
    destruct (Mongo.findOne (has_deviceToken key) (users db)) as [v|] eqn:F.
    + reflexivity.
    + now destruct (has_deviceToken key _).
Qed.

(** [$inc: { lightPoints: n }] on the identity [k]. *)
Lemma points_inc (us : list User.t) ps rs i k n key :
  points (mkDb (Mongo.updateOne (has_deviceToken k) (User.inc_lightPoints n) us)
               ps rs i) key
  = match Mongo.findOne (has_deviceToken key) us with
    | Some u => User.lightPoints u + (if (k =? key)%string then n else 0)
    | None => 0
    end.
Proof.
  unfold points. cbn [users].
  destruct (String.eqb_spec k key) as [->|Hk].
  - rewrite findOne_updateOne by (intros d Hd; exact Hd).
    now destruct (Mongo.findOne _ us).
  - rewrite findOne_updateOne_other.
    + destruct (Mongo.findOne _ us); [lia | reflexivity].
    + intros d Hd. apply has_deviceToken_iff in Hd.
      assert (has_deviceToken key d = false) as Hf.
      { apply not_true_is_false. rewrite has_deviceToken_iff. congruence. }
      split; [exact Hf | exact Hf].
Qed.

Lemma points_ban (us : list User.t) ps rs i token key :
  points (mkDb (Mongo.updateOne (has_deviceToken token) (User.set_isBanned true) us)
               ps rs i) key
  = points (mkDb us ps rs i) key.
Proof.
  unfold points. cbn [users].
  destruct (String.eqb_spec token key) as [->|Hk].
  - rewrite findOne_updateOne by (intros d Hd; exact Hd).
    now destruct (Mongo.findOne _ us).
  - rewrite findOne_updateOne_other; [reflexivity|].
    intros d Hd. apply has_deviceToken_iff in Hd.
    assert (has_deviceToken key d = false) as Hf.
    { apply not_true_is_false. rewrite has_deviceToken_iff. congruence. }
    split; [exact Hf | exact Hf].
Qed.

Lemma admitted_Some db k :
  admitted db k = true -> exists s, k = Some s.
Proof.
  destruct k as [s|]; [now exists s|].
  unfold admitted, Js.truthy. discriminate.
Qed.

(** Every request changes the points of every identity by exactly its
    reward. *)
Lemma points_app env req db key :
  points (snd (app env req db)) key
  = points db key + reward key req (fst (app env req db)).
Proof.
  destruct (authenticated req) eqn:Ha.
  - destruct (admitted db (voidKey_of req)) eqn:Hd.
    + destruct (admitted_Some _ _ Hd) as [s Hs].
      assert (Hr := resolved_findOne env (str (voidKey_of req)) db).
      assert (Hp := fun key => points_resolved env (str (voidKey_of req)) db key).
      destruct req as [k|k mood text room|k room|k postId text|k type id|k| |];
        try discriminate Ha; cbn [voidKey_of] in *; subst k; cbn [str] in *.
      * rewrite (app_me_admitted _ _ _ Hd). cbn [fst snd reward]. rewrite Hp. lia.
      * rewrite (app_post_admitted _ _ _ _ _ _ Hd). cbv zeta.
        destruct (negb (Js.truthy mood) || negb (Js.truthy text));
          [cbn [fst snd reward]; rewrite Hp; lia|].
        destruct (negb (moderateText (str text)));
          [cbn [fst snd reward]; rewrite Hp; lia|].
        cbn [fst snd reward]. rewrite points_inc.
        rewrite <- (Hp key). unfold points.
        destruct (Mongo.findOne (has_deviceToken key) _) eqn:F.
        -- reflexivity.
        -- cbn [str] in *. unfold Js.strict_eq.
           destruct (String.eqb_spec s key) as [<-|]; [congruence | lia].
      * rewrite (app_random_admitted _ _ _ _ Hd). cbv zeta.
        destruct (Mongo.sample1 _ _); cbn [fst snd reward]; rewrite Hp; lia.
      * rewrite (app_reply_admitted _ _ _ _ _ Hd). cbv zeta.
        destruct postId as [pid|]; [|cbn [fst snd reward]; rewrite Hp; lia].
        destruct (negb (Js.truthy text));
          [cbn [fst snd reward]; rewrite Hp; lia|].
        destruct (Mongo.findOne (post_has_id pid) _);
          [|cbn [fst snd reward]; rewrite Hp; lia].
        cbn [fst snd reward]. rewrite points_inc.
        rewrite <- (Hp key). unfold points.
        destruct (Mongo.findOne (has_deviceToken key) _) eqn:F.
        -- reflexivity.
        -- cbn [str] in *. unfold Js.strict_eq.
           destruct (String.eqb_spec s key) as [<-|]; [congruence | lia].
      * rewrite (app_report_admitted _ _ _ _ _ Hd). cbv zeta.
        destruct (Js.strict_eq type "post");
          [destruct (Mongo.findOne (post_has_id id) _)
          |destruct (Mongo.findOne (reply_has_id id) _)];
          cbn [fst snd reward];
          (rewrite <- (Hp key), Z.add_0_r; now apply points_eq).
      * destruct (app_my_room_admitted env _ db Hd) as (a & b & ->).
        cbn [fst snd reward]. rewrite Hp. lia.
    + destruct (app_not_admitted_response env req db Ha Hd) as (body & -> & H1 & H2).
      cbn [fst snd]. replace (reward key req _) with 0; [lia|].
      destruct req; try discriminate Ha; cbn [reward voidKey_of] in *;
        try reflexivity;
        destruct (Js.truthy _ && Js.anchored_test _ _);
        try reflexivity;
        rewrite (H2 eq_refl); reflexivity.
  - destruct req; try discriminate Ha.
    + rewrite app_dashboard. cbn [reward]. lia.
    + rewrite app_ban. destruct (negb _); cbn [fst snd reward].
      * lia.
      * rewrite points_ban, Z.add_0_r. now apply points_eq.
Qed.

Lemma reward_nonneg key req resp : 0 <= reward key req resp.
Proof.
  unfold reward.
  destruct req; try lia; destruct resp as [[|n] body|]; try lia;
    repeat (destruct n as [|n]; try lia);
    destruct body; try lia; destruct (Js.strict_eq _ _); lia.
Qed.

Lemma reward_other key req resp :
  voidKey_of req <> Some key -> reward key req resp = 0.
Proof.
  intros H. unfold reward.
  assert (Hs : forall k, k <> Some key -> Js.strict_eq k key = false).
  { intros [s|] Hk; unfold Js.strict_eq; [|reflexivity].
    apply String.eqb_neq. congruence. }
  destruct req; try reflexivity; cbn [voidKey_of] in H;
    rewrite (Hs _ H); destruct resp as [[|n] body|]; try reflexivity;
    repeat (destruct n as [|n]; try reflexivity);
    destruct body; reflexivity.
Qed.

Lemma points_serve_others key reqs db :
  others key reqs -> points (serve reqs db) key = points db key.
Proof.
  unfold others. revert db. induction reqs as [|[env req] reqs IH]; intros db H.
  - reflexivity.
  - inversion H as [|? ? Hreq Hrest]; subst. cbn [serve].
    rewrite (IH _ Hrest), points_app, (reward_other _ _ _ Hreq). lia.
Qed.

Lemma reward_created_post key req resp :
  created_post key req resp -> reward key req resp = 1.
Proof.
  intros (mood & text & room & p & -> & ->). unfold reward, Js.strict_eq.
  now rewrite String.eqb_refl.
Qed.

Lemma reward_created_reply key req resp :
  created_reply key req resp -> reward key req resp = 5.
Proof.
  intros (postId & text & -> & ->). unfold reward, Js.strict_eq.
  now rewrite String.eqb_refl.
Qed.

(** C8. Creating a post earns its author exactly 1 point and creating a
    reply earns its author exactly 5; no request lowers anybody's points;
    and an identity that creates one post and one reply, in either order
    and with any requests of other identities before, between and after,
    ends exactly 6 points up. *)
Theorem points_post_1_reply_5 :
  (forall env key mood text room db p db',
      app env (POST_post (Some key) mood text room) db
      = (Send 201 (PostDoc p), db') ->
      points db' key = points db key + 1)
  /\ (forall env key postId text db db',
         app env (POST_reply (Some key) postId text) db
         = (Send 200 Success, db') ->
         points db' key = points db key + 5)
  /\ (forall env req db key,
         points db key <= points (snd (app env req db)) key)
  /\ (forall key db before e1 r1 between e2 r2 after,
         others key before -> others key between -> others key after ->
         let db1 := serve before db in
         let db2 := serve between (snd (app e1 r1 db1)) in
         (created_post key r1 (fst (app e1 r1 db1))
          /\ created_reply key r2 (fst (app e2 r2 db2)))
         \/ (created_reply key r1 (fst (app e1 r1 db1))
             /\ created_post key r2 (fst (app e2 r2 db2))) ->
         points (serve after (snd (app e2 r2 db2))) key = points db key + 6).
Proof.
  repeat split.
  - intros env key mood text room db p db' H.
    assert (E := points_app env (POST_post (Some key) mood text room) db key).
    rewrite H in E. cbn [fst snd] in E. rewrite E. f_equal.
    apply reward_created_post. now exists mood, text, room, p.
  - intros env key postId text db db' H.
    assert (E := points_app env (POST_reply (Some key) postId text) db key).
    rewrite H in E. cbn [fst snd] in E. rewrite E. f_equal.
    apply reward_created_reply. now exists postId, text.
  - intros env req db key. rewrite points_app.
    generalize (reward_nonneg key req (fst (app env req db))). lia.
  - intros key db before e1 r1 between e2 r2 after Hb Hm Ha db1 db2 H.
    rewrite (points_serve_others _ _ _ Ha), points_app.
    subst db2. rewrite (points_serve_others _ _ _ Hm), points_app.
    subst db1. rewrite (points_serve_others _ _ _ Hb).
    destruct H as [[H1 H2]|[H1 H2]].
    + rewrite (reward_created_post _ _ _ H1), (reward_created_reply _ _ _ H2). lia.
    + rewrite (reward_created_reply _ _ _ H1), (reward_created_post _ _ _ H2). lia.
Qed.

(* ------------------------------------------------------------------ *)
(** ** Moderation of text *)

(** C5. [moderateText] answers false exactly when the lower-cased text
    holds one of the denylisted words as a substring, wherever it falls
    in the text: "I want to die today" is turned down for its "die", "I
    had a great day" passes, and so is a text turned down whose "die" is
    only part of another word. *)
Theorem moderateText_false_iff_denylisted_substring :
  (forall text,
      moderateText text = false <->
      exists word, In word prohibited /\ occurs_in word (Js.toLowerCase text))
  /\ moderateText "I want to die today" = false
  /\ occurs_in "die" (Js.toLowerCase "I want to die today")
  /\ moderateText "I had a great day" = true
  /\ moderateText "My diet starts today" = false.
Proof.
  split; [|repeat split; try reflexivity].
  - intros text. unfold moderateText, Js.some.
    rewrite negb_false_iff, existsb_exists.
    split; intros (word & Hin & H); exists word; (split; [exact Hin|]);
      now apply includes_iff.
  - now exists "i want to "%string, " today"%string.
Qed.

(* ------------------------------------------------------------------ *)
(** ** Identities *)

Lemma admitted_well_formed db s :
  admitted db (Some s) = true -> well_formed_key s.
Proof.
  unfold admitted. intros H. apply andb_true_iff in H as [H _].
  apply andb_true_iff in H as [_ H]. now apply keyPattern_iff.
Qed.

Lemma users_resolved env s db :
  admitted db (Some s) = true ->
  users_steps (users db) (users (snd (resolved env s db))).
Proof.
  intros H. unfold resolved.
  destruct (Mongo.findOne (has_deviceToken s) (users db)) eqn:E; cbn [snd].
  - apply rt_refl.
  - apply rt_step. cbn [fresh_id with_users users].
    apply users_created; [eapply admitted_well_formed; eassumption | exact E].
Qed.

Lemma users_resolved_inc env s db n ps rs i :
  admitted db (Some s) = true ->
  users_steps (users db)
    (users (mkDb (Mongo.updateOne (has_deviceToken s) (User.inc_lightPoints n)
                                  (users (snd (resolved env s db)))) ps rs i)).
Proof.
  intros H. eapply rt_trans; [apply (users_resolved env s db H)|].
  apply rt_step. cbn [users]. apply users_updated. intros u. reflexivity.
Qed.

(** How any request changes the identities. *)
Lemma users_app env req db :
  users_steps (users db) (users (snd (app env req db))).
Proof.
  destruct (authenticated req) eqn:Ha.
  - destruct (admitted db (voidKey_of req)) eqn:Hd.
    + destruct (admitted_Some _ _ Hd) as [s Hs].
      destruct req as [k|k mood text room|k room|k postId text|k type id|k| |];
        try discriminate Ha; cbn [voidKey_of] in *; subst k.
      * rewrite (app_me_admitted _ _ _ Hd). now apply users_resolved.
      * rewrite (app_post_admitted _ _ _ _ _ _ Hd). cbv zeta. cbn [str].
        destruct (negb (Js.truthy mood) || negb (Js.truthy text));
          [now apply users_resolved|].
        destruct (negb (moderateText (str text))); [now apply users_resolved|].
        cbn [snd]. now apply users_resolved_inc.
      * rewrite (app_random_admitted _ _ _ _ Hd). cbv zeta. cbn [str].
        destruct (Mongo.sample1 _ _); now apply users_resolved.
      * rewrite (app_reply_admitted _ _ _ _ _ Hd). cbv zeta. cbn [str].
        destruct postId as [pid|]; [|now apply users_resolved].
        destruct (negb (Js.truthy text)); [now apply users_resolved|].
        destruct (Mongo.findOne (post_has_id pid) _);
          [|now apply users_resolved].
        cbn [snd]. now apply users_resolved_inc.
      * rewrite (app_report_admitted _ _ _ _ _ Hd). cbv zeta. cbn [str].
        destruct (Js.strict_eq type "post");
          [destruct (Mongo.findOne (post_has_id id) _)
          |destruct (Mongo.findOne (reply_has_id id) _)];
          now apply users_resolved.
      * destruct (app_my_room_admitted env _ db Hd) as (a & b & ->).
        now apply users_resolved.
    + rewrite (app_not_admitted env req db Ha Hd). apply rt_refl.
  - destruct req; try discriminate Ha.
    + rewrite app_dashboard. apply rt_refl.
    + rewrite app_ban. destruct (negb _); cbn [snd users].
      * apply rt_refl.
      * apply rt_step, users_updated. intros u. reflexivity.
Qed.

Lemma keys_well_formed_steps us us' :
  users_steps us us' ->
  Forall (fun u => well_formed_key (User.deviceToken u)) us ->
  Forall (fun u => well_formed_key (User.deviceToken u)) us'.
Proof.
  induction 1 as [us us' Hs| |]; auto.
  intros H. destruct Hs as [id key t Hk _|k upd Hu].
  - apply Forall_app. split; [exact H|]. constructor; [exact Hk | constructor].
  - apply Forall_updateOne; [exact H|].
    intros d Hd. rewrite Hu. apply findOne_Some in Hd as [Hd _].
    rewrite Forall_forall in H. now apply H.
Qed.

(** C4. A request to a route behind [authUser] whose key is not of the
    form VOID-XXXX-XXXX-XXXX is answered 401 and leaves the database as it
    was; no request ever adds an identity with a malformed key to a
    database that has none; and a well-formed key with no identity yet
    gets one with zero points that is not banned. *)
Theorem malformed_key_rejected_and_unseen_key_created :
  (forall env req db key,
      voidKey_of req = Some key -> ~ well_formed_key key ->
      exists msg, app env req db = (Send 401 (ErrorMsg msg), db))
  /\ (forall env req db,
         keys_well_formed db -> keys_well_formed (snd (app env req db)))
  /\ (forall env key db,
         well_formed_key key ->
         Mongo.findOne (has_deviceToken key) (users db) = None ->
         let u := User.mk (nextId db) key 0 false (now env) in
         authUser env (Some key) db
         = (Next u, mkDb (users db ++ [u]) (posts db) (replies db)
                         (S (nextId db)))
         /\ User.lightPoints u = 0 /\ User.isBanned u = false).
Proof.
  repeat split.
  - intros env req db key Hk Hw.
    assert (Ha : authenticated req = true) by (destruct req; try reflexivity; discriminate).
    assert (Hp : Js.truthy (voidKey_of req)
                 && Js.anchored_test keyPattern (str (voidKey_of req)) = false).
    { rewrite Hk. cbn [str]. apply andb_false_iff. right.
      apply not_true_is_false. now rewrite keyPattern_iff. }
    assert (Hd : admitted db (voidKey_of req) = false).
    { unfold admitted. now rewrite Hp. }
    destruct (app_not_admitted_response env req db Ha Hd) as (body & E & H1 & _).
    rewrite Hp in E. destruct (H1 Hp) as [msg ->]. now exists msg.
  - intros env req db. apply keys_well_formed_steps, users_app.
  - rewrite authUser_admitted.
    + unfold resolved. cbn [str]. rewrite H0. reflexivity.
    + unfold admitted. cbn [str]. rewrite H0.
      apply keyPattern_iff in H. rewrite H.
      destruct key; [|reflexivity].
      apply keyPattern_iff in H. destruct H as (g1 & g2 & g3 & E & _). discriminate.
Qed.

(* ------------------------------------------------------------------ *)
(** ** Creating posts and replies *)

Lemma array_includes_iff (arr : list string) (v : option string) :
  Js.array_includes arr v = true <-> exists s, v = Some s /\ In s arr.
Proof.
  unfold Js.array_includes. destruct v as [s|].
  - rewrite existsb_exists. split.
    + intros (x & Hx & E). apply String.eqb_eq in E. subst x. now exists s.
    + intros (x & E & Hx). injection E as <-. exists s.
      split; [exact Hx | apply String.eqb_refl].
  - split; [discriminate | intros (s & E & _); discriminate].
Qed.

(** C6. A post created through the route is stored with a room of the
    closed set general, love, work, family, life: the room of the request
    when that is one of the five, and "general" for any other value or
    none, with the same 201 answer. *)
Theorem post_room_in_validRooms_else_general :
  forall env key mood text room db,
    admitted db (Some key) = true ->
    Js.truthy mood = true -> Js.truthy text = true ->
    moderateText (str text) = true ->
    exists p db',
      app env (POST_post (Some key) mood text room) db
      = (Send 201 (PostDoc p), db')
      /\ In p (posts db')
      /\ In (VoidPost.room p) validRooms
      /\ (forall r, room = Some r -> In r validRooms -> VoidPost.room p = r)
      /\ ((forall r, room = Some r -> ~ In r validRooms) ->
          VoidPost.room p = "general").
Proof.
  intros env key mood text room db Hd Hm Ht Hok.
  rewrite (app_post_admitted _ _ _ _ _ _ Hd). cbv zeta.
  rewrite Hm, Ht, Hok. cbn [negb orb].
  eexists; eexists; split; [reflexivity|]. cbn [posts VoidPost.room].
  split; [apply in_or_app; right; now left|].
  destruct (Js.array_includes validRooms room) eqn:E.
  - apply array_includes_iff in E as (s & -> & Hs). cbn [str].
    split; [exact Hs|]. split.
    + intros r Hr _. now injection Hr.
    + intros H. now elim (H s eq_refl).
  - split; [now left|]. split; [|reflexivity].
    intros r -> Hr. cbn [str].
    assert (Js.array_includes validRooms (Some r) = true) as E'
        by (apply array_includes_iff; now exists r).
    congruence.
Qed.

Lemma truthy_Some (s : string) : s <> "" -> Js.truthy (Some s) = true.
Proof.
  intros H. unfold Js.truthy. apply negb_true_iff. now apply String.eqb_neq.
Qed.

(** C10. The reply route never consults [moderateText]: for an admitted
    requester, an existing post and any non-empty text the reply is
    created and stored as written, also when the very same text is
    turned down by the post route as harmful. *)
Theorem reply_text_is_not_moderated :
  forall env key postId text db post,
    admitted db (Some key) = true ->
    Mongo.findOne (post_has_id postId) (posts db) = Some post ->
    text <> "" ->
    (exists r db',
        app env (POST_reply (Some key) (Some postId) (Some text)) db
        = (Send 200 Success, db')
        /\ In r (replies db')
        /\ VoidReply.text r = text
        /\ VoidReply.postId r = postId
        /\ VoidReply.responderToken r = key
        /\ VoidReply.status r = "visible")
    /\ (moderateText text = false ->
        forall mood room,
          Js.truthy mood = true ->
          exists db',
            app env (POST_post (Some key) mood (Some text) room) db
            = (Send 400 (ErrorMsg "Harmful content detected"), db')
            /\ posts db' = posts db).
Proof.
  intros env key postId text db post Hd Hp Ht. split.
  - rewrite (app_reply_admitted _ _ _ _ _ Hd). cbv zeta.
    rewrite (truthy_Some _ Ht), resolved_posts, Hp. cbn [negb].
    eexists; eexists; split; [reflexivity|]. cbn [replies].
    split; [apply in_or_app; right; now left|]. now cbn.
  - intros Hm mood room Hmood.
    rewrite (app_post_admitted _ _ _ _ _ _ Hd). cbv zeta.
    rewrite Hmood, (truthy_Some _ Ht). cbn [negb orb str]. rewrite Hm.
    cbn [negb]. eexists; split; [reflexivity | apply resolved_posts].
Qed.

(* ------------------------------------------------------------------ *)
(** ** Reports *)

Lemma admitted_resolved env s db k :
  admitted db k = true -> admitted (snd (resolved env s db)) k = true.
Proof.
  unfold admitted, resolved. intros H.
  apply andb_true_iff in H as [H1 H2]. rewrite H1. cbn [andb].
  destruct (Mongo.findOne (has_deviceToken s) (users db)); cbn [snd].
  - exact H2.
  - cbn [fresh_id with_users users]. rewrite findOne_app.
    destruct (Mongo.findOne (has_deviceToken (str k)) (users db)).
    + exact H2.
    + now destruct (has_deviceToken (str k) _).
Qed.

Lemma admitted_users db db' k :
  users db' = users db -> admitted db' k = admitted db k.
Proof. unfold admitted. now intros ->. Qed.

(** One report by an admitted requester about an entity that exists. *)
Lemma report_once env k type id db n s :
  admitted db k = true ->
  entity_at db type id = Some (n, s) ->
  fst (app env (POST_report k type id) db) = Send 200 (SuccessMsg "Reported.")
  /\ entity_at (snd (app env (POST_report k type id) db)) type id
     = Some (n + 1, if 3 <=? n + 1 then "hidden" else s)
  /\ (forall k', admitted db k' = true ->
                 admitted (snd (app env (POST_report k type id) db)) k' = true).
Proof.
  intros Hd He. rewrite (app_report_admitted _ _ _ _ _ Hd). cbv zeta.
  unfold entity_at in *. rewrite resolved_posts, resolved_replies.
  destruct (Js.strict_eq type "post").
  - destruct (Mongo.findOne (post_has_id id) (posts db)) as [p|] eqn:E;
      [|discriminate He].
    cbn [fst snd option_map] in *. injection He as <- <-.
    split; [reflexivity|]. split.
    + unfold with_posts. cbn [posts]. rewrite resolved_posts.
      rewrite findOne_updateOne.
      * rewrite E. cbn [option_map]. unfold reported_post. cbv zeta.
        cbn [VoidPost.inc_reports VoidPost.reports].
        now destruct (3 <=? VoidPost.reports p + 1).
      * intros d Hd'. unfold reported_post. cbv zeta.
        destruct (3 <=? _); exact Hd'.
    + intros k' Hk'.
      rewrite (admitted_users (snd (resolved env (str k) db)) _ k') by reflexivity.
      now apply admitted_resolved.
  - destruct (Mongo.findOne (reply_has_id id) (replies db)) as [r|] eqn:E;
      [|discriminate He].
    cbn [fst snd option_map] in *. injection He as <- <-.
    split; [reflexivity|]. split.
    + unfold with_replies. cbn [replies]. rewrite resolved_replies.
      rewrite findOne_updateOne.
      * rewrite E. cbn [option_map]. unfold reported_reply. cbv zeta.
        cbn [VoidReply.inc_reports VoidReply.reports].
        now destruct (3 <=? VoidReply.reports r + 1).
      * intros d Hd'. unfold reported_reply. cbv zeta.
        destruct (3 <=? _); exact Hd'.
    + intros k' Hk'.
      rewrite (admitted_users (snd (resolved env (str k) db)) _ k') by reflexivity.
      now apply admitted_resolved.
Qed.

(** Any number of reports, at least one. *)
Lemma report_many type id reporter reporters :
  forall db n s,
    Forall (fun ek => admitted db (snd ek) = true) (reporter :: reporters) ->
    entity_at db type id = Some (n, s) ->
    let m := Z.of_nat (List.length (reporter :: reporters)) in
    entity_at (serve (reports_by (reporter :: reporters) type id) db) type id
    = Some (n + m, if 3 <=? n + m then "hidden" else s).
Proof.
  revert reporter. induction reporters as [|r' rest IH];
    intros [env k] db n s Had He m; subst m;
    inversion Had as [|? ? Hk Hrest]; subst; cbn [snd fst] in Hk;
    destruct (report_once env k type id db n s Hk He) as (_ & E1 & Hadm).
  - cbn [reports_by map serve fst snd List.length]. exact E1.
  - change (serve (reports_by ((env, k) :: r' :: rest) type id) db)
      with (serve (reports_by (r' :: rest) type id)
                  (snd (app env (POST_report k type id) db))).
    rewrite (IH r' _ _ _ (Forall_impl _ (fun ek => Hadm (snd ek)) Hrest) E1).
    cbv zeta. cbn [List.length].
    replace (n + 1 + Z.of_nat (S (List.length rest)))
      with (n + Z.of_nat (S (S (List.length rest)))) by lia.
    destruct (Z.leb_spec 3 (n + Z.of_nat (S (S (List.length rest)))));
      [reflexivity|].
    destruct (Z.leb_spec 3 (n + 1)); [lia | reflexivity].
Qed.

Lemma reported_post_past_threshold p :
  post_hidden_past_threshold p -> post_hidden_past_threshold (reported_post p).
Proof.
  unfold post_hidden_past_threshold, reported_post. cbv zeta. intros Hinv.
  destruct (Z.leb_spec 3 (VoidPost.reports (VoidPost.inc_reports 1 p)));
    cbn in *; intros Hs; [lia | specialize (Hinv Hs); lia].
Qed.

Lemma reported_reply_past_threshold r :
  reply_hidden_past_threshold r -> reply_hidden_past_threshold (reported_reply r).
Proof.
  unfold reply_hidden_past_threshold, reported_reply. cbv zeta. intros Hinv.
  destruct (Z.leb_spec 3 (VoidReply.reports (VoidReply.inc_reports 1 r)));
    cbn in *; intros Hs; [lia | specialize (Hinv Hs); lia].
Qed.

Lemma Forall_updateOne_all {A} (P : A -> Prop) f upd (c : list A) :
  Forall P c -> (forall d, P d -> P (upd d)) ->
  Forall P (Mongo.updateOne f upd c).
Proof.
  intros Hc Hd. apply Forall_updateOne; [exact Hc|].
  intros d Hf. apply Hd. apply findOne_Some in Hf as [Hin _].
  rewrite Forall_forall in Hc. now apply Hc.
Qed.

(** Every request keeps it so: it holds on every board that came to be
    through the routes. *)
Lemma hidden_past_threshold_app env req db :
  hidden_past_threshold db -> hidden_past_threshold (snd (app env req db)).
Proof.
  unfold hidden_past_threshold. intros [Hp Hr].
  destruct (authenticated req) eqn:Ha.
  - destruct (admitted db (voidKey_of req)) eqn:Hd.
    + assert (Hp1 := Hp). assert (Hr1 := Hr).
      rewrite <- (resolved_posts env (str (voidKey_of req)) db) in Hp1.
      rewrite <- (resolved_replies env (str (voidKey_of req)) db) in Hr1.
      destruct req as [k|k mood text room|k room|k postId text|k type id|k| |];
        try discriminate Ha; cbn [voidKey_of] in *.
      * rewrite (app_me_admitted _ _ _ Hd). now split.
      * rewrite (app_post_admitted _ _ _ _ _ _ Hd). cbv zeta.
        destruct (negb (Js.truthy mood) || negb (Js.truthy text)); [now split|].
        destruct (negb (moderateText (str text))); [now split|].
        cbn [snd posts replies]. split; [|exact Hr1].
        apply Forall_app. split; [exact Hp1|].
        constructor; [|constructor]. intros H. discriminate H.
      * rewrite (app_random_admitted _ _ _ _ Hd). cbv zeta.
        destruct (Mongo.sample1 _ _); now split.
      * rewrite (app_reply_admitted _ _ _ _ _ Hd). cbv zeta.
        destruct postId as [pid|]; [|now split].
        destruct (negb (Js.truthy text)); [now split|].
        destruct (Mongo.findOne (post_has_id pid) _); [|now split].
        cbn [snd posts replies]. split.
        -- apply Forall_updateOne_all; [exact Hp1|]. intros d Pd. exact Pd.
        -- apply Forall_app. split; [exact Hr1|].
           constructor; [|constructor]. intros H. discriminate H.
      * rewrite (app_report_admitted _ _ _ _ _ Hd). cbv zeta.
        destruct (Js.strict_eq type "post");
          [destruct (Mongo.findOne (post_has_id id) _)
          |destruct (Mongo.findOne (reply_has_id id) _)];
          cbn [snd with_posts with_replies posts replies]; split; auto.
        -- apply Forall_updateOne_all; [exact Hp1|].
           apply reported_post_past_threshold.
        -- apply Forall_updateOne_all; [exact Hr1|].
           apply reported_reply_past_threshold.
      * destruct (app_my_room_admitted env k db Hd) as (a & b & ->). now split.
    + rewrite (app_not_admitted env req db Ha Hd). now split.
  - destruct req; try discriminate Ha.
    + rewrite app_dashboard. now split.
    + rewrite app_ban. destruct (negb _); cbn [snd posts replies]; [now split|].
      destruct deleteContent; [|now split]. split.
      * apply Forall_updateMany; [exact Hp|]. intros d _ H. discriminate H.
      * apply Forall_updateMany; [exact Hr|]. intros d _ H. discriminate H.
Qed.

Lemma hidden_past_threshold_serve reqs db :
  hidden_past_threshold db -> hidden_past_threshold (serve reqs db).
Proof.
  revert db. induction reqs as [|[env req] reqs IH]; intros db H; cbn [serve].
  - exact H.
  - now apply IH, hidden_past_threshold_app.
Qed.

Lemma hidden_past_threshold_empty : hidden_past_threshold emptyDb.
Proof. split; constructor. Qed.

Lemma hidden_past_threshold_entity db type id n s :
  hidden_past_threshold db ->
  entity_at db type id = Some (n, s) ->
  s = "hidden" -> 3 <= n.
Proof.
  unfold entity_at. intros [Hp Hr] He.
  destruct (Js.strict_eq type "post").
  - destruct (Mongo.findOne (post_has_id id) (posts db)) as [p|] eqn:E;
      [|discriminate He].
    injection He as <- <-. apply findOne_Some in E as [Hin _].
    rewrite Forall_forall in Hp. now apply Hp.
  - destruct (Mongo.findOne (reply_has_id id) (replies db)) as [r|] eqn:E;
      [|discriminate He].
    injection He as <- <-. apply findOne_Some in E as [Hin _].
    rewrite Forall_forall in Hr. now apply Hr.
Qed.

(** C3. Reports of a post or of a reply by admitted requesters each add
    exactly 1 to its report count, and once at least one has been made
    the entity is hidden exactly when the count reached is 3 or more: an
    entity already hidden stays hidden while its count goes on growing,
    and below 3 the status is the one it had, so that a fresh entity is
    unchanged after two reports and hidden after the third. *)
Theorem report_hides_at_three :
  forall type id reporters db n s,
    reporters <> [] ->
    Forall (fun ek => admitted db (snd ek) = true) reporters ->
    entity_at db type id = Some (n, s) ->
    (s = "hidden" -> 3 <= n) ->
    let n' := n + Z.of_nat (List.length reporters) in
    exists s',
      entity_at (serve (reports_by reporters type id) db) type id = Some (n', s')
      /\ (s' = "hidden" <-> 3 <= n')
      /\ (n' < 3 -> s' = s)
      /\ (s = "hidden" -> s' = "hidden").
Proof.
  intros type id [|reporter reporters] db n s Hne Had He Hinv n';
    [now elim Hne|].
  subst n'. rewrite (report_many type id reporter reporters db n s Had He).
  cbv zeta. eexists; split; [reflexivity|].
  destruct (Z.leb_spec 3 (n + Z.of_nat (List.length (reporter :: reporters))))
    as [Hge|Hlt].
  - repeat split; auto. intros; lia.
  - repeat split; auto.
    + intros ->. specialize (Hinv eq_refl). cbn [List.length] in Hlt. lia.
    + intros; lia.
Qed.

(* ------------------------------------------------------------------ *)
(** ** Sorting *)

Section SortFacts.
Context {A : Type} (spec : @Mongo.sortSpec A).

Let leb (a b : A) : Prop := Mongo.comes_first spec a b = true.

Hypothesis leb_total : forall a b, Mongo.comes_first spec a b = false -> leb b a.
Hypothesis leb_trans : forall a b c, leb a b -> leb b c -> leb a c.

Lemma insert_sorted_perm (d : A) (l : list A) :
  Permutation (d :: l) (Mongo.insert_sorted spec d l).
Proof.
  induction l as [|x l IH]; simpl.
  - apply Permutation_refl.
  - destruct (Mongo.comes_first spec d x).
    + apply Permutation_refl.
    + eapply perm_trans; [apply perm_swap|]. now apply perm_skip.
Qed.

Lemma sort_perm (l : list A) : Permutation l (Mongo.sort spec l).
Proof.
  unfold Mongo.sort. induction l as [|x l IH]; simpl.
  - apply perm_nil.
  - eapply perm_trans; [apply perm_skip, IH | apply insert_sorted_perm].
Qed.

Lemma insert_sorted_sorted (d : A) (l : list A) :
  StronglySorted leb l -> StronglySorted leb (Mongo.insert_sorted spec d l).
Proof.
  induction 1 as [|x l Hs IH Hx]; simpl.
  - constructor; constructor.
  - destruct (Mongo.comes_first spec d x) eqn:E.
    + constructor; [now constructor|].
      constructor; [exact E|].
      eapply Forall_impl; [|exact Hx]. intros y Hy. now apply leb_trans with x.
    + constructor; [exact IH|].
      eapply Permutation_Forall; [apply insert_sorted_perm|].
      constructor; [now apply leb_total | exact Hx].
Qed.

Lemma sort_sorted (l : list A) : StronglySorted leb (Mongo.sort spec l).
Proof.
  unfold Mongo.sort. induction l as [|x l IH]; simpl.
  - constructor.
  - now apply insert_sorted_sorted.
Qed.



End SortFacts.



Lemma In_firstn_In {A} (n : nat) (l : list A) (d : A) :
  In d (firstn n l) -> In d l.
Proof.
  intros H. rewrite <- (firstn_skipn n l). apply in_or_app. now left.
Qed.

Lemma sample1_In {A} (draw : nat) (l : list A) (d : A) :
  In d (Mongo.sample1 draw l) -> In d l.
Proof.
  unfold Mongo.sample1.
  destruct (nth_error l _) as [x|] eqn:E; simpl; [|tauto].
  intros [<-|[]]. eapply nth_error_In, E.
Qed.


Lemma sample1_nonempty {A} (draw : nat) (l : list A) :
  l <> [] -> Mongo.sample1 draw l <> [].
Proof.
  intros Hl. unfold Mongo.sample1.
  destruct (nth_error l _) eqn:E; [discriminate|].
  apply nth_error_None in E.
  assert (List.length l <> 0)%nat by (destruct l; [congruence | discriminate]).
  assert (draw mod List.length l < List.length l)%nat
    by (apply Nat.mod_upper_bound; assumption).
  lia.
Qed.

(* ------------------------------------------------------------------ *)
(** ** The random route *)






Lemma StronglySorted_impl {A} (R R' : A -> A -> Prop) (l : list A) :
  (forall a b, R a b -> R' a b) -> StronglySorted R l -> StronglySorted R' l.
Proof.
  intros HR. induction 1 as [|x l _ IH Hx]; constructor; auto.
  eapply Forall_impl; [|exact Hx]. auto.
Qed.

(** The pool: the first 50 of the candidates in pool order. *)
Lemma pool_eq requester room db :
  Mongo.aggregate (pool_stages requester room) (posts db)
  = firstn 50 (Mongo.sort pool_order (eligible requester room db)).
Proof. reflexivity. Qed.

(** What the route answers to an admitted requester. *)
Lemma app_random_pool env k room db :
  admitted db k = true ->
  app env (GET_post_random k room) db =
  match Mongo.sample1 (draw env)
          (firstn 50 (Mongo.sort pool_order (eligible (str k) room db))) with
  | [] => (Send 204 Empty, snd (resolved env (str k) db))
  | post :: _ => (Send 200 (PostDoc post), snd (resolved env (str k) db))
  end.
Proof. intros H. now rewrite (app_random_admitted _ _ _ _ H). Qed.

(** A post is answered only to an admitted requester, and it is the one
    drawn from the pool. *)
Lemma random_post_drawn env k room db p db' :
  app env (GET_post_random k room) db = (Send 200 (PostDoc p), db') ->
  admitted db k = true
  /\ In p (firstn 50 (Mongo.sort pool_order (eligible (str k) room db))).
Proof.
  intros H. destruct (admitted db k) eqn:Hd.
  - split; [reflexivity|]. rewrite (app_random_pool _ _ _ _ Hd) in H.
    destruct (Mongo.sample1 _ _) as [|q l] eqn:E; [discriminate|].
    injection H as <- _. apply (sample1_In (draw env)). rewrite E. now left.
  - destruct (app_not_admitted_response env (GET_post_random k room) db
                eq_refl Hd) as (body & E & H1 & H2).
    rewrite E in H. injection H as Hs Hb _.
    cbn [voidKey_of] in *.
    destruct (Js.truthy k && Js.anchored_test keyPattern (str k));
      [rewrite (H2 eq_refl) in Hb; discriminate | discriminate].
Qed.

(** With candidates and an admitted requester, a post is answered. *)
Lemma random_post_answered env k room db :
  admitted db k = true ->
  eligible (str k) room db <> [] ->
  exists p, app env (GET_post_random k room) db
            = (Send 200 (PostDoc p), snd (resolved env (str k) db)).
Proof.
  intros Hd Hne. rewrite (app_random_pool _ _ _ _ Hd).
  destruct (Mongo.sample1 _ _) as [|p l] eqn:E; [|now exists p].
  exfalso. revert E. apply sample1_nonempty.
  assert (Hp := sort_perm pool_order (eligible (str k) room db)).
  destruct (eligible (str k) room db) as [|c cs]; [congruence|].
  destruct (Mongo.sort pool_order (c :: cs)) as [|s ss];
    [apply Permutation_sym, Permutation_nil in Hp; discriminate | discriminate].
Qed.


Lemma matches_iff requester room p :
  Mongo.matches (matchStage requester room) p = true <->
  eligibility requester room p.
Proof.
  unfold Mongo.matches, matchStage, eligibility.
  rewrite forallb_app. cbn [forallb Mongo.holds].
  rewrite !andb_true_iff, String.eqb_eq, Z.ltb_lt, negb_true_iff, String.eqb_neq.
  assert (Hroom :
    forallb (fun c => Mongo.holds c p)
      (if Js.truthy room && negb (str room =? "all")%string
       then [Mongo.room_eq (str room)] else []) = true
    <-> (room = None \/ room = Some "" \/ room = Some "all"
         \/ room = Some (VoidPost.room p))).
  { destruct room as [r|]; unfold Js.truthy; cbn [str].
    - destruct (String.eqb_spec r "") as [->|Hr]; cbn [negb andb].
      + cbn. tauto.
      + destruct (String.eqb_spec r "all") as [->|Ha]; cbn [negb forallb].
        * tauto.
        * cbn [Mongo.holds]. rewrite andb_true_r, String.eqb_eq. split.
          -- intros ->. auto.
          -- intros [H|[H|[H|H]]]; try discriminate; congruence.
    - cbn. tauto. }
  rewrite Hroom. tauto.
Qed.

Lemma eligible_iff requester room db p :
  In p (eligible requester room db) <->
  In p (posts db) /\ eligibility requester room p.
Proof.
  unfold eligible, Mongo.find. now rewrite filter_In, matches_iff.
Qed.

(** C2, as amended. A post answered by the random route is active, has
    fewer than 3 reports, is not the requester's own, and is in the room
    asked for unless the room filter is missing, empty or "all"; so the
    requester's own posts are never answered. *)
Theorem random_post_is_eligible :
  forall env key room db p db',
    app env (GET_post_random (Some key) room) db = (Send 200 (PostDoc p), db') ->
    In p (posts db)
    /\ eligibility key room p
    /\ VoidPost.authorToken p <> key.
Proof.
  intros env key room db p db' H.
  apply random_post_drawn in H as [_ Hin]. cbn [str] in Hin.
  apply In_firstn_In in Hin.
  apply (Permutation_in _ (Permutation_sym (sort_perm pool_order _))) in Hin.
  apply eligible_iff in Hin as [Hp He].
  split; [exact Hp|]. split; [exact He|]. apply He.
Qed.



(* ------------------------------------------------------------------ *)
(** ** References to posts and replies that do not exist *)

(** The reply route answers 404 for a post that does not exist, and
    neither posts, replies nor points have changed. *)
Lemma reply_to_absent_post env k postId text db :
  admitted db k = true ->
  Js.truthy text = true ->
  Mongo.findOne (post_has_id postId) (posts db) = None ->
  let db' := snd (app env (POST_reply k (Some postId) text) db) in
  fst (app env (POST_reply k (Some postId) text) db)
  = Send 404 (ErrorMsg "Not found")
  /\ posts db' = posts db /\ replies db' = replies db
  /\ forall key, points db' key = points db key.
Proof.
  intros Hd Ht Hp db'. subst db'.
  rewrite (app_reply_admitted _ _ _ _ _ Hd). cbv zeta.
  rewrite Ht, resolved_posts, Hp. cbn [negb fst snd].
  repeat split.
  - apply resolved_posts.
  - apply resolved_replies.
  - intros key. apply points_resolved.
Qed.

(** The report route has no such check: for a post or reply that does
    not exist it reads [reports] of null and throws, answering nothing. *)
Lemma report_of_absent_entity env k type id db :
  admitted db k = true ->
  entity_at db type id = None ->
  let db' := snd (app env (POST_report k type id) db) in
  fst (app env (POST_report k type id) db)
  = Threw "TypeError: Cannot read properties of null"
  /\ posts db' = posts db /\ replies db' = replies db.
Proof.
  intros Hd He db'. subst db'.
  rewrite (app_report_admitted _ _ _ _ _ Hd). cbv zeta.
  unfold entity_at in He. rewrite resolved_posts, resolved_replies.
  destruct (Js.strict_eq type "post").
  - destruct (Mongo.findOne (post_has_id id) (posts db)); [discriminate He|].
    cbn [fst snd]. auto using resolved_posts, resolved_replies.
  - destruct (Mongo.findOne (reply_has_id id) (replies db)); [discriminate He|].
    cbn [fst snd]. auto using resolved_posts, resolved_replies.
Qed.

(* ------------------------------------------------------------------ *)
(** ** Two requests on the board *)

(** C9. On the board with Alice's one post, Bob's report of a post that
    does not exist, and of a reply that does not exist, makes the report
    route throw while reading [reports] of null: no 404 is answered, as it
    is when Bob replies to the same missing post. *)
Theorem report_of_absent_id_throws :
  fst (app Board.env0 (POST_report (Some Board.bob) (Some "post") 7%nat)
           Board.one_post)
  = Threw "TypeError: Cannot read properties of null"
  /\ fst (app Board.env0 (POST_report (Some Board.bob) (Some "reply") 7%nat)
              Board.one_post)
     = Threw "TypeError: Cannot read properties of null"
  /\ fst (app Board.env0 (POST_reply (Some Board.bob) (Some 7%nat) (Some "hello"))
              Board.one_post)
     = Send 404 (ErrorMsg "Not found").
Proof.
  split; [|split].
  - now apply report_of_absent_entity.
  - now apply report_of_absent_entity.
  - now apply reply_to_absent_post.
Qed.

(** C2, as stated, fails for the empty room filter: Bob asks for the room
    "" and is answered Alice's post from the room "love". *)
Lemma random_post_empty_room_filter :
  exists db',
    app Board.env0 (GET_post_random (Some Board.bob) (Some "")) Board.one_post
    = (Send 200 (PostDoc Board.alices_post), db')
    /\ ~ eligibility_as_stated Board.bob (Some "") Board.alices_post.
Proof.
  eexists. split; [vm_compute; reflexivity|].
  intros (_ & _ & _ & [H|[H|H]]); discriminate H.
Qed.

(* ------------------------------------------------------------------ *)
(** ** The theorems at work on the board *)


Lemma random_post_is_eligible_witness :
  In Board.alices_post (posts Board.one_post)
  /\ eligibility Board.bob (Some "") Board.alices_post
  /\ VoidPost.authorToken Board.alices_post <> Board.bob.
Proof.
  apply (random_post_is_eligible
           Board.env0 Board.bob (Some "") Board.one_post Board.alices_post
           (snd (app Board.env0 (GET_post_random (Some Board.bob) (Some ""))
                     Board.one_post))).
  vm_compute. reflexivity.
Defined.

Lemma report_hides_at_three_witness :
  entity_at (serve (reports_by two_reporters (Some "post") 1%nat) Board.one_post)
            (Some "post") 1%nat
  = Some (2, "active")
  /\ entity_at (serve (reports_by three_reporters (Some "post") 1%nat)
                      Board.one_post)
               (Some "post") 1%nat
     = Some (3, "hidden").
Proof.
  assert (Hfresh : entity_at Board.one_post (Some "post") 1%nat
                   = Some (0, "active")) by (vm_compute; reflexivity).
  split.
  - destruct (report_hides_at_three (Some "post") 1%nat two_reporters
                Board.one_post 0 "active") as (s' & E & _ & Hlt & _).
    + discriminate.
    + repeat constructor.
    + exact Hfresh.
    + discriminate.
    + rewrite E, (Hlt ltac:(simpl; lia)). reflexivity.
  - destruct (report_hides_at_three (Some "post") 1%nat three_reporters
                Board.one_post 0 "active") as (s' & E & Hiff & _ & _).
    + discriminate.
    + repeat constructor.
    + exact Hfresh.
    + discriminate.
    + rewrite E. replace s' with "hidden"; [reflexivity|].
      symmetry. apply Hiff. simpl. lia.
Defined.

Lemma malformed_key_rejected_and_unseen_key_created_witness :
  (exists msg,
      app Board.env0 (POST_post (Some "VOID-aaaa-1111-BBBB") (Some "sad")
                                (Some "hello") None) Board.one_post
      = (Send 401 (ErrorMsg msg), Board.one_post))
  /\ keys_well_formed (snd (app Board.env0 (GET_me (Some Board.bob)) Board.one_post))
  /\ authUser Board.env0 (Some Board.bob) Board.one_post
     = (Next (User.mk 2%nat Board.bob 0 false 1000),
        mkDb (users Board.one_post ++ [User.mk 2%nat Board.bob 0 false 1000])
             (posts Board.one_post) (replies Board.one_post) 3%nat).
Proof.
  destruct malformed_key_rejected_and_unseen_key_created as (Hbad & Hinv & Hnew).
  split; [|split].
  - apply (Hbad _ _ _ "VOID-aaaa-1111-BBBB"); [reflexivity|].
    rewrite <- keyPattern_iff. vm_compute. discriminate.
  - apply Hinv. repeat constructor.
    apply keyPattern_iff. vm_compute. reflexivity.
  - apply (Hnew Board.env0 Board.bob Board.one_post).
    + apply keyPattern_iff. vm_compute. reflexivity.
    + vm_compute. reflexivity.
Defined.

Lemma post_room_in_validRooms_else_general_witness :
  exists p db',
    app Board.env0 (POST_post (Some Board.bob) (Some "lost") (Some "hello")
                              (Some "nonexistent")) Board.one_post
    = (Send 201 (PostDoc p), db')
    /\ In p (posts db')
    /\ VoidPost.room p = "general".
Proof.
  destruct (post_room_in_validRooms_else_general
              Board.env0 Board.bob (Some "lost") (Some "hello")
              (Some "nonexistent") Board.one_post)
    as (p & db' & E & Hin & _ & _ & Hgen); try (vm_compute; reflexivity).
  exists p, db'. split; [exact E|]. split; [exact Hin|].
  apply Hgen. intros r Hr. injection Hr as <-.
  unfold validRooms. simpl. intuition discriminate.
Defined.


Lemma points_post_1_reply_5_witness :
  points (serve [carol_posts]
            (snd (app Board.env0 alice_replies
                    (serve [bob_replies]
                       (snd (app Board.env0 alice_posts
                               (serve [bob_posts] emptyDb)))))))
         Board.alice
  = points emptyDb Board.alice + 6.
Proof.
  destruct points_post_1_reply_5 as (_ & _ & _ & H).
  apply (H Board.alice emptyDb [bob_posts] Board.env0 alice_posts
           [bob_replies] Board.env0 alice_replies [carol_posts]).
  - repeat constructor. discriminate.
  - repeat constructor. discriminate.
  - repeat constructor. discriminate.
  - left. split.
    + do 4 eexists. split; [reflexivity | vm_compute; reflexivity].
    + do 2 eexists. split; [reflexivity | vm_compute; reflexivity].
Defined.

Lemma reply_text_is_not_moderated_witness :
  (exists r db',
      app Board.env0 (POST_reply (Some Board.bob) (Some 1%nat)
                                 (Some "I want to die today")) Board.one_post
      = (Send 200 Success, db')
      /\ In r (replies db')
      /\ VoidReply.text r = "I want to die today")
  /\ (exists db',
         app Board.env0 (POST_post (Some Board.bob) (Some "sad")
                                   (Some "I want to die today") None)
             Board.one_post
         = (Send 400 (ErrorMsg "Harmful content detected"), db')).
Proof.
  destruct (reply_text_is_not_moderated
              Board.env0 Board.bob 1%nat "I want to die today" Board.one_post
              Board.alices_post)
    as ((r & db' & E & Hin & Ht & _) & Hpost);
    try (vm_compute; reflexivity); try discriminate.
  split.
  - now exists r, db'.
  - destruct (Hpost eq_refl (Some "sad") None eq_refl) as (db'' & E' & _).
    now exists db''.
Defined.

(* ================================================================== *)
(** * Further properties *)

(* ------------------------------------------------------------------ *)
(** ** The refusals of [authUser] *)

(** A request [authUser] answers itself is answered that way by the
    route. *)
Lemma app_sent env req db r db' :
  authenticated req = true ->
  authUser env (voidKey_of req) db = (Sent r, db') ->
  app env req db = (r, db').
Proof.
  intros Ha E.
  destruct req; try discriminate Ha; cbn [voidKey_of] in E;
    enter_route E; reflexivity.
Qed.

Lemma voidKey_authenticated req key :
  voidKey_of req = Some key -> authenticated req = true.
Proof. destruct req; try reflexivity; discriminate. Qed.

Lemma well_formed_truthy key :
  well_formed_key key -> Js.truthy (Some key) = true.
Proof.
  intros (g1 & g2 & g3 & -> & _). reflexivity.
Qed.

(** A banned identity is answered by [authUser]. *)
Lemma app_banned env req db key :
  voidKey_of req = Some key ->
  well_formed_key key ->
  banned db key ->
  app env req db = (Send 200 ShadowBanned, db).
Proof.
  intros Hk Hw (u & Hu & Hb).
  apply app_sent; [eapply voidKey_authenticated; eassumption|].
  rewrite Hk. unfold authUser.
  rewrite (well_formed_truthy _ Hw). cbn [negb str].
  apply keyPattern_iff in Hw. rewrite Hw. cbn [negb].
  unfold bind, User_findOne, reads. rewrite Hu. unfold ret. now rewrite Hb.
Qed.

(** X1. A request with the key of a banned identity is answered 200 with
    the shadow-ban body by every route behind [authUser], and nothing in
    the database changes. *)
Theorem banned_identity_gets_shadow_answer :
  forall env req db key,
    voidKey_of req = Some key ->
    well_formed_key key ->
    banned db key ->
    app env req db = (Send 200 ShadowBanned, db).
Proof. intros env req db key. apply app_banned. Qed.

(** X2. A request to a route behind [authUser] with no key, or with the
    empty key, is answered 401 "Missing Void Key"; with a key that is
    there but not of the form VOID-XXXX-XXXX-XXXX it is answered 401
    "Invalid Key Format. Access Denied."; in both cases nothing in the
    database changes. *)
Theorem missing_key_and_malformed_key_answers :
  forall env req db,
    authenticated req = true ->
    (Js.truthy (voidKey_of req) = false ->
     app env req db = (Send 401 (ErrorMsg "Missing Void Key"), db))
    /\ (Js.truthy (voidKey_of req) = true ->
        ~ well_formed_key (str (voidKey_of req)) ->
        app env req db
        = (Send 401 (ErrorMsg "Invalid Key Format. Access Denied."), db)).
Proof.
  intros env req db Ha. split.
  - intros Ht. apply app_sent; [exact Ha|]. unfold authUser. now rewrite Ht.
  - intros Ht Hw. apply app_sent; [exact Ha|]. unfold authUser. rewrite Ht.
    cbn [negb]. rewrite <- keyPattern_iff in Hw.
    apply not_true_is_false in Hw. now rewrite Hw.
Qed.

(* ------------------------------------------------------------------ *)
(** ** The admin key *)

Lemma truthy_iff (v : option string) :
  Js.truthy v = true <-> exists s, v = Some s /\ s <> "".
Proof.
  unfold Js.truthy. destruct v as [s|].
  - rewrite negb_true_iff, String.eqb_neq. split.
    + intros H. now exists s.
    + intros (s' & E & H). now injection E as ->.
  - split; [discriminate | intros (s & E & _); discriminate].
Qed.

Lemma admin_key_iff env key :
  Js.strict_eq key (ADMIN_KEY env) = true <->
  exists k, key = Some k /\ opens_admin env k.
Proof.
  unfold Js.strict_eq, ADMIN_KEY, opens_admin.
  destruct key as [k|]; [|split; [discriminate | intros (k & E & _); discriminate]].
  destruct (Js.truthy (env_ADMIN_KEY env)) eqn:Ht.
  - apply truthy_iff in Ht as (s & Es & Hs). rewrite Es. cbn [str].
    rewrite String.eqb_eq. split.
    + intros ->. exists s. split; [reflexivity|]. left. now split.
    + intros (k' & E & [[E' _]|[_ [E'|E']]]); injection E as <-; congruence.
  - rewrite String.eqb_eq. split.
    + intros ->. exists "secret123". split; [reflexivity|]. right.
      split; [reflexivity|].
      destruct (env_ADMIN_KEY env) as [s|]; [|now left].
      right. f_equal. unfold Js.truthy in Ht.
      apply negb_false_iff in Ht. now apply String.eqb_eq.
    + intros (k' & E & [[E' Hne]|[-> _]]); injection E as <-; [|reflexivity].
      exfalso. assert (Js.truthy (env_ADMIN_KEY env) = true)
        by (apply truthy_iff; now exists k).
      congruence.
Qed.

(** X3. The admin routes open for exactly one key: the configured
    [ADMIN_KEY] when it is set and not empty, and "secret123" when it is
    not set or empty.  With any other key, or none, the dashboard and the
    ban are answered 403 "Forbidden" and change nothing. *)
Theorem admin_routes_open_for_the_admin_key_only :
  forall env key db,
    ~ (exists k, key = Some k /\ opens_admin env k) ->
    app env (GET_admin_dashboard key) db = (Send 403 (ErrorMsg "Forbidden"), db)
    /\ forall token deleteContent,
         app env (DELETE_admin_ban key token deleteContent) db
         = (Send 403 (ErrorMsg "Forbidden"), db).
Proof.
  intros env key db H. rewrite <- admin_key_iff in H.
  apply not_true_is_false in H. split.
  - unfold app, run, get_api_admin_dashboard. now rewrite H.
  - intros token dc. rewrite app_ban. now rewrite H.
Qed.

(* ------------------------------------------------------------------ *)
(** ** Identities over time *)

Lemma users_resolved_changes env s db :
  admitted db (Some s) = true ->
  users_changes (users db) (users (snd (resolved env s db))).
Proof.
  intros H. unfold resolved.
  destruct (Mongo.findOne (has_deviceToken s) (users db)) eqn:E; cbn [snd].
  - apply rt_refl.
  - apply rt_step. cbn [fresh_id with_users users].
    apply change_created; [eapply admitted_well_formed; eassumption | exact E].
Qed.

Lemma users_rewarded_changes env s db n ps rs i :
  admitted db (Some s) = true ->
  users_changes (users db)
    (users (mkDb (Mongo.updateOne (has_deviceToken s) (User.inc_lightPoints n)
                                  (users (snd (resolved env s db)))) ps rs i)).
Proof.
  intros H. eapply rt_trans; [apply (users_resolved_changes env s db H)|].
  apply rt_step. cbn [users]. apply change_rewarded.
Qed.

(** How any request changes the identities. *)
Lemma users_app_changes env req db :
  users_changes (users db) (users (snd (app env req db))).
Proof.
  destruct (authenticated req) eqn:Ha.
  - destruct (admitted db (voidKey_of req)) eqn:Hd.
    + destruct (admitted_Some _ _ Hd) as [s Hs].
      destruct req as [k|k mood text room|k room|k postId text|k type id|k| |];
        try discriminate Ha; cbn [voidKey_of] in *; subst k.
      * rewrite (app_me_admitted _ _ _ Hd). now apply users_resolved_changes.
      * rewrite (app_post_admitted _ _ _ _ _ _ Hd). cbv zeta. cbn [str].
        destruct (negb (Js.truthy mood) || negb (Js.truthy text));
          [now apply users_resolved_changes|].
        destruct (negb (moderateText (str text)));
          [now apply users_resolved_changes|].
        cbn [snd]. now apply users_rewarded_changes.
      * rewrite (app_random_admitted _ _ _ _ Hd). cbv zeta. cbn [str].
        destruct (Mongo.sample1 _ _); now apply users_resolved_changes.
      * rewrite (app_reply_admitted _ _ _ _ _ Hd). cbv zeta. cbn [str].
        destruct postId as [pid|]; [|now apply users_resolved_changes].
        destruct (negb (Js.truthy text)); [now apply users_resolved_changes|].
        destruct (Mongo.findOne (post_has_id pid) _);
          [|now apply users_resolved_changes].
        cbn [snd]. now apply users_rewarded_changes.
      * rewrite (app_report_admitted _ _ _ _ _ Hd). cbv zeta. cbn [str].
        destruct (Js.strict_eq type "post");
          [destruct (Mongo.findOne (post_has_id id) _)
          |destruct (Mongo.findOne (reply_has_id id) _)];
          now apply users_resolved_changes.
      * destruct (app_my_room_admitted env _ db Hd) as (a & b & ->).
        now apply users_resolved_changes.
    + rewrite (app_not_admitted env req db Ha Hd). apply rt_refl.
  - destruct req; try discriminate Ha.
    + rewrite app_dashboard. apply rt_refl.
    + rewrite app_ban. destruct (negb _); cbn [snd users].
      * apply rt_refl.
      * apply rt_step, change_banned.
Qed.

Lemma users_serve_changes reqs db :
  users_changes (users db) (users (serve reqs db)).
Proof.
  revert db. induction reqs as [|[env req] reqs IH]; intros db; cbn [serve].
  - apply rt_refl.
  - eapply rt_trans; [apply users_app_changes | apply IH].
Qed.

Lemma findOne_None_not_in (key : string) (us : list User.t) :
  Mongo.findOne (has_deviceToken key) us = None ->
  ~ In key (map User.deviceToken us).
Proof.
  unfold Mongo.findOne. intros H Hin. apply in_map_iff in Hin as (u & E & Hu).
  apply (find_none _ _ H) in Hu. apply has_deviceToken_iff in E. congruence.
Qed.

Lemma map_updateOne {A B} (g : A -> B) f upd (c : list A) :
  (forall d, g (upd d) = g d) ->
  map g (Mongo.updateOne f upd c) = map g c.
Proof.
  intros Hg. unfold Mongo.updateOne. induction c as [|x c IH]; simpl.
  - reflexivity.
  - destruct (f x); simpl; [now rewrite Hg | now rewrite IH].
Qed.

Lemma map_updateMany {A B} (g : A -> B) f upd (c : list A) :
  (forall d, g (upd d) = g d) ->
  map g (Mongo.updateMany f upd c) = map g c.
Proof.
  intros Hg. unfold Mongo.updateMany. rewrite map_map. apply map_ext.
  intros d. now destruct (f d).
Qed.

(** A lookup by key after an update in place that leaves keys alone. *)
Lemma findOne_token_update k key upd (us : list User.t) :
  (forall u, User.deviceToken (upd u) = User.deviceToken u) ->
  Mongo.findOne (has_deviceToken key) (Mongo.updateOne (has_deviceToken k) upd us)
  = option_map (fun u => if (k =? key)%string then upd u else u)
               (Mongo.findOne (has_deviceToken key) us).
Proof.
  intros Hu. destruct (String.eqb_spec k key) as [->|Hk].
  - apply findOne_updateOne. intros d Hd. unfold has_deviceToken in *.
    now rewrite Hu.
  - rewrite findOne_updateOne_other.
    + now destruct (Mongo.findOne _ us).
    + intros d Hd. apply has_deviceToken_iff in Hd.
      assert (has_deviceToken key d = false) as Hf.
      { apply not_true_is_false. rewrite has_deviceToken_iff. congruence. }
      split; [exact Hf|]. unfold has_deviceToken in *. now rewrite Hu.
Qed.

(** X4. No request gives a key a second identity: when the keys of the
    identities are pairwise distinct before a request, they are after
    it. *)
Theorem keys_stay_distinct :
  forall env req db,
    keys_distinct db -> keys_distinct (snd (app env req db)).
Proof.
  intros env req db. unfold keys_distinct.
  generalize (users_app_changes env req db).
  induction 1 as [us us' Hs| |]; auto.
  intros H. destruct Hs as [id key t _ Hnone|k n|k].
  - rewrite map_app. cbn [map User.deviceToken].
    apply NoDup_app_remove_l with (l := []).
    apply Permutation_NoDup with (l := key :: map User.deviceToken us).
    + apply Permutation_cons_append.
    + constructor; [now apply findOne_None_not_in | exact H].
  - now rewrite map_updateOne.
  - now rewrite map_updateOne.
Qed.

Lemma banned_changes us us' key :
  users_changes us us' ->
  (exists u, Mongo.findOne (has_deviceToken key) us = Some u
             /\ User.isBanned u = true) ->
  exists u, Mongo.findOne (has_deviceToken key) us' = Some u
            /\ User.isBanned u = true.
Proof.
  induction 1 as [us us' Hs| |]; auto.
  intros (u & Hu & Hb). destruct Hs as [id k t _ _|k n|k].
  - exists u. rewrite findOne_app, Hu. now split.
  - rewrite findOne_token_update by reflexivity. rewrite Hu. cbn [option_map].
    eexists; split; [reflexivity|]. now destruct (k =? key)%string.
  - rewrite findOne_token_update by reflexivity. rewrite Hu. cbn [option_map].
    eexists; split; [reflexivity|]. now destruct (k =? key)%string.
Qed.

(** X5. A ban is for good: whatever requests are served afterwards, by
    anybody and the admin included, a banned identity is still there and
    still banned, and each of its own requests goes on being answered
    with the shadow-ban body without changing anything. *)
Theorem ban_is_permanent :
  forall reqs db key,
    well_formed_key key ->
    banned db key ->
    banned (serve reqs db) key
    /\ forall env req,
         voidKey_of req = Some key ->
         app env req (serve reqs db) = (Send 200 ShadowBanned, serve reqs db).
Proof.
  intros reqs db key Hw Hb.
  assert (Hb' : banned (serve reqs db) key)
    by (eapply banned_changes; [apply users_serve_changes | exact Hb]).
  split; [exact Hb'|]. intros env req Hk.
  now apply app_banned with key.
Qed.

(* ------------------------------------------------------------------ *)
(** ** The ban *)

Lemma app_ban_opened env k token deleteContent db :
  opens_admin env k ->
  app env (DELETE_admin_ban (Some k) token deleteContent) db =
  (Send 200 (SuccessMsg "User banished."),
   mkDb (Mongo.updateOne (has_deviceToken token) (User.set_isBanned true)
                         (users db))
        (if deleteContent then
           Mongo.updateMany (fun p => (VoidPost.authorToken p =? token)%string)
                            (VoidPost.set_status "deleted") (posts db)
         else posts db)
        (if deleteContent then
           Mongo.updateMany (fun r => (VoidReply.responderToken r =? token)%string)
                            (VoidReply.set_status "deleted") (replies db)
         else replies db)
        (nextId db)).
Proof.
  intros Ho. rewrite app_ban.
  assert (H : Js.strict_eq (Some k) (ADMIN_KEY env) = true)
    by (apply admin_key_iff; now exists k).
  now rewrite H.
Qed.

(** X6. With the admin key, a ban of an existing identity is answered
    "User banished.", marks that identity banned and leaves every other
    identity as it was; from then on each request with the banned key is
    answered with the shadow-ban body and changes nothing. *)
Theorem ban_shadows_the_identity :
  forall env k token deleteContent db u,
    opens_admin env k ->
    well_formed_key token ->
    Mongo.findOne (has_deviceToken token) (users db) = Some u ->
    let db1 := snd (app env (DELETE_admin_ban (Some k) token deleteContent) db) in
    fst (app env (DELETE_admin_ban (Some k) token deleteContent) db)
    = Send 200 (SuccessMsg "User banished.")
    /\ Mongo.findOne (has_deviceToken token) (users db1)
       = Some (User.set_isBanned true u)
    /\ (forall key, key <> token ->
                    Mongo.findOne (has_deviceToken key) (users db1)
                    = Mongo.findOne (has_deviceToken key) (users db))
    /\ (forall env' req,
           voidKey_of req = Some token ->
           app env' req db1 = (Send 200 ShadowBanned, db1)).
Proof.
  intros env k token dc db u Ho Hw Hu db1. subst db1.
  rewrite (app_ban_opened _ _ _ _ _ Ho). cbn [fst snd].
  assert (Hf : Mongo.findOne (has_deviceToken token)
                 (Mongo.updateOne (has_deviceToken token)
                    (User.set_isBanned true) (users db))
               = Some (User.set_isBanned true u)).
  { rewrite findOne_token_update by reflexivity.
    now rewrite Hu, String.eqb_refl. }
  split; [reflexivity|]. split; [exact Hf|]. split.
  - intros key Hk. cbn [users]. rewrite findOne_token_update by reflexivity.
    apply String.eqb_neq in Hk. rewrite String.eqb_sym in Hk. rewrite Hk.
    destruct (Mongo.findOne (has_deviceToken key) (users db)); reflexivity.
  - intros env' req Hreq. apply app_banned with token; auto.
    eexists. split; [exact Hf | reflexivity].
Qed.

(** X7. The ban does not create identities: with the admin key, a ban
    of a key that has no identity is answered "User banished." all the
    same, leaves the identities as they were, and the key, when well
    formed, is let through by [authUser] afterwards. *)
Theorem ban_of_unseen_key_bans_nobody :
  forall env k token deleteContent db,
    opens_admin env k ->
    Mongo.findOne (has_deviceToken token) (users db) = None ->
    let db1 := snd (app env (DELETE_admin_ban (Some k) token deleteContent) db) in
    fst (app env (DELETE_admin_ban (Some k) token deleteContent) db)
    = Send 200 (SuccessMsg "User banished.")
    /\ users db1 = users db
    /\ (well_formed_key token -> admitted db1 (Some token) = true).
Proof.
  intros env k token dc db Ho Hn db1. subst db1.
  rewrite (app_ban_opened _ _ _ _ _ Ho). cbn [fst snd users].
  rewrite (updateOne_none _ _ _ Hn).
  split; [reflexivity|]. split; [reflexivity|].
  intros Hw. unfold admitted. cbn [users str]. rewrite Hn.
  rewrite (well_formed_truthy _ Hw).
  apply keyPattern_iff in Hw. now rewrite Hw.
Qed.

Lemma In_updateMany {A} f upd (c : list A) (x : A) :
  In x (Mongo.updateMany f upd c) <->
  exists d, In d c /\ x = if f d then upd d else d.
Proof.
  unfold Mongo.updateMany. rewrite in_map_iff.
  split; intros (d & H1 & H2); exists d; auto.
Qed.

(** X8. With the admin key, a ban with [deleteContent] marks every post
    and every reply of the banned key deleted, removes nothing and leaves
    the posts and replies of others as they were; none of the banned
    key's posts is answered by the random route on the database the ban
    leaves.  Without [deleteContent] posts and replies stay as they
    are. *)
Theorem ban_with_deleteContent_marks_content_deleted :
  forall env k token db,
    opens_admin env k ->
    let db1 := snd (app env (DELETE_admin_ban (Some k) token true) db) in
    (forall p, In p (posts db1) -> VoidPost.authorToken p = token ->
               VoidPost.status p = "deleted")
    /\ (forall r, In r (replies db1) -> VoidReply.responderToken r = token ->
                  VoidReply.status r = "deleted")
    /\ (forall p, VoidPost.authorToken p <> token ->
                  (In p (posts db1) <-> In p (posts db)))
    /\ (forall r, VoidReply.responderToken r <> token ->
                  (In r (replies db1) <-> In r (replies db)))
    /\ map VoidPost._id (posts db1) = map VoidPost._id (posts db)
    /\ map VoidReply._id (replies db1) = map VoidReply._id (replies db)
    /\ (forall env' key room p db2,
           app env' (GET_post_random key room) db1
           = (Send 200 (PostDoc p), db2) ->
           VoidPost.authorToken p <> token)
    /\ posts (snd (app env (DELETE_admin_ban (Some k) token false) db)) = posts db
    /\ replies (snd (app env (DELETE_admin_ban (Some k) token false) db))
       = replies db.
Proof.
  intros env k token db Ho db1. subst db1.
  rewrite !(app_ban_opened _ _ _ _ _ Ho). cbn [snd posts replies].
  assert (Hposts : forall p,
             In p (Mongo.updateMany
                     (fun p => (VoidPost.authorToken p =? token)%string)
                     (VoidPost.set_status "deleted") (posts db)) ->
             VoidPost.authorToken p = token -> VoidPost.status p = "deleted").
  { intros p Hp Ha. apply In_updateMany in Hp as (d & Hd & ->).
    destruct (String.eqb_spec (VoidPost.authorToken d) token) as [E|E].
    - reflexivity.
    - now elim E. }
  split; [exact Hposts|]. split; [|split; [|split; [|split; [|split; [|split]]]]].
  - intros r Hr Ha. apply In_updateMany in Hr as (d & Hd & ->).
    destruct (String.eqb_spec (VoidReply.responderToken d) token) as [E|E].
    + reflexivity.
    + now elim E.
  - intros p Hne. rewrite In_updateMany. split.
    + intros (d & Hd & ->).
      destruct (String.eqb_spec (VoidPost.authorToken d) token) as [E|E];
        [now elim Hne | exact Hd].
    + intros Hp. exists p. split; [exact Hp|].
      apply String.eqb_neq in Hne. now rewrite Hne.
  - intros r Hne. rewrite In_updateMany. split.
    + intros (d & Hd & ->).
      destruct (String.eqb_spec (VoidReply.responderToken d) token) as [E|E];
        [now elim Hne | exact Hd].
    + intros Hr. exists r. split; [exact Hr|].
      apply String.eqb_neq in Hne. now rewrite Hne.
  - now apply map_updateMany.
  - now apply map_updateMany.
  - intros env' key room p db2 H Ha.
    apply random_post_drawn in H as [_ Hin].
    apply In_firstn_In in Hin.
    apply (Permutation_in _ (Permutation_sym (sort_perm pool_order _))) in Hin.
    apply eligible_iff in Hin as [Hp (Hs & _)]. cbn [posts] in Hp.
    rewrite (Hposts p Hp Ha) in Hs. discriminate Hs.
  - split; reflexivity.
Qed.

(* ------------------------------------------------------------------ *)
(** ** Ids *)

Lemma reported_post_id p : VoidPost._id (reported_post p) = VoidPost._id p.
Proof. unfold reported_post. cbv zeta. now destruct (3 <=? _). Qed.

Lemma reported_reply_id r : VoidReply._id (reported_reply r) = VoidReply._id r.
Proof. unfold reported_reply. cbv zeta. now destruct (3 <=? _). Qed.

Lemma reported_reply_postId r :
  VoidReply.postId (reported_reply r) = VoidReply.postId r.
Proof. unfold reported_reply. cbv zeta. now destruct (3 <=? _). Qed.

Lemma resolved_nextId env s db :
  (nextId db <= nextId (snd (resolved env s db)))%nat.
Proof.
  unfold resolved. destruct (Mongo.findOne _ _); cbn; lia.
Qed.

Lemma Forall_lt_le (n m : nat) (l : list nat) :
  (n <= m)%nat -> Forall (fun i => (i < n)%nat) l -> Forall (fun i => (i < m)%nat) l.
Proof.
  intros H. apply Forall_impl. intros i Hi. lia.
Qed.

Lemma NoDup_snoc_fresh (n : nat) (l : list nat) :
  Forall (fun i => (i < n)%nat) l -> NoDup l -> NoDup (l ++ [n]).
Proof.
  intros Hl Hn. apply NoDup_app_remove_l with (l := []).
  apply Permutation_NoDup with (l := n :: l);
    [apply Permutation_cons_append|].
  constructor; [|exact Hn]. intros Hin.
  rewrite Forall_forall in Hl. specialize (Hl n Hin). lia.
Qed.

(** Ids stay fresh when the posts and replies keep their ids and the
    counter does not go back. *)
Lemma ids_fresh_same db db' :
  map VoidPost._id (posts db') = map VoidPost._id (posts db) ->
  map VoidReply._id (replies db') = map VoidReply._id (replies db) ->
  map VoidReply.postId (replies db') = map VoidReply.postId (replies db) ->
  (nextId db <= nextId db')%nat ->
  ids_fresh db -> ids_fresh db'.
Proof.
  unfold ids_fresh. intros -> -> -> Hn (H1 & H2 & H3 & H4 & H5 & H6).
  repeat split; auto; eapply Forall_lt_le; eassumption.
Qed.

Lemma ids_fresh_resolved env s db :
  ids_fresh db -> ids_fresh (snd (resolved env s db)).
Proof.
  apply ids_fresh_same;
    rewrite ?resolved_posts, ?resolved_replies; auto using resolved_nextId.
Qed.

Lemma findOne_post_id id (ps : list VoidPost.t) p :
  Mongo.findOne (post_has_id id) ps = Some p -> In p ps /\ VoidPost._id p = id.
Proof.
  intros H. apply findOne_Some in H as [Hin H]. split; [exact Hin|].
  now apply Nat.eqb_eq.
Qed.

Lemma ids_fresh_app env req db :
  ids_fresh db -> ids_fresh (snd (app env req db)).
Proof.
  intros Hf.
  destruct (authenticated req) eqn:Ha.
  - destruct (admitted db (voidKey_of req)) eqn:Hd.
    + assert (Hf1 := ids_fresh_resolved env (str (voidKey_of req)) db Hf).
      destruct req as [k|k mood text room|k room|k postId text|k type id|k| |];
        try discriminate Ha; cbn [voidKey_of] in *.
      * now rewrite (app_me_admitted _ _ _ Hd).
      * rewrite (app_post_admitted _ _ _ _ _ _ Hd). cbv zeta.
        destruct (negb (Js.truthy mood) || negb (Js.truthy text)); [exact Hf1|].
        destruct (negb (moderateText (str text))); [exact Hf1|].
        destruct Hf1 as (H1 & H2 & H3 & H4 & H5 & H6). unfold ids_fresh.
        cbn [snd posts replies nextId]. rewrite map_app.
        cbn [map VoidPost._id]. split; [|split; [|split; [|split; [|split]]]].
        -- apply Forall_app. split.
           ++ eapply Forall_lt_le; [|exact H1]. lia.
           ++ constructor; [lia | constructor].
        -- now apply NoDup_snoc_fresh.
        -- eapply Forall_lt_le; [|exact H3]. lia.
        -- exact H4.
        -- eapply Forall_lt_le; [|exact H5]. lia.
        -- now apply incl_appl.
      * rewrite (app_random_admitted _ _ _ _ Hd). cbv zeta.
        now destruct (Mongo.sample1 _ _).
      * rewrite (app_reply_admitted _ _ _ _ _ Hd). cbv zeta.
        destruct postId as [pid|]; [|exact Hf1].
        destruct (negb (Js.truthy text)); [exact Hf1|].
        destruct (Mongo.findOne (post_has_id pid) _) as [post|] eqn:E;
          [|exact Hf1].
        destruct Hf1 as (H1 & H2 & H3 & H4 & H5 & H6). unfold ids_fresh.
        cbn [snd posts replies nextId].
        rewrite (map_updateOne VoidPost._id) by reflexivity.
        rewrite !map_app. cbn [map VoidReply._id VoidReply.postId].
        apply findOne_post_id in E as [Hin <-].
        split; [|split; [|split; [|split; [|split]]]].
        -- eapply Forall_lt_le; [|exact H1]. lia.
        -- exact H2.
        -- apply Forall_app. split.
           ++ eapply Forall_lt_le; [|exact H3]. lia.
           ++ constructor; [lia | constructor].
        -- now apply NoDup_snoc_fresh.
        -- apply Forall_app. split.
           ++ eapply Forall_lt_le; [|exact H5]. lia.
           ++ constructor; [|constructor].
              rewrite Forall_forall in H1.
              assert (VoidPost._id post < nextId (snd (resolved env (str k) db)))%nat
                by (apply H1, in_map, Hin).
              lia.
        -- apply incl_app; [exact H6|].
           intros i [<-|[]]. now apply in_map.
      * rewrite (app_report_admitted _ _ _ _ _ Hd). cbv zeta.
        destruct (Js.strict_eq type "post");
          [destruct (Mongo.findOne (post_has_id id) _)
          |destruct (Mongo.findOne (reply_has_id id) _)];
          try exact Hf1; cbn [snd]; revert Hf1; apply ids_fresh_same;
          cbn [with_posts with_replies posts replies nextId];
          try reflexivity; try lia.
        -- apply map_updateOne, reported_post_id.
        -- apply map_updateOne, reported_reply_id.
        -- apply map_updateOne, reported_reply_postId.
      * destruct (app_my_room_admitted env k db Hd) as (a & b & ->). exact Hf1.
    + now rewrite (app_not_admitted env req db Ha Hd).
  - destruct req; try discriminate Ha.
    + now rewrite app_dashboard.
    + rewrite app_ban. destruct (negb _); [exact Hf|].
      cbn [snd]. revert Hf. apply ids_fresh_same;
        cbn [posts replies nextId]; try lia;
        destruct deleteContent; try reflexivity; now apply map_updateMany.
Qed.

Lemma ids_fresh_serve reqs db :
  ids_fresh db -> ids_fresh (serve reqs db).
Proof.
  revert db. induction reqs as [|[env req] reqs IH]; intros db H; cbn [serve].
  - exact H.
  - now apply IH, ids_fresh_app.
Qed.

Lemma ids_fresh_empty : ids_fresh emptyDb.
Proof.
  unfold ids_fresh. cbn. repeat split; try constructor. intros i [].
Qed.

(** X9. Ids are never reused: on every database the routes can produce
    from the empty one, the ids of the posts are pairwise distinct, so
    are those of the replies, all are below the counter the next id is
    taken from, and every reply points at a post that is there. *)
Theorem ids_are_never_reused :
  forall reqs, ids_fresh (serve reqs emptyDb).
Proof. intros reqs. apply ids_fresh_serve, ids_fresh_empty. Qed.

(* ------------------------------------------------------------------ *)
(** ** Creating a post, creating a reply *)

Lemma findOne_post_fresh (n : nat) (ps : list VoidPost.t) :
  Forall (fun i => (i < n)%nat) (map VoidPost._id ps) ->
  Mongo.findOne (post_has_id n) ps = None.
Proof.
  unfold Mongo.findOne. induction ps as [|p ps IH]; simpl; intros H.
  - reflexivity.
  - inversion H as [|? ? Hp Hps]; subst. unfold post_has_id at 1.
    destruct (Nat.eqb_spec (VoidPost._id p) n); [lia | now apply IH].
Qed.

Lemma findOne_post_other id id' upd (ps : list VoidPost.t) :
  id' <> id ->
  (forall d, VoidPost._id (upd d) = VoidPost._id d) ->
  Mongo.findOne (post_has_id id') (Mongo.updateOne (post_has_id id) upd ps)
  = Mongo.findOne (post_has_id id') ps.
Proof.
  intros Hne Hu. apply findOne_updateOne_other.
  intros d Hd. unfold post_has_id in *. rewrite Hu.
  apply Nat.eqb_eq in Hd. rewrite Hd.
  split; apply Nat.eqb_neq; congruence.
Qed.

(** X10. A post created is stored as sent and can be looked up: for an
    admitted requester, a non-empty mood and an admissible text, on a
    database with fresh ids, the route answers 201 with a post that is
    appended to the posts, is found again under its id, carries the mood
    and text of the request, the requester as author and the time of the
    request, and starts active with no report and no reply; replies are
    untouched. *)
Theorem created_post_is_stored_and_found :
  forall env key mood text room db,
    admitted db (Some key) = true ->
    Js.truthy mood = true -> Js.truthy text = true ->
    moderateText (str text) = true ->
    ids_fresh db ->
    exists p db',
      app env (POST_post (Some key) mood text room) db
      = (Send 201 (PostDoc p), db')
      /\ posts db' = posts db ++ [p]
      /\ replies db' = replies db
      /\ Mongo.findOne (post_has_id (VoidPost._id p)) (posts db') = Some p
      /\ VoidPost.mood p = str mood /\ VoidPost.text p = str text
      /\ VoidPost.authorToken p = key
      /\ VoidPost.createdAt p = now env
      /\ VoidPost.status p = "active"
      /\ VoidPost.reports p = 0 /\ VoidPost.replyCount p = 0.
Proof.
  intros env key mood text room db Hd Hm Ht Hok Hf.
  rewrite (app_post_admitted _ _ _ _ _ _ Hd). cbv zeta.
  rewrite Hm, Ht, Hok. cbn [negb orb str].
  eexists; eexists; split; [reflexivity|].
  cbn [posts replies VoidPost._id VoidPost.mood VoidPost.text
       VoidPost.authorToken VoidPost.createdAt VoidPost.status
       VoidPost.reports VoidPost.replyCount].
  rewrite resolved_posts, resolved_replies.
  repeat split.
  rewrite findOne_app, findOne_post_fresh.
  - unfold post_has_id. cbn [VoidPost._id]. now rewrite Nat.eqb_refl.
  - destruct Hf as (H1 & _). eapply Forall_lt_le; [|exact H1].
    apply resolved_nextId.
Qed.

(** X11. A post that is refused is not stored: for an admitted requester,
    a request with an empty or missing mood or text is answered 400
    "Empty fields", and one with a text [moderateText] turns down is
    answered 400 "Harmful content detected"; either way no post is
    added, no reply changes and nobody's points change. *)
Theorem refused_post_changes_nothing :
  forall env key mood text room db,
    admitted db (Some key) = true ->
    Js.truthy mood = false \/ Js.truthy text = false
    \/ moderateText (str text) = false ->
    let db' := snd (app env (POST_post (Some key) mood text room) db) in
    fst (app env (POST_post (Some key) mood text room) db)
    = Send 400 (ErrorMsg (if Js.truthy mood && Js.truthy text
                          then "Harmful content detected"
                          else "Empty fields"))
    /\ posts db' = posts db /\ replies db' = replies db
    /\ forall k, points db' k = points db k.
Proof.
  intros env key mood text room db Hd H db'. subst db'.
  rewrite (app_post_admitted _ _ _ _ _ _ Hd). cbv zeta.
  assert (Hdone :
    forall msg,
      fst (Send 400 (ErrorMsg msg), snd (resolved env (str (Some key)) db))
      = Send 400 (ErrorMsg msg)
      /\ posts (snd (Send 400 (ErrorMsg msg),
                     snd (resolved env (str (Some key)) db))) = posts db
      /\ replies (snd (Send 400 (ErrorMsg msg),
                       snd (resolved env (str (Some key)) db))) = replies db
      /\ forall k, points (snd (Send 400 (ErrorMsg msg),
                                snd (resolved env (str (Some key)) db))) k
                   = points db k).
  { intros msg. cbn [fst snd].
    auto using resolved_posts, resolved_replies, points_resolved. }
  destruct (Js.truthy mood), (Js.truthy text); cbn [negb orb andb];
    try apply Hdone.
  destruct H as [H|[H|H]]; try discriminate H.
  rewrite H. cbn [negb]. apply Hdone.
Qed.

(** X12. A reply created counts on its post and on no other: for an
    admitted requester, an existing post and a non-empty text, the post
    is afterwards the same but for a reply count higher by one, every
    other post is found as before, and exactly one reply is added, new
    at the time of the request, with no report, flagged as the author's
    own exactly when the requester is the author of the post. *)
Theorem created_reply_counts_on_its_post_only :
  forall env key postId text db post,
    admitted db (Some key) = true ->
    Mongo.findOne (post_has_id postId) (posts db) = Some post ->
    text <> "" ->
    let db' := snd (app env (POST_reply (Some key) (Some postId) (Some text)) db) in
    Mongo.findOne (post_has_id postId) (posts db')
    = Some (VoidPost.inc_replyCount 1 post)
    /\ (forall other, other <> postId ->
                      Mongo.findOne (post_has_id other) (posts db')
                      = Mongo.findOne (post_has_id other) (posts db))
    /\ exists r,
         replies db' = replies db ++ [r]
         /\ VoidReply.reports r = 0
         /\ VoidReply.createdAt r = now env
         /\ (VoidReply.isAuthorReply r = true
             <-> VoidPost.authorToken post = key).
Proof.
  intros env key postId text db post Hd Hp Ht db'. subst db'.
  rewrite (app_reply_admitted _ _ _ _ _ Hd). cbv zeta.
  rewrite (truthy_Some _ Ht), resolved_posts, resolved_replies, Hp.
  cbn [negb snd posts replies str]. split; [|split].
  - rewrite findOne_updateOne by (intros d Hd'; exact Hd'). now rewrite Hp.
  - intros other Hne. now apply findOne_post_other.
  - eexists. split; [reflexivity|].
    cbn [VoidReply.reports VoidReply.createdAt VoidReply.isAuthorReply].
    split; [reflexivity|]. split; [reflexivity|]. apply String.eqb_eq.
Qed.

(** X13. A reply that is refused is not stored: for an admitted
    requester, a request without a post id or with an empty or missing
    text is answered 400 "Missing data"; no reply is added, no post
    changes and nobody's points change. *)
Theorem refused_reply_changes_nothing :
  forall env key postId text db,
    admitted db (Some key) = true ->
    postId = None \/ Js.truthy text = false ->
    let db' := snd (app env (POST_reply (Some key) postId text) db) in
    fst (app env (POST_reply (Some key) postId text) db)
    = Send 400 (ErrorMsg "Missing data")
    /\ posts db' = posts db /\ replies db' = replies db
    /\ forall k, points db' k = points db k.
Proof.
  intros env key postId text db Hd H db'. subst db'.
  rewrite (app_reply_admitted _ _ _ _ _ Hd). cbv zeta.
  destruct postId as [pid|].
  - destruct H as [H|H]; [discriminate H|]. rewrite H. cbn [negb fst snd].
    auto using resolved_posts, resolved_replies, points_resolved.
  - cbn [fst snd].
    auto using resolved_posts, resolved_replies, points_resolved.
Qed.

(* ------------------------------------------------------------------ *)
(** ** The reply counter *)

Lemma replies_to_same db db' pid :
  map VoidReply.postId (replies db') = map VoidReply.postId (replies db) ->
  replies_to db' pid = replies_to db pid.
Proof. unfold replies_to. now intros ->. Qed.

Lemma reply_counts_same db db' :
  map VoidReply.postId (replies db') = map VoidReply.postId (replies db) ->
  map (fun p => (VoidPost._id p, VoidPost.replyCount p)) (posts db')
  = map (fun p => (VoidPost._id p, VoidPost.replyCount p)) (posts db) ->
  reply_counts_exact db -> reply_counts_exact db'.
Proof.
  unfold reply_counts_exact. intros Hr Hp H.
  assert (G : Forall (fun ic => snd ic = Z.of_nat (replies_to db (fst ic)))
                     (map (fun p => (VoidPost._id p, VoidPost.replyCount p))
                          (posts db'))).
  { rewrite Hp. apply Forall_map. exact H. }
  apply Forall_map in G. eapply Forall_impl; [|exact G].
  intros p Hpc. cbn [fst snd] in Hpc. now rewrite (replies_to_same _ _ _ Hr).
Qed.

(** An update of the one document with a given id. *)
Lemma Forall_updateOne_unique (P P' : VoidPost.t -> Prop) id upd
    (ps : list VoidPost.t) :
  NoDup (map VoidPost._id ps) ->
  Forall P ps ->
  (forall d, VoidPost._id d = id -> P d -> P' (upd d)) ->
  (forall d, VoidPost._id d <> id -> P d -> P' d) ->
  Forall P' (Mongo.updateOne (post_has_id id) upd ps).
Proof.
  intros Hn Hp Hid Hother. unfold Mongo.updateOne.
  induction ps as [|p ps IH]; simpl.
  - constructor.
  - inversion Hn as [|? ? Hnotin Hn']; subst.
    inversion Hp as [|? ? Hp1 Hp']; subst.
    unfold post_has_id at 1. destruct (Nat.eqb_spec (VoidPost._id p) id) as [E|E].
    + constructor; [now apply Hid|].
      rewrite Forall_forall in *. intros d Hd. apply Hother; [|now apply Hp'].
      intros Ed. apply Hnotin. rewrite E, <- Ed. now apply in_map.
    + constructor; [now apply Hother | now apply IH].
Qed.

Lemma count_occ_snoc (l : list nat) (x y : nat) :
  count_occ Nat.eq_dec (l ++ [x]) y
  = (count_occ Nat.eq_dec l y + if Nat.eq_dec x y then 1 else 0)%nat.
Proof.
  rewrite count_occ_app. cbn [count_occ]. now destruct (Nat.eq_dec x y).
Qed.

Lemma reply_counts_exact_app env req db :
  ids_fresh db -> reply_counts_exact db ->
  reply_counts_exact (snd (app env req db)).
Proof.
  intros Hf Hc.
  destruct (authenticated req) eqn:Ha.
  - destruct (admitted db (voidKey_of req)) eqn:Hd.
    + assert (Hf1 := ids_fresh_resolved env (str (voidKey_of req)) db Hf).
      assert (Hc1 : reply_counts_exact (snd (resolved env (str (voidKey_of req)) db)))
        by (revert Hc; apply reply_counts_same;
            now rewrite ?resolved_posts, ?resolved_replies).
      destruct req as [k|k mood text room|k room|k postId text|k type id|k| |];
        try discriminate Ha; cbn [voidKey_of] in *.
      * now rewrite (app_me_admitted _ _ _ Hd).
      * rewrite (app_post_admitted _ _ _ _ _ _ Hd). cbv zeta.
        destruct (negb (Js.truthy mood) || negb (Js.truthy text)); [exact Hc1|].
        destruct (negb (moderateText (str text))); [exact Hc1|].
        unfold reply_counts_exact in *. cbn [snd posts].
        apply Forall_app. split.
        -- eapply Forall_impl; [|exact Hc1]. intros p Hp. exact Hp.
        -- constructor; [|constructor].
           cbn [VoidPost.replyCount VoidPost._id]. unfold replies_to.
           cbn [replies].
           match goal with
           | |- _ = Z.of_nat ?c => assert (E0 : c = 0%nat); [|now rewrite E0]
           end.
           apply count_occ_not_In.
           destruct Hf1 as (_ & _ & _ & _ & H5 & _). intros Hin.
           rewrite Forall_forall in H5. specialize (H5 _ Hin). lia.
      * rewrite (app_random_admitted _ _ _ _ Hd). cbv zeta.
        now destruct (Mongo.sample1 _ _).
      * rewrite (app_reply_admitted _ _ _ _ _ Hd). cbv zeta.
        destruct postId as [pid|]; [|exact Hc1].
        destruct (negb (Js.truthy text)); [exact Hc1|].
        destruct (Mongo.findOne (post_has_id pid) _) as [post|] eqn:E;
          [|exact Hc1].
        unfold reply_counts_exact in *. cbn [snd posts].
        destruct Hf1 as (_ & Hn & _).
        eapply Forall_updateOne_unique; [exact Hn | exact Hc1 | |].
        -- intros d Hid Hd'. cbn [VoidPost.inc_replyCount VoidPost.replyCount
                                   VoidPost._id].
           unfold replies_to in *. cbn [replies]. rewrite map_app.
           cbn [map VoidReply.postId]. rewrite count_occ_snoc, Hd', Hid.
           destruct (Nat.eq_dec pid pid); [lia | congruence].
        -- intros d Hid Hd'. unfold replies_to in *. cbn [replies].
           rewrite map_app. cbn [map VoidReply.postId].
           rewrite count_occ_snoc, Hd'.
           destruct (Nat.eq_dec pid (VoidPost._id d)); [congruence | lia].
      * rewrite (app_report_admitted _ _ _ _ _ Hd). cbv zeta.
        destruct (Js.strict_eq type "post");
          [destruct (Mongo.findOne (post_has_id id) _)
          |destruct (Mongo.findOne (reply_has_id id) _)];
          try exact Hc1; cbn [snd]; revert Hc1; apply reply_counts_same;
          cbn [with_posts with_replies posts replies]; try reflexivity.
        -- apply map_updateOne. intros d. unfold reported_post. cbv zeta.
           now destruct (3 <=? _).
        -- apply map_updateOne, reported_reply_postId.
      * destruct (app_my_room_admitted env k db Hd) as (a & b & ->). exact Hc1.
    + now rewrite (app_not_admitted env req db Ha Hd).
  - destruct req; try discriminate Ha.
    + now rewrite app_dashboard.
    + rewrite app_ban. destruct (negb _); [exact Hc|].
      cbn [snd]. revert Hc. apply reply_counts_same; cbn [posts replies];
        destruct deleteContent; try reflexivity; now apply map_updateMany.
Qed.

(** X14. The reply counter is exact: on every database the routes can
    produce from the empty one, the [replyCount] of every post is the
    number of replies stored for that post, whatever their status. *)
Theorem replyCount_counts_the_replies :
  forall reqs, reply_counts_exact (serve reqs emptyDb).
Proof.
  intros reqs.
  assert (H : forall db, ids_fresh db -> reply_counts_exact db ->
                         reply_counts_exact (serve reqs db)).
  { induction reqs as [|[env req] reqs IH]; intros db Hf Hc; cbn [serve].
    - exact Hc.
    - apply IH; [now apply ids_fresh_app | now apply reply_counts_exact_app]. }
  apply H; [apply ids_fresh_empty | constructor].
Qed.

(* ------------------------------------------------------------------ *)
(** ** Reading *)

Lemma resolved_points env key db :
  User.lightPoints (fst (resolved env key db)) = points db key.
Proof.
  unfold resolved, points.
  now destruct (Mongo.findOne (has_deviceToken key) (users db)).
Qed.

Lemma resolved_not_banned env key db :
  admitted db (Some key) = true ->
  User.isBanned (fst (resolved env key db)) = false.
Proof.
  unfold admitted, resolved. cbn [str]. intros H.
  apply andb_true_iff in H as [_ H].
  destruct (Mongo.findOne (has_deviceToken key) (users db)); cbn [fst].
  - now apply negb_true_iff.
  - reflexivity.
Qed.

Lemma resolved_known env key db u :
  Mongo.findOne (has_deviceToken key) (users db) = Some u ->
  resolved env key db = (u, db).
Proof. unfold resolved. now intros ->. Qed.

(** After a reward the identity is there, not banned, and admitted. *)
Lemma admitted_after_reward env key db n ps rs i :
  admitted db (Some key) = true ->
  let db' := mkDb (Mongo.updateOne (has_deviceToken key) (User.inc_lightPoints n)
                                   (users (snd (resolved env key db)))) ps rs i in
  admitted db' (Some key) = true
  /\ exists u, Mongo.findOne (has_deviceToken key) (users db') = Some u.
Proof.
  intros Hd db'. subst db'.
  assert (Hnb := resolved_not_banned env key db Hd).
  unfold admitted in *. cbn [users str] in *.
  apply andb_true_iff in Hd as [Hd _]. rewrite Hd. cbn [andb].
  rewrite findOne_token_update by reflexivity.
  rewrite resolved_findOne. cbn [option_map]. rewrite String.eqb_refl.
  split; [|eexists; reflexivity].
  cbn [User.inc_lightPoints User.isBanned]. now rewrite Hnb.
Qed.

(** What a request that is not admitted is answered. *)
Lemma app_not_admitted_cases env req db :
  authenticated req = true ->
  admitted db (voidKey_of req) = false ->
  (exists msg, fst (app env req db) = Send 401 (ErrorMsg msg))
  \/ fst (app env req db) = Send 200 ShadowBanned.
Proof.
  intros Ha Hd.
  destruct (app_not_admitted_response env req db Ha Hd) as (body & E & H1 & H2).
  rewrite E. cbn [fst].
  destruct (Js.truthy (voidKey_of req)
            && Js.anchored_test keyPattern (str (voidKey_of req))).
  - right. now rewrite (H2 eq_refl).
  - left. destruct (H1 eq_refl) as [msg ->]. now exists msg.
Qed.

(** X15. The profile route reads the points: for an admitted requester
    it answers the requester's points as they stand; asked right after a
    post of the requester was created it answers one point more than
    before the post, right after a reply five more, and it changes
    nothing then. *)
Theorem me_answers_the_points :
  forall env key db,
    (admitted db (Some key) = true ->
     fst (app env (GET_me (Some key)) db) = Send 200 (Points (points db key)))
    /\ (forall env' mood text room p db',
           app env' (POST_post (Some key) mood text room) db
           = (Send 201 (PostDoc p), db') ->
           app env (GET_me (Some key)) db'
           = (Send 200 (Points (points db key + 1)), db'))
    /\ (forall env' postId text db',
           app env' (POST_reply (Some key) postId text) db
           = (Send 200 Success, db') ->
           app env (GET_me (Some key)) db'
           = (Send 200 (Points (points db key + 5)), db')).
Proof.
  intros env key db.
  assert (Hme : forall db0, admitted db0 (Some key) = true ->
                  fst (app env (GET_me (Some key)) db0)
                  = Send 200 (Points (points db0 key))).
  { intros db0 Hd. rewrite (app_me_admitted _ _ _ Hd). cbn [fst str].
    now rewrite resolved_points. }
  assert (Hknown : forall db0, admitted db0 (Some key) = true ->
                     (exists u, Mongo.findOne (has_deviceToken key) (users db0)
                                = Some u) ->
                     app env (GET_me (Some key)) db0
                     = (Send 200 (Points (points db0 key)), db0)).
  { intros db0 Hd (u & Hu). rewrite (surjective_pairing (app _ _ _)).
    rewrite (Hme _ Hd). f_equal.
    rewrite (app_me_admitted _ _ _ Hd). cbn [snd str].
    now rewrite (resolved_known _ _ _ _ Hu). }
  split; [apply Hme|]. split.
  - intros env' mood text room p db' H.
    assert (E := points_app env' (POST_post (Some key) mood text room) db key).
    rewrite H in E. cbn [fst snd] in E.
    rewrite (reward_created_post key _ _) in E
      by (now exists mood, text, room, p).
    rewrite <- E.
    destruct (admitted db (Some key)) eqn:Hd.
    + rewrite (app_post_admitted _ _ _ _ _ _ Hd) in H. cbv zeta in H.
      destruct (negb (Js.truthy mood) || negb (Js.truthy text));
        [discriminate H|].
      destruct (negb (moderateText (str text))); [discriminate H|].
      injection H as _ <-. cbn [str].
      destruct (admitted_after_reward env' key db 1
                  (posts (snd (resolved env' key db))
                   ++ [VoidPost.mk (nextId (snd (resolved env' key db)))
                         (str mood) (str text)
                         (if Js.array_includes validRooms room
                          then str room else "general")
                         key "active" 0 0 (now env')])
                  (replies (snd (resolved env' key db)))
                  (S (nextId (snd (resolved env' key db)))) Hd) as [Ha Hu].
      now apply Hknown.
    + destruct (app_not_admitted_cases env' (POST_post (Some key) mood text room)
                  db eq_refl Hd) as [[msg E']|E'];
        rewrite H in E'; discriminate E'.
  - intros env' postId text db' H.
    assert (E := points_app env' (POST_reply (Some key) postId text) db key).
    rewrite H in E. cbn [fst snd] in E.
    rewrite (reward_created_reply key _ _) in E by (now exists postId, text).
    rewrite <- E.
    destruct (admitted db (Some key)) eqn:Hd.
    + rewrite (app_reply_admitted _ _ _ _ _ Hd) in H. cbv zeta in H.
      destruct postId as [pid|]; [|discriminate H].
      destruct (negb (Js.truthy text)); [discriminate H|].
      destruct (Mongo.findOne (post_has_id pid) _) as [post|];
        [|discriminate H].
      injection H as <-. cbn [str].
      match goal with
      | |- app _ _ (mkDb _ ?ps ?rs ?i) = _ =>
          destruct (admitted_after_reward env' key db 5 ps rs i Hd) as [Ha Hu]
      end.
      now apply Hknown.
    + destruct (app_not_admitted_cases env' (POST_reply (Some key) postId text)
                  db eq_refl Hd) as [[msg E']|E'];
        rewrite H in E'; discriminate E'.
Qed.

(** X16. The GET routes write no content: the profile, the random post,
    the room and the dashboard leave every post and every reply as they
    are and nobody's points change, whoever asks; the most they do is
    create the identity of a well-formed key seen for the first time. *)
Theorem get_routes_write_no_content :
  forall env req db,
    is_get req = true ->
    let db' := snd (app env req db) in
    posts db' = posts db /\ replies db' = replies db
    /\ (forall k, points db' k = points db k)
    /\ (users db' = users db
        \/ exists u, users db' = users db ++ [u]
                     /\ voidKey_of req = Some (User.deviceToken u)
                     /\ well_formed_key (User.deviceToken u)
                     /\ User.lightPoints u = 0 /\ User.isBanned u = false).
Proof.
  intros env req db Hg db'. subst db'.
  assert (Hres : forall k,
             admitted db k = true ->
             let db1 := snd (resolved env (str k) db) in
             posts db1 = posts db /\ replies db1 = replies db
             /\ (forall key, points db1 key = points db key)
             /\ (users db1 = users db
                 \/ exists u, users db1 = users db ++ [u]
                              /\ k = Some (User.deviceToken u)
                              /\ well_formed_key (User.deviceToken u)
                              /\ User.lightPoints u = 0
                              /\ User.isBanned u = false)).
  { intros k Hd db1. subst db1.
    split; [apply resolved_posts|]. split; [apply resolved_replies|].
    split; [intros key; apply points_resolved|].
    destruct (admitted_Some _ _ Hd) as [s ->]. cbn [str]. unfold resolved.
    destruct (Mongo.findOne (has_deviceToken s) (users db)); cbn [snd].
    - now left.
    - right. eexists. split; [reflexivity|]. cbn.
      split; [reflexivity|]. split; [|now split].
      eapply admitted_well_formed; eassumption. }
  destruct (authenticated req) eqn:Ha.
  - destruct (admitted db (voidKey_of req)) eqn:Hd.
    + specialize (Hres _ Hd).
      destruct req as [k|k mood text room|k room|k postId text|k type id|k| |];
        try discriminate Hg; try discriminate Ha; cbn [voidKey_of] in *.
      * now rewrite (app_me_admitted _ _ _ Hd).
      * rewrite (app_random_admitted _ _ _ _ Hd). cbv zeta.
        now destruct (Mongo.sample1 _ _).
      * now destruct (app_my_room_admitted env k db Hd) as (a & b & ->).
    + rewrite (app_not_admitted env req db Ha Hd). cbn [snd]. auto.
  - destruct req; try discriminate Hg; try discriminate Ha.
    rewrite app_dashboard. auto.
Qed.

(* ------------------------------------------------------------------ *)
(** ** Reported, hidden, gone *)

Lemma findOne_unique_id (ps : list VoidPost.t) (p : VoidPost.t) :
  NoDup (map VoidPost._id ps) -> In p ps ->
  Mongo.findOne (post_has_id (VoidPost._id p)) ps = Some p.
Proof.
  unfold Mongo.findOne. induction ps as [|q ps IH]; simpl; intros Hn Hin.
  - destruct Hin.
  - inversion Hn as [|? ? Hnotin Hn']; subst. unfold post_has_id at 1.
    destruct Hin as [->|Hin].
    + now rewrite Nat.eqb_refl.
    + destruct (Nat.eqb_spec (VoidPost._id q) (VoidPost._id p)) as [E|E].
      * elim Hnotin. rewrite E. now apply in_map.
      * now apply IH.
Qed.

(** A post that is not active is not made active again by any request. *)
Lemma inactive_stays_inactive env req db id p :
  Mongo.findOne (post_has_id id) (posts db) = Some p ->
  VoidPost.status p <> "active" ->
  exists p', Mongo.findOne (post_has_id id) (posts (snd (app env req db))) = Some p'
             /\ VoidPost.status p' <> "active".
Proof.
  intros Hp Hs.
  assert (Hsame : forall db', posts db' = posts db ->
            exists p', Mongo.findOne (post_has_id id) (posts db') = Some p'
                       /\ VoidPost.status p' <> "active").
  { intros db' ->. now exists p. }
  assert (Hupd : forall upd,
            (forall d, post_has_id id d = true -> post_has_id id (upd d) = true) ->
            (forall d, VoidPost._id (upd d) = VoidPost._id d) ->
            (forall d, VoidPost.status d <> "active" ->
                       VoidPost.status (upd d) <> "active") ->
            forall i, exists p',
              Mongo.findOne (post_has_id id)
                (Mongo.updateOne (post_has_id i) upd (posts db)) = Some p'
              /\ VoidPost.status p' <> "active").
  { intros upd H1 H2 H3 i. destruct (Nat.eq_dec id i) as [<-|Hne].
    - rewrite findOne_updateOne by exact H1. rewrite Hp. cbn [option_map].
      eexists; split; [reflexivity | now apply H3].
    - rewrite findOne_post_other by auto. now exists p. }
  destruct (authenticated req) eqn:Ha.
  - destruct (admitted db (voidKey_of req)) eqn:Hd.
    + destruct req as [k|k mood text room|k room|k postId text|k type i|k| |];
        try discriminate Ha; cbn [voidKey_of] in *.
      * rewrite (app_me_admitted _ _ _ Hd). apply Hsame, resolved_posts.
      * rewrite (app_post_admitted _ _ _ _ _ _ Hd). cbv zeta.
        destruct (negb (Js.truthy mood) || negb (Js.truthy text));
          [apply Hsame, resolved_posts|].
        destruct (negb (moderateText (str text)));
          [apply Hsame, resolved_posts|].
        cbn [snd posts]. rewrite resolved_posts, findOne_app, Hp. now exists p.
      * rewrite (app_random_admitted _ _ _ _ Hd). cbv zeta.
        destruct (Mongo.sample1 _ _); apply Hsame, resolved_posts.
      * rewrite (app_reply_admitted _ _ _ _ _ Hd). cbv zeta.
        destruct postId as [pid|]; [|apply Hsame, resolved_posts].
        destruct (negb (Js.truthy text)); [apply Hsame, resolved_posts|].
        destruct (Mongo.findOne (post_has_id pid) _);
          [|apply Hsame, resolved_posts].
        cbn [snd posts]. rewrite resolved_posts. now apply Hupd.
      * rewrite (app_report_admitted _ _ _ _ _ Hd). cbv zeta.
        destruct (Js.strict_eq type "post");
          [destruct (Mongo.findOne (post_has_id i) _)
          |destruct (Mongo.findOne (reply_has_id i) _)];
          try (apply Hsame; cbn [snd with_replies posts];
               apply resolved_posts).
        cbn [snd with_posts posts]. rewrite resolved_posts. apply Hupd; auto.
        -- intros d Hd'. unfold post_has_id in *. now rewrite reported_post_id.
        -- apply reported_post_id.
        -- intros d Hd'. unfold reported_post. cbv zeta.
           destruct (3 <=? _); [discriminate | exact Hd'].
      * destruct (app_my_room_admitted env k db Hd) as (a & b & ->).
        apply Hsame, resolved_posts.
    + rewrite (app_not_admitted env req db Ha Hd). now apply Hsame.
  - destruct req; try discriminate Ha.
    + rewrite app_dashboard. now apply Hsame.
    + rewrite app_ban. destruct (negb _); [now apply Hsame|].
      cbn [snd posts]. destruct deleteContent; [|now exists p].
      rewrite findOne_updateMany by reflexivity. rewrite Hp. cbn [option_map].
      eexists; split; [reflexivity|].
      destruct (VoidPost.authorToken p =? token)%string;
        [discriminate | exact Hs].
Qed.

Lemma inactive_stays_inactive_serve reqs db id p :
  Mongo.findOne (post_has_id id) (posts db) = Some p ->
  VoidPost.status p <> "active" ->
  exists p', Mongo.findOne (post_has_id id) (posts (serve reqs db)) = Some p'
             /\ VoidPost.status p' <> "active".
Proof.
  revert db p. induction reqs as [|[env req] reqs IH]; intros db p Hp Hs;
    cbn [serve].
  - now exists p.
  - destruct (inactive_stays_inactive env req db id p Hp Hs) as (p' & Hp' & Hs').
    now apply IH with p'.
Qed.

(** X17. A post reported up to three is never served again: once
    reports by admitted requesters have brought the count of a post to 3
    or more, the random route answers that post to nobody, whatever
    requests are served in between. *)
Theorem post_reported_three_times_is_never_served :
  forall id reporters more db n s,
    reporters <> [] ->
    Forall (fun ek => admitted db (snd ek) = true) reporters ->
    ids_fresh db ->
    entity_at db (Some "post") id = Some (n, s) ->
    3 <= n + Z.of_nat (List.length reporters) ->
    forall env k room p db',
      app env (GET_post_random k room)
          (serve more (serve (reports_by reporters (Some "post") id) db))
      = (Send 200 (PostDoc p), db') ->
      VoidPost._id p <> id.
Proof.
  intros id [|reporter reporters] more db n s Hne Had Hf He Hge env k room p db' H;
    [now elim Hne|].
  assert (E := report_many (Some "post") id reporter reporters db n s Had He).
  cbv zeta in E. apply Z.leb_le in Hge. rewrite Hge in E.
  set (db1 := serve (reports_by (reporter :: reporters) (Some "post") id) db) in *.
  unfold entity_at in E.
  change (Js.strict_eq (Some "post") "post") with true in E. cbv iota in E.
  destruct (Mongo.findOne (post_has_id id) (posts db1)) as [q|] eqn:Hq;
    [|discriminate E].
  cbn [option_map] in E. injection E as _ Hst.
  destruct (inactive_stays_inactive_serve more db1 id q Hq) as (q' & Hq' & Hs').
  { rewrite Hst. discriminate. }
  apply random_post_drawn in H as [_ Hin].
  apply In_firstn_In in Hin.
  apply (Permutation_in _ (Permutation_sym (sort_perm pool_order _))) in Hin.
  apply eligible_iff in Hin as [Hp (Hact & _)].
  intros Hid.
  assert (Hn : NoDup (map VoidPost._id (posts (serve more db1))))
    by (apply ids_fresh_serve, ids_fresh_serve, Hf).
  apply (findOne_unique_id _ _ Hn) in Hp. rewrite Hid, Hq' in Hp.
  injection Hp as ->. contradiction.
Qed.

Lemma findOne_reply_other id id' upd (rs : list VoidReply.t) :
  id' <> id ->
  (forall d, VoidReply._id (upd d) = VoidReply._id d) ->
  Mongo.findOne (reply_has_id id') (Mongo.updateOne (reply_has_id id) upd rs)
  = Mongo.findOne (reply_has_id id') rs.
Proof.
  intros Hne Hu. apply findOne_updateOne_other.
  intros d Hd. unfold reply_has_id in *. rewrite Hu.
  apply Nat.eqb_eq in Hd. rewrite Hd.
  split; apply Nat.eqb_neq; congruence.
Qed.

(** X18. A report touches the reported entity only, and only its report
    count and status: a report of a post by an admitted requester leaves
    every other post and every reply as they were and the post itself
    with the same id, mood, text, room, author, reply count and date; a
    report with any other type, or none, is one of a reply and does the
    same to the replies, leaving every post as it was.  Nobody's points
    change. *)
Theorem report_touches_the_reported_entity_only :
  forall env k type id db,
    admitted db k = true ->
    let db' := snd (app env (POST_report k type id) db) in
    (forall key, points db' key = points db key)
    /\ (type = Some "post" ->
        replies db' = replies db
        /\ (forall other, other <> id ->
                          Mongo.findOne (post_has_id other) (posts db')
                          = Mongo.findOne (post_has_id other) (posts db))
        /\ (forall p, Mongo.findOne (post_has_id id) (posts db) = Some p ->
                      exists p',
                        Mongo.findOne (post_has_id id) (posts db') = Some p'
                        /\ same_post_but_reports_and_status p p'))
    /\ (type <> Some "post" ->
        posts db' = posts db
        /\ (forall other, other <> id ->
                          Mongo.findOne (reply_has_id other) (replies db')
                          = Mongo.findOne (reply_has_id other) (replies db))
        /\ (forall r, Mongo.findOne (reply_has_id id) (replies db) = Some r ->
                      exists r',
                        Mongo.findOne (reply_has_id id) (replies db') = Some r'
                        /\ same_reply_but_reports_and_status r r')).
Proof.
  intros env k type id db Hd db'. subst db'. split; [|split].
  - intros key. rewrite points_app. cbn [reward]. lia.
  - intros ->. rewrite (app_report_admitted _ _ _ _ _ Hd). cbv zeta.
    change (Js.strict_eq (Some "post") "post") with true. cbv iota.
    rewrite resolved_posts.
    destruct (Mongo.findOne (post_has_id id) (posts db)) as [p0|] eqn:E;
      cbn [snd with_posts posts replies]; rewrite ?resolved_posts,
        ?resolved_replies.
    + split; [reflexivity|]. split.
      * intros other Hne. apply findOne_post_other; auto.
        apply reported_post_id.
      * intros p Hp. injection Hp as <-.
        rewrite findOne_updateOne, E.
        -- cbn [option_map]. eexists; split; [reflexivity|].
           unfold same_post_but_reports_and_status, reported_post. cbv zeta.
           destruct (3 <=? _); cbn; repeat split.
        -- intros d Hd'. unfold post_has_id in *. now rewrite reported_post_id.
    + split; [reflexivity|]. split; [reflexivity|]. intros p Hp. discriminate.
  - intros Ht. rewrite (app_report_admitted _ _ _ _ _ Hd). cbv zeta.
    assert (Hs : Js.strict_eq type "post" = false).
    { unfold Js.strict_eq. destruct type as [t|]; [|reflexivity].
      apply String.eqb_neq. congruence. }
    rewrite Hs, resolved_replies.
    destruct (Mongo.findOne (reply_has_id id) (replies db)) as [r0|] eqn:E;
      cbn [snd with_replies posts replies]; rewrite ?resolved_posts,
        ?resolved_replies.
    + split; [reflexivity|]. split.
      * intros other Hne. apply findOne_reply_other; auto.
        apply reported_reply_id.
      * intros r Hr. injection Hr as <-.
        rewrite findOne_updateOne, E.
        -- cbn [option_map]. eexists; split; [reflexivity|].
           unfold same_reply_but_reports_and_status, reported_reply. cbv zeta.
           destruct (3 <=? _); cbn; repeat split.
        -- intros d Hd'. unfold reply_has_id in *. now rewrite reported_reply_id.
    + split; [reflexivity|]. split; [reflexivity|]. intros r Hr. discriminate.
Qed.

(* ------------------------------------------------------------------ *)
(** ** Sorting by one key, descending *)

Section Descending.
Context {A : Type} (key : A -> Z).

Lemma descending_iff (a b : A) :
  Mongo.comes_first [(key, -1)] a b = true <-> key b <= key a.
Proof.
  cbn [Mongo.comes_first].
  destruct (Z.compare_spec (key a) (key b)); split; intros;
    try reflexivity; try discriminate; lia.
Qed.

Lemma sort_descending (l : list A) :
  Permutation l (Mongo.sort [(key, -1)] l)
  /\ StronglySorted (fun a b => key b <= key a) (Mongo.sort [(key, -1)] l).
Proof.
  split; [apply sort_perm|].
  eapply StronglySorted_impl; [intros a b; apply descending_iff|].
  apply sort_sorted.
  - intros a b H. apply not_true_iff_false in H.
    rewrite descending_iff in *. lia.
  - intros a b c. rewrite !descending_iff. lia.
Qed.

End Descending.

(* ------------------------------------------------------------------ *)
(** ** The dashboard *)

(** X19. With the admin key the dashboard lists the reported content and
    only that: its posts are the posts with at least one report, each
    once, the most reported first, and so for the replies; the database
    is left as it is. *)
Theorem dashboard_lists_the_reported_content :
  forall env k db,
    opens_admin env k ->
    exists flaggedPosts flaggedReplies,
      app env (GET_admin_dashboard (Some k)) db
      = (Send 200 (Dashboard flaggedPosts flaggedReplies), db)
      /\ Permutation (filter (fun p => 0 <? VoidPost.reports p) (posts db))
                     flaggedPosts
      /\ StronglySorted post_not_less_reported flaggedPosts
      /\ Permutation (filter (fun r => 0 <? VoidReply.reports r) (replies db))
                     flaggedReplies
      /\ StronglySorted reply_not_less_reported flaggedReplies.
Proof.
  intros env k db Ho.
  assert (H : Js.strict_eq (Some k) (ADMIN_KEY env) = true)
    by (apply admin_key_iff; now exists k).
  unfold app, run, get_api_admin_dashboard. rewrite H. cbn [negb].
  unfold bind, reads, respond. cbn [fst snd].
  eexists; eexists; split; [reflexivity|].
  destruct (sort_descending VoidPost.reports
              (Mongo.find (fun p => 0 <? VoidPost.reports p) (posts db))).
  destruct (sort_descending VoidReply.reports
              (Mongo.find (fun r => 0 <? VoidReply.reports r) (replies db))).
  auto.
Qed.

(* ------------------------------------------------------------------ *)
(** ** The room *)

Lemma distinct_In (x : ObjectId) (l : list ObjectId) :
  In x (Mongo.distinct l) <-> In x l.
Proof.
  unfold Mongo.distinct. induction l as [|y l IH]; simpl; [tauto|].
  rewrite filter_In, IH, negb_true_iff, Nat.eqb_neq.
  destruct (Nat.eq_dec y x); intuition congruence.
Qed.

Lemma distinct_NoDup (l : list ObjectId) : NoDup (Mongo.distinct l).
Proof.
  unfold Mongo.distinct. induction l as [|y l IH]; simpl.
  - constructor.
  - constructor.
    + rewrite filter_In, negb_true_iff, Nat.eqb_neq. intros [_ H]. now elim H.
    + now apply NoDup_filter.
Qed.

Lemma visible_replies_spec db pid :
  visible_replies_of db pid (visible_replies db pid).
Proof.
  intros r. unfold visible_replies, Mongo.find.
  rewrite filter_In, andb_true_iff, Nat.eqb_eq, String.eqb_eq. tauto.
Qed.

(** The answer of the room route to an admitted requester. *)
Lemma app_my_room_exact env k db :
  admitted db k = true ->
  app env (GET_my_room k) db =
  let db1 := snd (resolved env (str k) db) in
  (Send 200
     (MyRoom
        (map (fun p => (p, visible_replies db1 (VoidPost._id p)))
             (Mongo.sort [(VoidPost.createdAt, -1)]
                (Mongo.find (fun p => (VoidPost.authorToken p =? str k)%string)
                            (posts db1))))
        (flat_map (fun i => match i with Some x => [x] | None => [] end)
           (map (fun pid =>
                   match Mongo.findOne (post_has_id pid) (posts db1) with
                   | None => None
                   | Some post => Some (post, visible_replies db1 pid)
                   end)
                (Mongo.distinct
                   (map VoidReply.postId
                      (Mongo.find
                         (fun r => (VoidReply.responderToken r =? str k)%string
                                   && negb (VoidReply.isAuthorReply r))
                         (replies db1))))))),
   db1).
Proof.
  intros H. enter_route (authUser_admitted env k db H).
  rewrite resolved_deviceToken. reflexivity.
Qed.

(** X20. The room of an admitted requester shows the requester's own
    posts, all of them and no other, each once, the newest first, and
    with each exactly the replies to it that are visible; the route
    changes no post and no reply. *)
Theorem my_room_shows_own_posts_with_visible_replies :
  forall env key db,
    admitted db (Some key) = true ->
    exists myPosts myInteractions db',
      app env (GET_my_room (Some key)) db
      = (Send 200 (MyRoom myPosts myInteractions), db')
      /\ posts db' = posts db /\ replies db' = replies db
      /\ Permutation
           (filter (fun p => (VoidPost.authorToken p =? key)%string) (posts db))
           (map fst myPosts)
      /\ StronglySorted post_not_older (map fst myPosts)
      /\ Forall (fun pr => visible_replies_of db (VoidPost._id (fst pr)) (snd pr))
                myPosts.
Proof.
  intros env key db Hd. rewrite (app_my_room_exact _ _ _ Hd). cbv zeta.
  cbn [str]. eexists; eexists; eexists; split; [reflexivity|].
  rewrite resolved_posts.
  split; [reflexivity|]. split; [apply resolved_replies|].
  rewrite map_map. cbn [fst]. rewrite map_id.
  destruct (sort_descending VoidPost.createdAt
              (Mongo.find (fun p => (VoidPost.authorToken p =? key)%string)
                          (posts db))) as [Hp Hs].
  split; [exact Hp|]. split; [exact Hs|].
  apply Forall_map, Forall_forall. intros p _. cbn [fst snd].
  intros r. unfold visible_replies. rewrite resolved_replies.
  apply (visible_replies_spec db).
Qed.

Lemma interactions_ids (ps : list VoidPost.t) (vis : ObjectId -> list VoidReply.t)
    (ids : list ObjectId) :
  map (fun i => VoidPost._id (fst i))
      (flat_map (fun i : option (VoidPost.t * list VoidReply.t) =>
                   match i with Some x => [x] | None => [] end)
         (map (fun pid =>
                 match Mongo.findOne (post_has_id pid) ps with
                 | None => None
                 | Some post => Some (post, vis pid)
                 end) ids))
  = filter (fun pid => match Mongo.findOne (post_has_id pid) ps with
                       | Some _ => true
                       | None => false
                       end) ids.
Proof.
  induction ids as [|pid ids IH]; simpl; [reflexivity|].
  destruct (Mongo.findOne (post_has_id pid) ps) as [post|] eqn:E; simpl.
  - apply findOne_post_id in E as [_ ->]. now rewrite IH.
  - exact IH.
Qed.

Lemma interactions_In (ps : list VoidPost.t) (vis : ObjectId -> list VoidReply.t)
    (ids : list ObjectId) (post : VoidPost.t) (rs : list VoidReply.t) :
  In (post, rs)
     (flat_map (fun i : option (VoidPost.t * list VoidReply.t) =>
                  match i with Some x => [x] | None => [] end)
        (map (fun pid =>
                match Mongo.findOne (post_has_id pid) ps with
                | None => None
                | Some post => Some (post, vis pid)
                end) ids))
  <-> exists pid, In pid ids
                  /\ Mongo.findOne (post_has_id pid) ps = Some post
                  /\ rs = vis pid.
Proof.
  rewrite in_flat_map. split.
  - intros ([x|] & Hx & Hin); [|destruct Hin].
    destruct Hin as [->|[]]. apply in_map_iff in Hx as (pid & E & Hpid).
    exists pid. split; [exact Hpid|].
    destruct (Mongo.findOne (post_has_id pid) ps); [|discriminate E].
    injection E as -> ->. now split.
  - intros (pid & Hpid & E & ->). exists (Some (post, vis pid)). split.
    + apply in_map_iff. exists pid. now rewrite E.
    + now left.
Qed.

(** X21. The room lists each post the requester joined once: the
    interactions of an admitted requester are the posts that are there
    and to which the requester made a reply not flagged as the author's
    own, however many such replies there are, no post twice and none
    left out, each with exactly the replies to it that are visible. *)
Theorem my_room_lists_each_joined_post_once :
  forall env key db,
    admitted db (Some key) = true ->
    exists myPosts myInteractions db',
      app env (GET_my_room (Some key)) db
      = (Send 200 (MyRoom myPosts myInteractions), db')
      /\ NoDup (map (fun i => VoidPost._id (fst i)) myInteractions)
      /\ (forall post,
             In post (map fst myInteractions) <->
             exists r, In r (replies db)
                       /\ VoidReply.responderToken r = key
                       /\ VoidReply.isAuthorReply r = false
                       /\ Mongo.findOne (post_has_id (VoidReply.postId r))
                                        (posts db) = Some post)
      /\ Forall (fun i => visible_replies_of db (VoidPost._id (fst i)) (snd i))
                myInteractions.
Proof.
  intros env key db Hd. rewrite (app_my_room_exact _ _ _ Hd). cbv zeta.
  cbn [str]. eexists; eexists; eexists; split; [reflexivity|].
  rewrite resolved_posts, resolved_replies.
  assert (Hjoined : forall pid,
    In pid (Mongo.distinct
              (map VoidReply.postId
                 (Mongo.find
                    (fun r => (VoidReply.responderToken r =? key)%string
                              && negb (VoidReply.isAuthorReply r))
                    (replies db))))
    <-> exists r, In r (replies db) /\ VoidReply.responderToken r = key
                  /\ VoidReply.isAuthorReply r = false
                  /\ VoidReply.postId r = pid).
  { intros pid. rewrite distinct_In, in_map_iff. unfold Mongo.find.
    split.
    - intros (r & E & Hr). apply filter_In in Hr as [Hr Hc].
      apply andb_true_iff in Hc as [Hk Ha]. apply String.eqb_eq in Hk.
      apply negb_true_iff in Ha. now exists r.
    - intros (r & Hr & Hk & Ha & E). exists r. split; [exact E|].
      apply filter_In. split; [exact Hr|].
      apply andb_true_iff. split; [now apply String.eqb_eq|].
      now apply negb_true_iff. }
  split; [|split].
  - rewrite interactions_ids. apply NoDup_filter, distinct_NoDup.
  - intros post. rewrite in_map_iff. split.
    + intros ([post' rs] & E & Hin). cbn [fst] in E. subst post'.
      apply interactions_In in Hin as (pid & Hpid & Hf & _).
      apply Hjoined in Hpid as (r & Hr & Hk & Ha & <-). now exists r.
    + intros (r & Hr & Hk & Ha & Hf).
      exists (post, visible_replies (snd (resolved env key db))
                                    (VoidReply.postId r)).
      split; [reflexivity|]. apply interactions_In.
      exists (VoidReply.postId r). split; [|now split].
      apply Hjoined. now exists r.
  - apply Forall_forall. intros [post rs] Hin.
    apply interactions_In in Hin as (pid & _ & Hf & ->). cbn [fst snd].
    apply findOne_post_id in Hf as [_ ->].
    intros r. unfold visible_replies. rewrite resolved_replies.
    apply (visible_replies_spec db).
Qed.

(* ------------------------------------------------------------------ *)
(** ** Points and content *)

Lemma count_occ_snoc_string (l : list string) (x y : string) :
  count_occ string_dec (l ++ [x]) y
  = (count_occ string_dec l y + if (x =? y)%string then 1 else 0)%nat.
Proof.
  rewrite count_occ_app. cbn [count_occ].
  destruct (string_dec x y) as [->|H].
  - now rewrite String.eqb_refl.
  - apply String.eqb_neq in H. now rewrite H.
Qed.

Lemma content_same db db' key :
  map VoidPost.authorToken (posts db') = map VoidPost.authorToken (posts db) ->
  map VoidReply.responderToken (replies db')
  = map VoidReply.responderToken (replies db) ->
  Z.of_nat (posts_by db' key) + 5 * Z.of_nat (replies_by db' key)
  = Z.of_nat (posts_by db key) + 5 * Z.of_nat (replies_by db key).
Proof. unfold posts_by, replies_by. now intros -> ->. Qed.

Lemma reported_post_author p :
  VoidPost.authorToken (reported_post p) = VoidPost.authorToken p.
Proof. unfold reported_post. cbv zeta. now destruct (3 <=? _). Qed.

Lemma reported_reply_responder r :
  VoidReply.responderToken (reported_reply r) = VoidReply.responderToken r.
Proof. unfold reported_reply. cbv zeta. now destruct (3 <=? _). Qed.

(** Every request adds to the content of a key what it adds to its
    points. *)
Lemma content_app env req db key :
  Z.of_nat (posts_by (snd (app env req db)) key)
  + 5 * Z.of_nat (replies_by (snd (app env req db)) key)
  = Z.of_nat (posts_by db key) + 5 * Z.of_nat (replies_by db key)
    + reward key req (fst (app env req db)).
Proof.
  assert (Hsame : forall resp db',
            reward key req resp = 0 ->
            map VoidPost.authorToken (posts db')
            = map VoidPost.authorToken (posts db) ->
            map VoidReply.responderToken (replies db')
            = map VoidReply.responderToken (replies db) ->
            Z.of_nat (posts_by (snd (resp, db')) key)
            + 5 * Z.of_nat (replies_by (snd (resp, db')) key)
            = Z.of_nat (posts_by db key) + 5 * Z.of_nat (replies_by db key)
              + reward key req (fst (resp, db'))).
  { intros resp db' Hr Hp Hq. cbn [fst snd].
    rewrite Hr, Z.add_0_r. now apply content_same. }
  destruct (authenticated req) eqn:Ha.
  - destruct (admitted db (voidKey_of req)) eqn:Hd.
    + destruct (admitted_Some _ _ Hd) as [s Hs].
      assert (Hp1 := resolved_posts env s db).
      assert (Hr1 := resolved_replies env s db).
      destruct req as [k|k mood text room|k room|k postId text|k type id|k| |];
        try discriminate Ha; cbn [voidKey_of] in *; subst k.
      * rewrite (app_me_admitted _ _ _ Hd). cbn [str].
        apply Hsame; [reflexivity | now rewrite Hp1 | now rewrite Hr1].
      * rewrite (app_post_admitted _ _ _ _ _ _ Hd). cbv zeta. cbn [str].
        destruct (negb (Js.truthy mood) || negb (Js.truthy text));
          [apply Hsame; [reflexivity | now rewrite Hp1 | now rewrite Hr1]|].
        destruct (negb (moderateText (str text)));
          [apply Hsame; [reflexivity | now rewrite Hp1 | now rewrite Hr1]|].
        cbn [fst snd reward]. unfold posts_by, replies_by, Js.strict_eq.
        cbn [posts replies]. rewrite Hp1, Hr1, map_app.
        cbn [map VoidPost.authorToken]. rewrite count_occ_snoc_string.
        destruct (s =? key)%string; lia.
      * rewrite (app_random_admitted _ _ _ _ Hd). cbv zeta. cbn [str].
        destruct (Mongo.sample1 _ _);
          (apply Hsame; [reflexivity | now rewrite Hp1 | now rewrite Hr1]).
      * rewrite (app_reply_admitted _ _ _ _ _ Hd). cbv zeta. cbn [str].
        destruct postId as [pid|];
          [|apply Hsame; [reflexivity | now rewrite Hp1 | now rewrite Hr1]].
        destruct (negb (Js.truthy text));
          [apply Hsame; [reflexivity | now rewrite Hp1 | now rewrite Hr1]|].
        destruct (Mongo.findOne (post_has_id pid) _);
          [|apply Hsame; [reflexivity | now rewrite Hp1 | now rewrite Hr1]].
        cbn [fst snd reward]. unfold posts_by, replies_by, Js.strict_eq.
        cbn [posts replies].
        rewrite (map_updateOne VoidPost.authorToken) by reflexivity.
        rewrite Hp1, Hr1, map_app.
        cbn [map VoidReply.responderToken]. rewrite count_occ_snoc_string.
        destruct (s =? key)%string; lia.
      * rewrite (app_report_admitted _ _ _ _ _ Hd). cbv zeta. cbn [str].
        destruct (Js.strict_eq type "post");
          [destruct (Mongo.findOne (post_has_id id) _)
          |destruct (Mongo.findOne (reply_has_id id) _)];
          (apply Hsame; [reflexivity | |]);
          cbn [with_posts with_replies posts replies];
          rewrite ?(map_updateOne VoidPost.authorToken)
            by apply reported_post_author;
          rewrite ?(map_updateOne VoidReply.responderToken)
            by apply reported_reply_responder;
          rewrite ?Hp1, ?Hr1; reflexivity.
      * destruct (app_my_room_admitted env _ db Hd) as (a & b & ->).
        cbn [str]. apply Hsame; [reflexivity | now rewrite Hp1 | now rewrite Hr1].
    + rewrite (app_not_admitted env req db Ha Hd).
      apply Hsame; try reflexivity.
      destruct (app_not_admitted_cases env req db Ha Hd) as [[msg E]|E];
        rewrite (app_not_admitted env req db Ha Hd) in E; cbn [fst] in E;
        rewrite E; destruct req; reflexivity.
  - destruct req; try discriminate Ha.
    + rewrite (surjective_pairing (app _ _ _)), app_dashboard.
      apply Hsame; reflexivity.
    + rewrite app_ban. destruct (negb _);
        (apply Hsame; [reflexivity | |]); cbn [posts replies]; try reflexivity;
        destruct deleteContent; try reflexivity; now apply map_updateMany.
Qed.

Lemma points_match_content_app env req db :
  points_match_content db -> points_match_content (snd (app env req db)).
Proof.
  intros H key. rewrite points_app, content_app, (H key). reflexivity.
Qed.

(** X22. Points are earned by content and by nothing else: on every
    database the routes can produce from the empty one, the points of
    every key are the number of posts it wrote plus five times the number
    of replies it made, whatever became of that content since. *)
Theorem points_are_posts_plus_five_times_replies :
  forall reqs, points_match_content (serve reqs emptyDb).
Proof.
  intros reqs.
  assert (H : forall db, points_match_content db ->
                         points_match_content (serve reqs db)).
  { induction reqs as [|[env req] reqs IH]; intros db Hc; cbn [serve].
    - exact Hc.
    - now apply IH, points_match_content_app. }
  apply H. intros key. reflexivity.
Qed.

(* ------------------------------------------------------------------ *)
(** ** Moderation: case and context *)

Lemma lower_char_idempotent c : Js.lower_char (Js.lower_char c) = Js.lower_char c.
Proof.
  unfold Js.lower_char. cbv zeta.
  destruct ((65 <=? nat_of_ascii c) && (nat_of_ascii c <=? 90))%nat eqn:E;
    [|now rewrite E].
  apply andb_true_iff in E as [E1 E2].
  apply Nat.leb_le in E1, E2.
  rewrite nat_ascii_embedding by lia.
  replace ((65 <=? nat_of_ascii c + 32) && (nat_of_ascii c + 32 <=? 90))%nat
    with false; [reflexivity|].
  symmetry. apply andb_false_iff. right. apply Nat.leb_gt. lia.
Qed.

Lemma toLowerCase_idempotent s :
  Js.toLowerCase (Js.toLowerCase s) = Js.toLowerCase s.
Proof.
  induction s as [|c s IH]; simpl; [reflexivity|].
  now rewrite lower_char_idempotent, IH.
Qed.

Lemma toLowerCase_app s t :
  Js.toLowerCase (s ++ t)%string = (Js.toLowerCase s ++ Js.toLowerCase t)%string.
Proof. induction s as [|c s IH]; simpl; [reflexivity | now rewrite IH]. Qed.

Lemma string_app_assoc (a b c : string) :
  ((a ++ b) ++ c)%string = (a ++ b ++ c)%string.
Proof. induction a as [|x a IH]; simpl; [reflexivity | now rewrite IH]. Qed.

(** X23. What [moderateText] turns down stays turned down in any
    context and in lower case: a text that holds a refused text
    anywhere inside is refused, and a text is judged as its lower-case
    form is. *)
Theorem moderateText_ignores_context_and_case :
  (forall before text after,
      moderateText text = false ->
      moderateText (before ++ text ++ after)%string = false)
  /\ (forall text, moderateText (Js.toLowerCase text) = moderateText text).
Proof.
  split.
  - intros before text after H.
    unfold moderateText, Js.some in *. apply negb_false_iff in H.
    apply negb_false_iff. apply existsb_exists in H as (w & Hw & Hin).
    apply existsb_exists. exists w. split; [exact Hw|].
    apply includes_iff in Hin as (pre & post & E). apply includes_iff.
    exists (Js.toLowerCase before ++ pre)%string,
           (post ++ Js.toLowerCase after)%string.
    rewrite !toLowerCase_app, E, !string_app_assoc. reflexivity.
  - intros text. unfold moderateText. now rewrite toLowerCase_idempotent.
Qed.

(* ------------------------------------------------------------------ *)
(** ** Hidden only when reported *)

(** X24. Nothing is hidden without three reports: on every database the
    routes can produce from the empty one, every post and every reply
    with status "hidden" has a report count of 3 or more. *)
Theorem hidden_content_has_three_reports :
  forall reqs, hidden_past_threshold (serve reqs emptyDb).
Proof.
  intros reqs. apply hidden_past_threshold_serve, hidden_past_threshold_empty.
Qed.

(* ------------------------------------------------------------------ *)
(** ** The draw *)

Lemma sample1_reaches {A} (l : list A) (d : A) :
  In d l -> exists draw, Mongo.sample1 draw l = [d].
Proof.
  intros Hin. apply In_nth_error in Hin as (i & Hi).
  exists i. unfold Mongo.sample1.
  assert (i < List.length l)%nat by (apply nth_error_Some; congruence).
  now rewrite Nat.mod_small, Hi.
Qed.

(** X25. Every post of the pool can be the one answered: for an admitted
    requester and each of the first 50 candidates in pool order there is
    a draw with which the random route answers that post; with 50
    candidates or fewer that is every candidate. *)
Theorem every_pool_post_can_be_drawn :
  forall env k room db p,
    admitted db k = true ->
    In p (firstn 50 (Mongo.sort pool_order (eligible (str k) room db)))
    \/ ((List.length (eligible (str k) room db) <= 50)%nat
        /\ In p (eligible (str k) room db)) ->
    exists draw,
      fst (app (with_draw env draw) (GET_post_random k room) db)
      = Send 200 (PostDoc p).
Proof.
  intros env k room db p Hd H.
  assert (Hin : In p (firstn 50 (Mongo.sort pool_order
                                   (eligible (str k) room db)))).
  { destruct H as [H|[Hlen H]]; [exact H|].
    assert (Hp := sort_perm pool_order (eligible (str k) room db)).
    rewrite firstn_all2 by (rewrite <- (Permutation_length Hp); exact Hlen).
    now apply (Permutation_in _ Hp). }
  destruct (sample1_reaches _ _ Hin) as (d & Hs).
  exists d. rewrite (app_random_pool _ _ _ _ Hd).
  unfold with_draw. cbn [draw]. now rewrite Hs.
Qed.

(* ------------------------------------------------------------------ *)
(** ** Posts over time *)

Lemma post_later_refl p : post_later p p.
Proof. unfold post_later. repeat split; lia. Qed.

Lemma post_later_trans p q r : post_later p q -> post_later q r -> post_later p r.
Proof.
  unfold post_later.
  intros (A1 & A2 & A3 & A4 & A5 & A6 & A7 & A8)
         (B1 & B2 & B3 & B4 & B5 & B6 & B7 & B8).
  repeat split; try congruence; lia.
Qed.

Lemma post_later_app env req db id p :
  Mongo.findOne (post_has_id id) (posts db) = Some p ->
  exists p', Mongo.findOne (post_has_id id) (posts (snd (app env req db))) = Some p'
             /\ post_later p p'.
Proof.
  intros Hp.
  assert (Hsame : forall db', posts db' = posts db ->
            exists p', Mongo.findOne (post_has_id id) (posts db') = Some p'
                       /\ post_later p p').
  { intros db' ->. exists p. split; [exact Hp | apply post_later_refl]. }
  assert (Hupd : forall upd,
            (forall d, VoidPost._id (upd d) = VoidPost._id d) ->
            (forall d, post_later d (upd d)) ->
            forall i, exists p',
              Mongo.findOne (post_has_id id)
                (Mongo.updateOne (post_has_id i) upd (posts db)) = Some p'
              /\ post_later p p').
  { intros upd H1 H2 i. destruct (Nat.eq_dec id i) as [<-|Hne].
    - rewrite findOne_updateOne, Hp.
      + cbn [option_map]. eexists; split; [reflexivity | apply H2].
      + intros d Hd. unfold post_has_id in *. now rewrite H1.
    - rewrite findOne_post_other by auto.
      exists p. split; [exact Hp | apply post_later_refl]. }
  destruct (authenticated req) eqn:Ha.
  - destruct (admitted db (voidKey_of req)) eqn:Hd.
    + destruct req as [k|k mood text room|k room|k postId text|k type i|k| |];
        try discriminate Ha; cbn [voidKey_of] in *.
      * rewrite (app_me_admitted _ _ _ Hd). apply Hsame, resolved_posts.
      * rewrite (app_post_admitted _ _ _ _ _ _ Hd). cbv zeta.
        destruct (negb (Js.truthy mood) || negb (Js.truthy text));
          [apply Hsame, resolved_posts|].
        destruct (negb (moderateText (str text)));
          [apply Hsame, resolved_posts|].
        cbn [snd posts]. rewrite resolved_posts, findOne_app, Hp.
        exists p. split; [reflexivity | apply post_later_refl].
      * rewrite (app_random_admitted _ _ _ _ Hd). cbv zeta.
        destruct (Mongo.sample1 _ _); apply Hsame, resolved_posts.
      * rewrite (app_reply_admitted _ _ _ _ _ Hd). cbv zeta.
        destruct postId as [pid|]; [|apply Hsame, resolved_posts].
        destruct (negb (Js.truthy text)); [apply Hsame, resolved_posts|].
        destruct (Mongo.findOne (post_has_id pid) _);
          [|apply Hsame, resolved_posts].
        cbn [snd posts]. rewrite resolved_posts. apply Hupd; [reflexivity|].
        intros d. unfold post_later. cbn. repeat split; lia.
      * rewrite (app_report_admitted _ _ _ _ _ Hd). cbv zeta.
        destruct (Js.strict_eq type "post");
          [destruct (Mongo.findOne (post_has_id i) _)
          |destruct (Mongo.findOne (reply_has_id i) _)];
          try (apply Hsame; cbn [snd with_replies posts];
               apply resolved_posts).
        cbn [snd with_posts posts]. rewrite resolved_posts.
        apply Hupd; [apply reported_post_id|].
        intros d. unfold post_later, reported_post. cbv zeta.
        destruct (3 <=? _); cbn; repeat split; lia.
      * destruct (app_my_room_admitted env k db Hd) as (a & b & ->).
        apply Hsame, resolved_posts.
    + rewrite (app_not_admitted env req db Ha Hd). now apply Hsame.
  - destruct req; try discriminate Ha.
    + rewrite app_dashboard. now apply Hsame.
    + rewrite app_ban. destruct (negb _); [now apply Hsame|].
      cbn [snd posts]. destruct deleteContent; [|now apply Hsame].
      rewrite findOne_updateMany by reflexivity. rewrite Hp. cbn [option_map].
      eexists; split; [reflexivity|].
      destruct (VoidPost.authorToken p =? token)%string;
        [|apply post_later_refl].
      unfold post_later. cbn. repeat split; lia.
Qed.

(** X26. Posts are never removed or edited, and their counters never go
    down: a post found under an id is found under that id after any
    requests whatever, with the same mood, text, room, author and date,
    and with a report count and a reply count at least what they were. *)
Theorem posts_are_kept_and_counters_only_grow :
  forall reqs db id p,
    Mongo.findOne (post_has_id id) (posts db) = Some p ->
    exists p', Mongo.findOne (post_has_id id) (posts (serve reqs db)) = Some p'
               /\ post_later p p'.
Proof.
  induction reqs as [|[env req] reqs IH]; intros db id p Hp; cbn [serve].
  - exists p. split; [exact Hp | apply post_later_refl].
  - destruct (post_later_app env req db id p Hp) as (q & Hq & Hpq).
    destruct (IH _ _ _ Hq) as (r & Hr & Hqr).
    exists r. split; [exact Hr | now apply post_later_trans with q].
Qed.

(* ------------------------------------------------------------------ *)
(** ** The further properties at work on the board *)

Lemma alice_well_formed : well_formed_key Board.alice.
Proof. apply keyPattern_iff. vm_compute. reflexivity. Qed.

Lemma bob_well_formed : well_formed_key Board.bob.
Proof. apply keyPattern_iff. vm_compute. reflexivity. Qed.

Lemma carol_well_formed : well_formed_key Board.carol.
Proof. apply keyPattern_iff. vm_compute. reflexivity. Qed.

Lemma secret123_opens : opens_admin Board.env0 "secret123".
Proof. right. split; [reflexivity | now left]. Qed.

Lemma alice_is_banned : banned Board2.alice_banned Board.alice.
Proof. eexists. split; vm_compute; reflexivity. Qed.

Lemma one_post_ids_fresh : ids_fresh Board.one_post.
Proof.
  apply (ids_fresh_app Board.env0
           (POST_post (Some Board.alice) (Some "heartbroken")
                      (Some "It has been six months") (Some "love")) emptyDb),
        ids_fresh_empty.
Qed.

Lemma banned_identity_gets_shadow_answer_witness :
  app Board.env0 (GET_me (Some Board.alice)) Board2.alice_banned
  = (Send 200 ShadowBanned, Board2.alice_banned).
Proof.
  apply (banned_identity_gets_shadow_answer
           Board.env0 (GET_me (Some Board.alice)) Board2.alice_banned Board.alice).
  - reflexivity.
  - exact alice_well_formed.
  - exact alice_is_banned.
Defined.

Lemma missing_key_and_malformed_key_answers_witness :
  app Board.env0 (POST_post None (Some "sad") (Some "hello") None) Board.one_post
  = (Send 401 (ErrorMsg "Missing Void Key"), Board.one_post)
  /\ app Board.env0 (GET_me (Some "void-aaaa-1111-bbbb")) Board.one_post
     = (Send 401 (ErrorMsg "Invalid Key Format. Access Denied."), Board.one_post).
Proof.
  split.
  - apply (missing_key_and_malformed_key_answers
             Board.env0 (POST_post None (Some "sad") (Some "hello") None)
             Board.one_post); reflexivity.
  - apply (missing_key_and_malformed_key_answers
             Board.env0 (GET_me (Some "void-aaaa-1111-bbbb")) Board.one_post);
      try reflexivity.
    cbn [voidKey_of str]. rewrite <- keyPattern_iff. vm_compute. discriminate.
Defined.

Lemma admin_routes_open_for_the_admin_key_only_witness :
  app Board.env0 (GET_admin_dashboard (Some "letmein")) Board.one_post
  = (Send 403 (ErrorMsg "Forbidden"), Board.one_post)
  /\ app Board.env0 (DELETE_admin_ban (Some "letmein") Board.alice true)
         Board.one_post
     = (Send 403 (ErrorMsg "Forbidden"), Board.one_post).
Proof.
  destruct (admin_routes_open_for_the_admin_key_only
              Board.env0 (Some "letmein") Board.one_post) as [H1 H2].
  - intros (k & E & [[E1 _]|[E2 _]]); injection E as <-; discriminate.
  - split; [exact H1 | apply H2].
Defined.

Lemma keys_stay_distinct_witness :
  keys_distinct (snd (app Board.env0 (GET_me (Some Board.bob)) Board.one_post)).
Proof.
  apply keys_stay_distinct. unfold keys_distinct. simpl.
  constructor; [intros [] | constructor].
Defined.

Lemma ban_is_permanent_witness :
  banned (serve [bob_posts; carol_posts] Board2.alice_banned) Board.alice
  /\ app Board.env0 alice_posts (serve [bob_posts; carol_posts] Board2.alice_banned)
     = (Send 200 ShadowBanned, serve [bob_posts; carol_posts] Board2.alice_banned).
Proof.
  destruct (ban_is_permanent [bob_posts; carol_posts] Board2.alice_banned
              Board.alice alice_well_formed alice_is_banned) as [H1 H2].
  split; [exact H1 | now apply H2].
Defined.

Lemma ban_shadows_the_identity_witness :
  fst (app Board.env0 Board2.ban_alice Board.one_post)
  = Send 200 (SuccessMsg "User banished.")
  /\ app Board.env0 alice_posts Board2.alice_banned
     = (Send 200 ShadowBanned, Board2.alice_banned).
Proof.
  destruct (ban_shadows_the_identity
              Board.env0 "secret123" Board.alice true Board.one_post
              (User.mk 0%nat Board.alice 1 false 1000)
              secret123_opens alice_well_formed)
    as (H1 & _ & _ & H4).
  - vm_compute. reflexivity.
  - split; [exact H1 | now apply H4].
Defined.

Lemma ban_of_unseen_key_bans_nobody_witness :
  fst (app Board.env0 (DELETE_admin_ban (Some "secret123") Board.carol false)
           Board.one_post)
  = Send 200 (SuccessMsg "User banished.")
  /\ users (snd (app Board.env0
                     (DELETE_admin_ban (Some "secret123") Board.carol false)
                     Board.one_post))
     = users Board.one_post
  /\ admitted (snd (app Board.env0
                        (DELETE_admin_ban (Some "secret123") Board.carol false)
                        Board.one_post))
              (Some Board.carol) = true.
Proof.
  destruct (ban_of_unseen_key_bans_nobody
              Board.env0 "secret123" Board.carol false Board.one_post
              secret123_opens) as (H1 & H2 & H3).
  - vm_compute. reflexivity.
  - split; [exact H1|]. split; [exact H2 | exact (H3 carol_well_formed)].
Defined.

Lemma ban_with_deleteContent_marks_content_deleted_witness :
  map VoidPost._id (posts Board2.alice_banned)
  = map VoidPost._id (posts Board.one_post)
  /\ posts (snd (app Board.env0
                     (DELETE_admin_ban (Some "secret123") Board.alice false)
                     Board.one_post))
     = posts Board.one_post.
Proof.
  destruct (ban_with_deleteContent_marks_content_deleted
              Board.env0 "secret123" Board.alice Board.one_post secret123_opens)
    as (_ & _ & _ & _ & H5 & _ & _ & H8 & _).
  split; [exact H5 | exact H8].
Defined.

Lemma created_post_is_stored_and_found_witness :
  exists p db',
    app Board.env0 (POST_post (Some Board.bob) (Some "lost") (Some "hello") None)
        Board.one_post
    = (Send 201 (PostDoc p), db')
    /\ Mongo.findOne (post_has_id (VoidPost._id p)) (posts db') = Some p
    /\ VoidPost.authorToken p = Board.bob.
Proof.
  destruct (created_post_is_stored_and_found
              Board.env0 Board.bob (Some "lost") (Some "hello") None Board.one_post)
    as (p & db' & E & _ & _ & Hf & _ & _ & Ha & _);
    try (vm_compute; reflexivity).
  - exact one_post_ids_fresh.
  - now exists p, db'.
Defined.

Lemma refused_post_changes_nothing_witness :
  fst (app Board.env0 (POST_post (Some Board.bob) (Some "sad")
                                 (Some "I want to die today") None) Board.one_post)
  = Send 400 (ErrorMsg "Harmful content detected")
  /\ posts (snd (app Board.env0 (POST_post (Some Board.bob) (Some "sad")
                                           (Some "I want to die today") None)
                     Board.one_post))
     = posts Board.one_post.
Proof.
  destruct (refused_post_changes_nothing
              Board.env0 Board.bob (Some "sad") (Some "I want to die today") None
              Board.one_post) as (H1 & H2 & _).
  - vm_compute. reflexivity.
  - right. right. vm_compute. reflexivity.
  - split; [exact H1 | exact H2].
Defined.

Lemma created_reply_counts_on_its_post_only_witness :
  Mongo.findOne (post_has_id 1%nat)
    (posts (snd (app Board.env0
                     (POST_reply (Some Board.bob) (Some 1%nat) (Some "I hear you"))
                     Board.one_post)))
  = Some (VoidPost.inc_replyCount 1 Board.alices_post).
Proof.
  destruct (created_reply_counts_on_its_post_only
              Board.env0 Board.bob 1%nat "I hear you" Board.one_post
              Board.alices_post) as (H1 & _).
  - vm_compute. reflexivity.
  - vm_compute. reflexivity.
  - discriminate.
  - exact H1.
Defined.

Lemma refused_reply_changes_nothing_witness :
  fst (app Board.env0 (POST_reply (Some Board.bob) None (Some "hello"))
           Board.one_post)
  = Send 400 (ErrorMsg "Missing data")
  /\ replies (snd (app Board.env0 (POST_reply (Some Board.bob) None (Some "hello"))
                       Board.one_post))
     = replies Board.one_post.
Proof.
  destruct (refused_reply_changes_nothing
              Board.env0 Board.bob None (Some "hello") Board.one_post)
    as (H1 & _ & H3 & _).
  - vm_compute. reflexivity.
  - now left.
  - split; [exact H1 | exact H3].
Defined.

Lemma get_routes_write_no_content_witness :
  posts (snd (app Board.env0 (GET_post_random (Some Board.bob) None)
                  Board.one_post))
  = posts Board.one_post
  /\ replies (snd (app Board.env0 (GET_post_random (Some Board.bob) None)
                       Board.one_post))
     = replies Board.one_post.
Proof.
  destruct (get_routes_write_no_content
              Board.env0 (GET_post_random (Some Board.bob) None) Board.one_post
              eq_refl) as (H1 & H2 & _).
  split; [exact H1 | exact H2].
Defined.

Lemma post_reported_three_times_is_never_served_witness :
  app Board.env0 (GET_post_random (Some Board.bob) None)
      (serve [] Board2.alices_post_hidden)
  = (Send 200 (PostDoc Board2.carols_post),
     snd (app Board.env0 (GET_post_random (Some Board.bob) None)
              (serve [] Board2.alices_post_hidden)))
  /\ VoidPost._id Board2.carols_post <> 1%nat.
Proof.
  assert (E : app Board.env0 (GET_post_random (Some Board.bob) None)
                  (serve [] Board2.alices_post_hidden)
              = (Send 200 (PostDoc Board2.carols_post),
                 snd (app Board.env0 (GET_post_random (Some Board.bob) None)
                          (serve [] Board2.alices_post_hidden))))
    by (vm_compute; reflexivity).
  split; [exact E|].
  apply (post_reported_three_times_is_never_served
           1%nat three_reporters [] Board2.two_posts 0 "active")
    with (env := Board.env0) (k := Some Board.bob) (room := @None string)
         (db' := snd (app Board.env0 (GET_post_random (Some Board.bob) None)
                          (serve [] Board2.alices_post_hidden))).
  - discriminate.
  - repeat constructor.
  - apply (ids_fresh_serve [carol_posts]), one_post_ids_fresh.
  - vm_compute. reflexivity.
  - simpl. lia.
  - exact E.
Defined.

Lemma report_touches_the_reported_entity_only_witness :
  replies (snd (app Board.env0 (POST_report (Some Board.bob) (Some "post") 1%nat)
                    Board.one_post))
  = replies Board.one_post
  /\ exists p',
       Mongo.findOne (post_has_id 1%nat)
         (posts (snd (app Board.env0
                          (POST_report (Some Board.bob) (Some "post") 1%nat)
                          Board.one_post)))
       = Some p'
       /\ same_post_but_reports_and_status Board.alices_post p'.
Proof.
  destruct (report_touches_the_reported_entity_only
              Board.env0 (Some Board.bob) (Some "post") 1%nat Board.one_post)
    as (_ & H & _).
  - vm_compute. reflexivity.
  - destruct (H eq_refl) as (H1 & _ & H3). split; [exact H1|].
    apply H3. vm_compute. reflexivity.
Defined.

Lemma dashboard_lists_the_reported_content_witness :
  exists flaggedPosts flaggedReplies,
    app Board.env0 (GET_admin_dashboard (Some "secret123"))
        Board2.alices_post_reported
    = (Send 200 (Dashboard flaggedPosts flaggedReplies),
       Board2.alices_post_reported)
    /\ Permutation
         (filter (fun p => 0 <? VoidPost.reports p)
                 (posts Board2.alices_post_reported))
         flaggedPosts
    /\ StronglySorted post_not_less_reported flaggedPosts
    /\ Permutation
         (filter (fun r => 0 <? VoidReply.reports r)
                 (replies Board2.alices_post_reported))
         flaggedReplies
    /\ StronglySorted reply_not_less_reported flaggedReplies.
Proof.
  apply (dashboard_lists_the_reported_content
           Board.env0 "secret123" Board2.alices_post_reported).
  exact secret123_opens.
Defined.

Lemma my_room_shows_own_posts_with_visible_replies_witness :
  exists myPosts myInteractions db',
    app Board.env0 (GET_my_room (Some Board.alice)) Board2.talk
    = (Send 200 (MyRoom myPosts myInteractions), db')
    /\ posts db' = posts Board2.talk /\ replies db' = replies Board2.talk
    /\ Permutation
         (filter (fun p => (VoidPost.authorToken p =? Board.alice)%string)
                 (posts Board2.talk))
         (map fst myPosts)
    /\ StronglySorted post_not_older (map fst myPosts)
    /\ Forall (fun pr => visible_replies_of Board2.talk (VoidPost._id (fst pr))
                                            (snd pr))
              myPosts.
Proof.
  apply (my_room_shows_own_posts_with_visible_replies
           Board.env0 Board.alice Board2.talk).
  vm_compute. reflexivity.
Defined.

Lemma my_room_lists_each_joined_post_once_witness :
  exists myPosts myInteractions db',
    app Board.env0 (GET_my_room (Some Board.bob)) Board2.talk
    = (Send 200 (MyRoom myPosts myInteractions), db')
    /\ NoDup (map (fun i => VoidPost._id (fst i)) myInteractions)
    /\ (forall post,
           In post (map fst myInteractions) <->
           exists r, In r (replies Board2.talk)
                     /\ VoidReply.responderToken r = Board.bob
                     /\ VoidReply.isAuthorReply r = false
                     /\ Mongo.findOne (post_has_id (VoidReply.postId r))
                                      (posts Board2.talk) = Some post)
    /\ Forall (fun i => visible_replies_of Board2.talk (VoidPost._id (fst i))
                                           (snd i))
              myInteractions.
Proof.
  apply (my_room_lists_each_joined_post_once Board.env0 Board.bob Board2.talk).
  vm_compute. reflexivity.
Defined.

Lemma every_pool_post_can_be_drawn_witness :
  exists draw,
    fst (app (with_draw Board.env0 draw) (GET_post_random (Some Board.bob) None)
             Board.sixty_posts)
    = Send 200 (PostDoc bobs_draw).
Proof.
  apply (every_pool_post_can_be_drawn
           Board.env0 (Some Board.bob) None Board.sixty_posts bobs_draw).
  - vm_compute. reflexivity.
  - left. apply nth_error_In with 7%nat. vm_compute. reflexivity.
Defined.

Lemma posts_are_kept_and_counters_only_grow_witness :
  exists p',
    Mongo.findOne (post_has_id 1%nat)
      (posts (serve (reports_by three_reporters (Some "post") 1%nat)
                    Board.one_post))
    = Some p'
    /\ post_later Board.alices_post p'.
Proof.
  apply (posts_are_kept_and_counters_only_grow
           (reports_by three_reporters (Some "post") 1%nat)
           Board.one_post 1%nat Board.alices_post).
  vm_compute. reflexivity.
Defined.

Lemma me_answers_the_points_witness :
  app Board.env0 (GET_me (Some Board.alice)) Board.one_post
  = (Send 200 (Points (points emptyDb Board.alice + 1)), Board.one_post).
Proof.
  destruct (me_answers_the_points Board.env0 Board.alice emptyDb)
    as (_ & H & _).
  apply (H Board.env0 (Some "heartbroken") (Some "It has been six months")
           (Some "love") Board.alices_post Board.one_post).
  vm_compute. reflexivity.
Defined.
